(** * Hotel scrapers: extraction and enrichment pipeline

    A shallow embedding of the Python sources under [backend/]:
    [bookingScrapperWithFilters.py] (class [ModernBookingScraper]),
    [agodaScrapper.py] and the polling script shared with [test.py].

    Conventions.
    - Python [str] values are Rocq strings; a character is read as the code
      point of the same number (U+0000 to U+00FF), and the character classes
      of the interpreter ([str.isspace], [str.isdigit], the classes of [re])
      are given for that range.
    - Python [None] is [None] of an option type.
    - A Python [float] is a binary64 value of [SpecFloat]; conversion from
      text rounds to nearest, ties to even.
    - A call that can raise returns a [result]; [try]/[except] is [catch].
    - The browser, the HTTP session and the HTML selector engine are
      collaborators: they appear as fields of an explicit world record. *)

From Stdlib Require Import ZArith NArith PArith List String Ascii Bool Lia.
From Stdlib Require Import Floats.SpecFloat.
From Stdlib Require Import Reals Lra.
Import ListNotations.

Local Open Scope list_scope.
Local Open Scope string_scope.

(** ** Exceptions and results *)

Inductive exn : Set :=
| ValueError
| TypeError
| AttributeError
| ClientError.

Inductive result (A : Type) : Type :=
| Ok (a : A)
| Raise (e : exn).

Arguments Ok {A} a.
Arguments Raise {A} e.

Definition bind {A B : Type} (r : result A) (k : A -> result B) : result B :=
  match r with
  | Ok a => k a
  | Raise e => Raise e
  end.

Notation "x <- c ;; k" := (bind c (fun x => k))
  (at level 61, c at next level, right associativity).

(** [try: r except Exception: h] *)
Definition catch {A : Type} (r : result A) (h : A) : A :=
  match r with
  | Ok a => a
  | Raise _ => h
  end.

Definition is_ok {A : Type} (r : result A) : bool :=
  match r with
  | Ok _ => true
  | Raise _ => false
  end.

(** ** The Python runtime: [str], [int], [float] *)

Module Py.

Definition ord (c : ascii) : N := N_of_ascii c.

Definition in_range (lo hi n : N) : bool := (lo <=? n)%N && (n <=? hi)%N.

(** [str.isspace] and the class [\s] of a [str] pattern. *)
Definition isspace (c : ascii) : bool :=
  let n := ord c in
  in_range 9 13 n || in_range 28 32 n || (n =? 133)%N || (n =? 160)%N.

(** The class [\d] of a [str] pattern ([str.isdecimal]). *)
Definition isdecimal (c : ascii) : bool := in_range 48 57 (ord c).

(** [str.isdigit]: the decimal digits and the superscripts two, three, one. *)
Definition isdigit (c : ascii) : bool :=
  let n := ord c in
  in_range 48 57 n || (n =? 178)%N || (n =? 179)%N || (n =? 185)%N.

Definition digit_value (c : ascii) : N := (ord c - 48)%N.

Definition is_alpha_ascii (c : ascii) : bool :=
  let n := ord c in in_range 65 90 n || in_range 97 122 n.

Definition lower_char (c : ascii) : ascii :=
  let n := ord c in
  if in_range 65 90 n || (in_range 192 222 n && negb (n =? 215)%N)
  then ascii_of_N (n + 32) else c.

Fixpoint lower (s : string) : string :=
  match s with
  | EmptyString => EmptyString
  | String c s' => String (lower_char c) (lower s')
  end.

(** Truth value of a [str]: non-empty. *)
Definition truthy (s : string) : bool :=
  match s with
  | EmptyString => false
  | String _ _ => true
  end.

Fixpoint lstrip (s : string) : string :=
  match s with
  | EmptyString => EmptyString
  | String c s' => if isspace c then lstrip s' else s
  end.

Fixpoint rstrip (s : string) : string :=
  match s with
  | EmptyString => EmptyString
  | String c s' =>
      match rstrip s' with
      | EmptyString => if isspace c then EmptyString else String c EmptyString
      | r => String c r
      end
  end.

Definition strip (s : string) : string := lstrip (rstrip s).

Definition startswith (s p : string) : bool := prefix p s.

Fixpoint endswith (s p : string) : bool :=
  (s =? p) ||
  match s with
  | EmptyString => false
  | String _ s' => endswith s' p
  end.

(** [sub in s] *)
Fixpoint contains (s sub : string) : bool :=
  prefix sub s ||
  match s with
  | EmptyString => false
  | String _ s' => contains s' sub
  end.

Fixpoint drop (n : nat) (s : string) : string :=
  match n, s with
  | O, _ => s
  | S n', String _ s' => drop n' s'
  | S _, EmptyString => EmptyString
  end.

(** [s.count(sub)] for a non-empty [sub]: occurrences from left to right
    that do not overlap. [skip] characters of the last occurrence are still
    to be passed. *)
Fixpoint count_from (sub : string) (skip : nat) (s : string) : nat :=
  match s with
  | EmptyString => 0
  | String _ s' =>
      match skip with
      | S k => count_from sub k s'
      | O =>
          if prefix sub s
          then S (count_from sub (String.length sub - 1) s')
          else count_from sub 0 s'
      end
  end.

Definition count (s sub : string) : nat := count_from sub 0 s.

(** [s.replace(sub, '')] for a non-empty [sub]. *)
Fixpoint remove_from (sub : string) (skip : nat) (s : string) : string :=
  match s with
  | EmptyString => EmptyString
  | String c s' =>
      match skip with
      | S k => remove_from sub k s'
      | O =>
          if prefix sub s
          then remove_from sub (String.length sub - 1) s'
          else String c (remove_from sub 0 s')
      end
  end.

Definition remove (s sub : string) : string := remove_from sub 0 s.

(** [s.replace(c, '')] for one character. *)
Fixpoint remove_char (c : ascii) (s : string) : string :=
  match s with
  | EmptyString => EmptyString
  | String d s' =>
      if Ascii.eqb d c then remove_char c s' else String d (remove_char c s')
  end.

(** [s.replace(a, b)] for single characters. *)
Fixpoint replace_char (a b : ascii) (s : string) : string :=
  match s with
  | EmptyString => EmptyString
  | String d s' =>
      String (if Ascii.eqb d a then b else d) (replace_char a b s')
  end.

(** [s.split(sep)] for a one-character separator; never the empty list. *)
Fixpoint split (sep : ascii) (s : string) : list string :=
  match s with
  | EmptyString => [EmptyString]
  | String c s' =>
      if Ascii.eqb c sep then EmptyString :: split sep s'
      else
        match split sep s' with
        | h :: t => String c h :: t
        | [] => [String c EmptyString]
        end
  end.

(** [s.partition(sep)]: the text before the first [sep], whether [sep]
    occurs, and the text after it. *)
Fixpoint partition (sep : ascii) (s : string) : string * bool * string :=
  match s with
  | EmptyString => (EmptyString, false, EmptyString)
  | String c s' =>
      if Ascii.eqb c sep then (EmptyString, true, s')
      else let '(a, found, b) := partition sep s' in (String c a, found, b)
  end.

Definition join (sep : string) (l : list string) : string := concat sep l.

(** [c in s], [all(p(c) for c in s)] and [x in l] *)
Fixpoint mem_char (c : ascii) (s : string) : bool :=
  match s with
  | EmptyString => false
  | String d s' => Ascii.eqb c d || mem_char c s'
  end.

Fixpoint all_chars (p : ascii -> bool) (s : string) : bool :=
  match s with
  | EmptyString => true
  | String c s' => p c && all_chars p s'
  end.

Fixpoint mem_string (x : string) (l : list string) : bool :=
  match l with
  | [] => false
  | y :: l' => (x =? y) || mem_string x l'
  end.


(** *** [int] *)

(** [digit (["_"] digit)*] continued after a first digit: the value so far,
    the number of digits read, and what is left. *)
Fixpoint digits_tail (acc : N) (n : N) (s : string) : N * N * string :=
  match s with
  | String c s' =>
      if isdecimal c then digits_tail (acc * 10 + digit_value c) (n + 1) s'
      else if Ascii.eqb c "_" then
        match s' with
        | String d s'' =>
            if isdecimal d
            then digits_tail (acc * 10 + digit_value d) (n + 1) s''
            else (acc, n, s)
        | EmptyString => (acc, n, s)
        end
      else (acc, n, s)
  | EmptyString => (acc, n, s)
  end.

Definition digitpart_from (acc n : N) (s : string) : option (N * N * string) :=
  match s with
  | String c s' =>
      if isdecimal c
      then Some (digits_tail (acc * 10 + digit_value c) (n + 1) s')
      else None
  | EmptyString => None
  end.

Definition digitpart (s : string) : option (N * N * string) :=
  digitpart_from 0 0 s.

(** An optional sign: [true] for a minus. *)
Definition sign_of (s : string) : bool * string :=
  match s with
  | String "-" s' => (true, s')
  | String "+" s' => (false, s')
  | _ => (false, s)
  end.

(** [int(s)] in base ten: surrounding white space, an optional sign,
    digits with single underscores between them. *)
Definition int (s : string) : result Z :=
  let '(neg, body) := sign_of (strip s) in
  match digitpart body with
  | Some (v, _, EmptyString) =>
      Ok (if neg then Z.opp (Z.of_N v) else Z.of_N v)
  | _ => Raise ValueError
  end.

(** *** [str] of an [int] *)

Definition digit_char (d : N) : ascii := ascii_of_N (48 + d).

Fixpoint decimal_fuel (fuel : nat) (n : N) (acc : string) : string :=
  match fuel with
  | O => acc
  | S f =>
      let acc' := String (digit_char (n mod 10)) acc in
      if (n <? 10)%N then acc' else decimal_fuel f (n / 10) acc'
  end.

Definition str_of_N (n : N) : string :=
  decimal_fuel (S (N.to_nat (N.log2 n))) n EmptyString.

Definition str_of_Z (z : Z) : string :=
  match z with
  | Zneg p => String "-" (str_of_N (Npos p))
  | _ => str_of_N (Z.to_N z)
  end.

(** *** [float] *)

Definition prec : Z := 53.
Definition emax : Z := 1024.

(** The binary64 value nearest to [m * 10 ^ e], ties to even. *)
Definition float_of_decimal (neg : bool) (m : N) (e : Z) : spec_float :=
  match m with
  | N0 => S754_zero neg
  | Npos p =>
      match e with
      | Zneg k =>
          let '(q, e', l) :=
            SFdiv_core_binary prec emax (Zpos p) 0 (Z.pow 10 (Zpos k)) 0 in
          binary_round_aux prec emax neg q e' l
      | _ => binary_round prec emax neg (Pos.mul p (Z.to_pos (Z.pow 10 e))) 0
      end
  end.

(** [("e" | "E") [sign] digitpart], when present and well formed. *)
Definition exponent_of (s : string) : option (Z * string) :=
  match s with
  | String c s' =>
      if Ascii.eqb c "e" || Ascii.eqb c "E" then
        let '(neg, body) := sign_of s' in
        match digitpart body with
        | Some (v, _, rest) =>
            Some (if neg then Z.opp (Z.of_N v) else Z.of_N v, rest)
        | None => None
        end
      else None
  | EmptyString => None
  end.

(** [[digitpart] "." digitpart | digitpart ["."]]: the digits as one
    number, how many of them follow the point, and what is left. *)
Definition number_of (s : string) : option (N * N * string) :=
  match digitpart s with
  | Some (v, _, String "." s') =>
      match digitpart_from v 0 s' with
      | Some r => Some r
      | None => Some (v, 0%N, s')
      end
  | Some (v, _, rest) => Some (v, 0%N, rest)
  | None =>
      match s with
      | String "." s' => digitpart_from 0 0 s'
      | _ => None
      end
  end.

Definition floatnumber (neg : bool) (s : string) : result spec_float :=
  match number_of s with
  | Some (m, frac, rest) =>
      match rest with
      | EmptyString => Ok (float_of_decimal neg m (- Z.of_N frac))
      | _ =>
          match exponent_of rest with
          | Some (e, EmptyString) =>
              Ok (float_of_decimal neg m (e - Z.of_N frac))
          | _ => Raise ValueError
          end
      end
  | None => Raise ValueError
  end.

(** [float(s)] *)
Definition float (s : string) : result spec_float :=
  let '(neg, body) := sign_of (strip s) in
  let low := lower body in
  if (low =? "inf") || (low =? "infinity") then Ok (S754_infinity neg)
  else if low =? "nan" then Ok S754_nan
  else floatnumber neg body.

Definition fle (x y : spec_float) : bool := SFleb x y.

Definition float_of_Z (z : Z) : spec_float := binary_normalize prec emax z 0 false.

End Py.

(** ** The patterns of [re] used by the scrapers

    A pattern is a sequence of atoms; the atoms of its one group are flagged.
    Matching is the backtracking search of [re]: a repetition is greedy and
    gives characters back one at a time. *)

Module Re.

Inductive atom : Type :=
| Lit (s : string)
| One (cls : ascii -> bool)
| Rep (cls : ascii -> bool) (min : nat).

Definition pattern : Type := list (atom * bool).

Fixpoint take (n : nat) (s : string) : string :=
  match n, s with
  | S n', String c s' => String c (take n' s')
  | _, _ => EmptyString
  end.

Fixpoint run_length (cls : ascii -> bool) (s : string) : nat :=
  match s with
  | String c s' => if cls c then S (run_length cls s') else 0
  | EmptyString => 0
  end.

Definition grouped (g : bool) (s : string) : string :=
  if g then s else EmptyString.

(** Give back characters of a repetition until the rest of the pattern,
    [k], matches; never fewer than [min] characters. *)
Fixpoint give_back (k : string -> option (string * string)) (g : bool)
    (min : nat) (s : string) (n : nat) : option (string * string) :=
  match k (Py.drop n s) with
  | Some (grp, rest) => Some (grouped g (take n s) ++ grp, rest)
  | None =>
      match n with
      | O => None
      | S n' => if (min <=? n')%nat then give_back k g min s n' else None
      end
  end.

(** Match at the start of [s]: the text of the group and what follows the
    match. *)
Fixpoint match_here (p : pattern) (s : string) : option (string * string) :=
  match p with
  | [] => Some (EmptyString, s)
  | (Lit l, g) :: p' =>
      if prefix l s then
        match match_here p' (Py.drop (String.length l) s) with
        | Some (grp, rest) => Some (grouped g l ++ grp, rest)
        | None => None
        end
      else None
  | (One cls, g) :: p' =>
      match s with
      | String c s' =>
          if cls c then
            match match_here p' s' with
            | Some (grp, rest) => Some (grouped g (String c EmptyString) ++ grp, rest)
            | None => None
            end
          else None
      | EmptyString => None
      end
  | (Rep cls min, g) :: p' =>
      let n := run_length cls s in
      if (min <=? n)%nat then give_back (match_here p') g min s n else None
  end.

(** [re.search(p, s)]: the leftmost match; [.group(1)] of it. Also the first
    element of [re.findall(p, s)]. *)
Fixpoint search (p : pattern) (s : string) : option string :=
  match match_here p s with
  | Some (grp, _) => Some grp
  | None =>
      match s with
      | EmptyString => None
      | String _ s' => search p s'
      end
  end.

Definition dquote : ascii := "034"%char.

Definition digit_or_dot (c : ascii) : bool := Py.isdecimal c || Ascii.eqb c ".".
Definition digit_or_comma (c : ascii) : bool := Py.isdecimal c || Ascii.eqb c ",".
Definition not_dquote (c : ascii) : bool := negb (Ascii.eqb c dquote).

(** [r'Scored\s+([\d.]+)'] *)
Definition scored : pattern :=
  [(Lit "Scored", false); (Rep Py.isspace 1, false); (Rep digit_or_dot 1, true)].

(** [r'([\d.]+)'] *)
Definition number_run : pattern := [(Rep digit_or_dot 1, true)].

(** The pattern for the number of reviews: a group made of one [\d] and
    any number of [\d] or commas, then [\s+] and the word [reviews]. *)
Definition reviews : pattern :=
  [(One Py.isdecimal, true); (Rep digit_or_comma 0, true);
   (Rep Py.isspace 1, false); (Lit "reviews", false)].

(** The pattern of [get_hotel_coordinates]: the attribute name
    [data-atlas-latlng], an equals sign, and between two double quotes one
    or more characters other than a double quote, which are the group. *)
Definition atlas_latlng : pattern :=
  [(Lit ("data-atlas-latlng=" ++ String dquote EmptyString), false);
   (Rep not_dquote 1, true);
   (Lit (String dquote EmptyString), false)].

End Re.

(** ** [datetime.strptime(s, '%Y-%m-%d')] and comparison of the results *)

Module Datetime.

Record date : Set := mkdate { year : N; month : N; day : N }.

Definition is_chr (a : ascii) (c : ascii) : bool := Ascii.eqb c a.
Definition chr_between (lo hi : ascii) (c : ascii) : bool :=
  Py.in_range (Py.ord lo) (Py.ord hi) (Py.ord c).

(** Two characters of the given classes, read as a two-digit number. *)
Definition two (p1 p2 : ascii -> bool) (s : string) : option (N * string) :=
  match s with
  | String c1 (String c2 rest) =>
      if p1 c1 && p2 c2
      then Some ((Py.digit_value c1 * 10 + Py.digit_value c2)%N, rest)
      else None
  | _ => None
  end.

Definition one (p : ascii -> bool) (s : string) : option (N * string) :=
  match s with
  | String c rest => if p c then Some (Py.digit_value c, rest) else None
  | EmptyString => None
  end.

(** A space and one digit: the last alternative of [%d]. *)
Definition padded (p : ascii -> bool) (s : string) : option (N * string) :=
  match s with
  | String " " rest => one p rest
  | _ => None
  end.

(** [%m] is [1[0-2]|0[1-9]|[1-9]], in this order. *)
Definition month_alts : list (string -> option (N * string)) :=
  [two (is_chr "1") (chr_between "0" "2");
   two (is_chr "0") (chr_between "1" "9");
   one (chr_between "1" "9")].

(** [%d] is [3[0-1]|[1-2]\d|0[1-9]|[1-9]| [1-9]], in this order. *)
Definition day_alts : list (string -> option (N * string)) :=
  [two (is_chr "3") (chr_between "0" "1");
   two (chr_between "1" "2") Py.isdecimal;
   two (is_chr "0") (chr_between "1" "9");
   one (chr_between "1" "9");
   padded (chr_between "1" "9")].

(** [%Y] is [\d\d\d\d]. *)
Definition year4 (s : string) : option (N * string) :=
  match s with
  | String a (String b (String c (String d rest))) =>
      if Py.isdecimal a && Py.isdecimal b && Py.isdecimal c && Py.isdecimal d
      then Some ((((Py.digit_value a * 10 + Py.digit_value b) * 10
                   + Py.digit_value c) * 10 + Py.digit_value d)%N, rest)
      else None
  | _ => None
  end.

Definition dash (s : string) : option string :=
  match s with
  | String "-" rest => Some rest
  | _ => None
  end.

(** The first alternative that matches. *)
Fixpoint first_alt {A : Type} (alts : list (string -> option A)) (s : string)
  : option A :=
  match alts with
  | [] => None
  | f :: alts' =>
      match f s with
      | Some r => Some r
      | None => first_alt alts' s
      end
  end.

(** The alternatives of the month in order; one is kept when the rest of
    the pattern matches after it. *)
Fixpoint month_then_day (alts : list (string -> option (N * string)))
    (s : string) : option (N * N * string) :=
  match alts with
  | [] => None
  | f :: alts' =>
      let next := month_then_day alts' s in
      match f s with
      | Some (m, rest) =>
          match dash rest with
          | Some rest' =>
              match first_alt day_alts rest' with
              | Some (d, rest'') => Some (m, d, rest'')
              | None => next
              end
          | None => next
          end
      | None => next
      end
  end.

(** [format_regex.match(data_string)] *)
Definition match_format (s : string) : option (N * N * N * string) :=
  match year4 s with
  | Some (y, rest) =>
      match dash rest with
      | Some rest' =>
          match month_then_day month_alts rest' with
          | Some (m, d, rest'') => Some (y, m, d, rest'')
          | None => None
          end
      | None => None
      end
  | None => None
  end.

Definition is_leap (y : N) : bool :=
  ((y mod 4 =? 0) && (negb (y mod 100 =? 0) || (y mod 400 =? 0)))%N.

Definition days_in_month (y m : N) : N :=
  match m with
  | 2 => if is_leap y then 29 else 28
  | 4 | 6 | 9 | 11 => 30
  | _ => 31
  end%N.

(** The constructor [datetime(year, month, day)] accepts the fields. *)
Definition valid_date (y m d : N) : bool :=
  ((1 <=? y) && (y <=? 9999) && (1 <=? m) && (m <=? 12)
   && (1 <=? d) && (d <=? days_in_month y m))%N.

Definition strptime (s : string) : result date :=
  match match_format s with
  | Some (y, m, d, EmptyString) =>
      if valid_date y m d then Ok (mkdate y m d) else Raise ValueError
  | _ => Raise ValueError
  end.

(** [a <= b] on two [datetime] values at midnight. *)
Definition le (a b : date) : bool :=
  ((year a <? year b)
   || ((year a =? year b)
       && ((month a <? month b)
           || ((month a =? month b) && (day a <=? day b)))))%N.

End Datetime.

(** ** [urllib.parse]: [urlencode], [urlparse], [parse_qs], [urljoin]

    The functions follow the module as distributed with CPython 3.10. The
    result of [unquote] may leave the code points below 256, so it is a list
    of code points. *)

Module Urllib.

Definition is_alnum_ascii (c : ascii) : bool :=
  Py.is_alpha_ascii c || Py.isdecimal c.

(** *** Quoting *)

Definition always_safe (c : ascii) : bool :=
  is_alnum_ascii c || Py.mem_char c "_.-~".

Definition hex_char (n : N) : ascii :=
  if (n <? 10)%N then ascii_of_N (48 + n) else ascii_of_N (55 + n).

Definition percent (b : N) : string :=
  String "%" (String (hex_char (b / 16)) (String (hex_char (b mod 16)) EmptyString)).

(** The UTF-8 encoding of a code point below 256. *)
Definition utf8 (c : ascii) : list N :=
  let n := Py.ord c in
  if (n <? 128)%N then [n] else [(192 + n / 64)%N; (128 + n mod 64)%N].

Definition quote_plus_char (c : ascii) : string :=
  if always_safe c then String c EmptyString
  else if Ascii.eqb c " " then "+"
  else concat EmptyString (map percent (utf8 c)).

(** [quote_plus(s, safe='')] *)
Fixpoint quote_plus (s : string) : string :=
  match s with
  | EmptyString => EmptyString
  | String c s' => quote_plus_char c ++ quote_plus s'
  end.

(** [urlencode(d)] for a dictionary [d] given by its items in insertion
    order, the values already passed through [str]. *)
Definition urlencode (items : list (string * string)) : string :=
  Py.join "&" (map (fun kv => quote_plus (fst kv) ++ "=" ++ quote_plus (snd kv)) items).

(** *** Unquoting *)

Inductive unit_item : Set :=
| Byte (b : N)
| Point (n : N).

Definition hex_value (c : ascii) : option N :=
  let n := Py.ord c in
  if Py.in_range 48 57 n then Some (n - 48)%N
  else if Py.in_range 65 70 n then Some (n - 55)%N
  else if Py.in_range 97 102 n then Some (n - 87)%N
  else None.

(** Percent escapes become bytes, the other characters below 128 are
    bytes as they are, and the characters from 128 on stay code points. *)
Fixpoint unquote_items (s : string) : list unit_item :=
  match s with
  | EmptyString => []
  | String c s' =>
      let plain :=
        (if (Py.ord c <? 128)%N then Byte (Py.ord c) else Point (Py.ord c))
        :: unquote_items s' in
      if Ascii.eqb c "%" then
        match s' with
        | String h (String l s'') =>
            match hex_value h, hex_value l with
            | Some a, Some b => Byte (a * 16 + b) :: unquote_items s''
            | _, _ => plain
            end
        | _ => plain
        end
      else plain
  end.

Definition replacement : N := 65533.

(** A sequence under way: continuation bytes still needed, the bits read,
    and the range allowed for the next byte. *)
Definition pending : Set := (nat * N * N * N)%type.

(** A byte met outside a sequence. *)
Definition fresh (b : N) : list N * option pending :=
  if (b <? 128)%N then ([b], None)
  else if Py.in_range 194 223 b then ([], Some (1%nat, (b - 192)%N, 128%N, 191%N))
  else if (b =? 224)%N then ([], Some (2%nat, 0%N, 160%N, 191%N))
  else if (b =? 237)%N then ([], Some (2%nat, 13%N, 128%N, 159%N))
  else if Py.in_range 225 239 b then ([], Some (2%nat, (b - 224)%N, 128%N, 191%N))
  else if (b =? 240)%N then ([], Some (3%nat, 0%N, 144%N, 191%N))
  else if Py.in_range 241 243 b then ([], Some (3%nat, (b - 240)%N, 128%N, 191%N))
  else if (b =? 244)%N then ([], Some (3%nat, 4%N, 128%N, 143%N))
  else ([replacement], None).

(** [bytes.decode('utf-8', 'replace')], each maximal ill-formed part giving
    one replacement character. *)
Fixpoint decode (st : option pending) (l : list unit_item) : list N :=
  match l with
  | [] => match st with Some _ => [replacement] | None => [] end
  | Point n :: l' =>
      match st with
      | Some _ => replacement :: n :: decode None l'
      | None => n :: decode None l'
      end
  | Byte b :: l' =>
      match st with
      | None => let '(out, st') := fresh b in (out ++ decode st' l')%list
      | Some (k, acc, lo, hi) =>
          if Py.in_range lo hi b then
            let acc' := (acc * 64 + (b - 128))%N in
            match k with
            | S (S k') => decode (Some (S k', acc', 128%N, 191%N)) l'
            | _ => acc' :: decode None l'
            end
          else
            let '(out, st') := fresh b in
            (replacement :: out ++ decode st' l')%list
      end
  end.

Definition points (s : string) : list N :=
  map Py.ord (list_ascii_of_string s).

(** [unquote(s)] *)
Definition unquote (s : string) : list N :=
  if Py.mem_char "%" s then decode None (unquote_items s) else points s.

(** [parse_qsl(qs)] with the default arguments *)
Definition parse_qsl (qs : string) : list (list N * list N) :=
  flat_map
    (fun name_value =>
       let '(name, has_eq, value) := Py.partition "=" name_value in
       if has_eq && Py.truthy value
       then [(unquote (Py.replace_char "+" " " name),
              unquote (Py.replace_char "+" " " value))]
       else [])
    (Py.split "&" qs).

Definition points_eqb (a b : list N) : bool :=
  if list_eq_dec N.eq_dec a b then true else false.

(** [parse_qs(qs)[name][0]] when [name in parse_qs(qs)] *)
Fixpoint first_value (name : list N) (pairs : list (list N * list N))
  : option (list N) :=
  match pairs with
  | [] => None
  | (k, v) :: pairs' =>
      if points_eqb k name then Some v else first_value name pairs'
  end.

(** *** Splitting *)

Record parse_result : Set := mkparsed {
  scheme : string;
  netloc : string;
  path : string;
  params : string;
  query : string;
  fragment : string
}.

Definition uses_relative : list string :=
  [""; "ftp"; "http"; "gopher"; "nntp"; "imap"; "wais"; "file"; "https";
   "shttp"; "mms"; "prospero"; "rtsp"; "rtspu"; "sftp"; "svn"; "svn+ssh";
   "ws"; "wss"].

Definition uses_netloc : list string :=
  [""; "ftp"; "http"; "gopher"; "nntp"; "telnet"; "imap"; "wais"; "file";
   "mms"; "https"; "shttp"; "snews"; "prospero"; "rtsp"; "rtspu"; "rsync";
   "svn"; "svn+ssh"; "sftp"; "nfs"; "git"; "git+ssh"; "ws"; "wss"].

Definition uses_params : list string :=
  [""; "ftp"; "hdl"; "prospero"; "http"; "imap"; "https"; "shttp"; "rtsp";
   "rtspu"; "sip"; "sips"; "mms"; "sftp"; "tel"].

Definition scheme_char (c : ascii) : bool :=
  is_alnum_ascii c || Py.mem_char c "+-.".

Definition unsafe_byte (c : ascii) : bool :=
  let n := Py.ord c in (n =? 9)%N || (n =? 10)%N || (n =? 13)%N.

Fixpoint remove_unsafe (s : string) : string :=
  match s with
  | EmptyString => EmptyString
  | String c s' =>
      if unsafe_byte c then remove_unsafe s' else String c (remove_unsafe s')
  end.

(** The text before the first of [/], [?], [#], and the text from it on. *)
Fixpoint splitnetloc (s : string) : string * string :=
  match s with
  | EmptyString => (EmptyString, EmptyString)
  | String c s' =>
      if Py.mem_char c "/?#" then (EmptyString, s)
      else let '(a, b) := splitnetloc s' in (String c a, b)
  end.

(** [urlsplit(url, scheme)] with the fragment kept in [fragment]; [params]
    is filled by [urlparse]. *)
Definition urlsplit (url dflt : string) : result parse_result :=
  let url := remove_unsafe url in
  let dflt := remove_unsafe dflt in
  let '(before, colon, after) := Py.partition ":" url in
  let '(sch, url) :=
    if colon && Py.truthy before && Py.all_chars scheme_char before
    then (Py.lower before, after) else (dflt, url) in
  nl <-
    (if prefix "//" url then
       let '(nl, rest) := splitnetloc (Py.drop 2 url) in
       if xorb (Py.mem_char "[" nl) (Py.mem_char "]" nl)
       then Raise ValueError else Ok (nl, rest)
     else Ok (EmptyString, url)) ;;
  let '(nl, url) := nl in
  let '(url, _, frag) := Py.partition "#" url in
  let '(url, _, qry) := Py.partition "?" url in
  Ok (mkparsed sch nl url EmptyString qry frag).

(** The parameters are what follows the first [;] of the last segment. *)
Definition splitparams (url : string) : string * string :=
  let segs := Py.split "/" url in
  let '(a, found, b) := Py.partition ";" (last segs EmptyString) in
  if found then (Py.join "/" (removelast segs ++ [a])%list, b)
  else (url, EmptyString).

Definition urlparse (url dflt : string) : result parse_result :=
  r <- urlsplit url dflt ;;
  if Py.mem_string (scheme r) uses_params && Py.mem_char ";" (path r) then
    let '(p, prm) := splitparams (path r) in
    Ok (mkparsed (scheme r) (netloc r) p prm (query r) (fragment r))
  else Ok r.

(** The attribute [hostname] of a parse result *)
Definition hostname (r : parse_result) : option string :=
  let hostinfo := last (Py.split "@" (netloc r)) EmptyString in
  let '(_, have_open_br, bracketed) := Py.partition "[" hostinfo in
  let host :=
    if have_open_br
    then fst (fst (Py.partition "]" bracketed))
    else fst (fst (Py.partition ":" hostinfo)) in
  if Py.truthy host then
    let '(h, pct, zone) := Py.partition "%" host in
    Some (Py.lower h ++ (if pct then "%" else EmptyString) ++ zone)
  else None.

Definition urlunsplit (sch nl url qry frag : string) : string :=
  let url :=
    if Py.truthy nl
       || (Py.truthy sch && Py.mem_string sch uses_netloc && negb (prefix "//" url))
    then "//" ++ nl ++ (if Py.truthy url && negb (prefix "/" url) then "/" ++ url else url)
    else url in
  let url := if Py.truthy sch then sch ++ ":" ++ url else url in
  let url := if Py.truthy qry then url ++ "?" ++ qry else url in
  if Py.truthy frag then url ++ "#" ++ frag else url.

Definition urlunparse (sch nl url prm qry frag : string) : string :=
  urlunsplit sch nl (if Py.truthy prm then url ++ ";" ++ prm else url) qry frag.

(** The loop of [urljoin] over the segments: [..] removes the last
    segment kept so far, [.] is skipped. The list is kept reversed. *)
Fixpoint resolve (segments : list string) (rev_resolved : list string)
  : list string :=
  match segments with
  | [] => rev rev_resolved
  | seg :: rest =>
      if seg =? ".." then resolve rest (tl rev_resolved)
      else if seg =? "." then resolve rest rev_resolved
      else resolve rest (seg :: rev_resolved)
  end.

(** [segments[1:-1] = filter(None, segments[1:-1])] *)
Definition drop_empty_inner (segments : list string) : list string :=
  match segments with
  | [] => []
  | [x] => [x]
  | first :: rest =>
      (first :: filter Py.truthy (removelast rest) ++ [last rest EmptyString])%list
  end.

Definition urljoin (base url : string) : result string :=
  if negb (Py.truthy base) then Ok url
  else if negb (Py.truthy url) then Ok base
  else
    b <- urlparse base EmptyString ;;
    u <- urlparse url (scheme b) ;;
    if negb (scheme u =? scheme b) || negb (Py.mem_string (scheme u) uses_relative)
    then Ok url
    else if Py.mem_string (scheme u) uses_netloc && Py.truthy (netloc u)
    then Ok (urlunparse (scheme u) (netloc u) (path u) (params u) (query u) (fragment u))
    else
      let nl := if Py.mem_string (scheme u) uses_netloc then netloc b else netloc u in
      if negb (Py.truthy (path u)) && negb (Py.truthy (params u))
      then
        Ok (urlunparse (scheme u) nl (path b) (params b)
              (if Py.truthy (query u) then query u else query b) (fragment u))
      else
        let base_parts := Py.split "/" (path b) in
        let base_parts :=
          if Py.truthy (last base_parts EmptyString)
          then removelast base_parts else base_parts in
        let segments :=
          if prefix "/" (path u) then Py.split "/" (path u)
          else drop_empty_inner (base_parts ++ Py.split "/" (path u))%list in
        let resolved := resolve segments [] in
        let resolved :=
          if Py.mem_string (last segments EmptyString) ["."; ".."]
          then (resolved ++ [EmptyString])%list else resolved in
        let joined := Py.join "/" resolved in
        Ok (urlunparse (scheme u) nl (if Py.truthy joined then joined else "/")
              (params u) (query u) (fragment u)).

End Urllib.

(** ** Real-valued reading of [math] on floats

    [calculate_distance] is read over the real numbers: the value of a
    finite float is exact, the operations of [math] are the real functions,
    and the rounding error of the intermediate results is left out. *)

Module Math.

Local Open Scope R_scope.

Definition SF2R (f : spec_float) : R :=
  match f with
  | S754_finite s m e =>
      (if s then -1 else 1) * IZR (Zpos m) * powerRZ 2 e
  | _ => 0
  end.

(** [math.radians] *)
Definition radians (x : R) : R := x * (PI / 180).

(** [math.atan2] *)
Definition atan2 (y x : R) : R :=
  if Rlt_dec 0 x then atan (y / x)
  else if Rlt_dec x 0 then
    if Rle_dec 0 y then atan (y / x) + PI else atan (y / x) - PI
  else if Rlt_dec 0 y then PI / 2
  else if Rlt_dec y 0 then - (PI / 2)
  else 0.

(** The nearest integer, a tie going to the even one. *)
Definition round_half_even (x : R) : Z :=
  let f := Int_part x in
  let d := x - IZR f in
  if Rlt_dec d (1 / 2) then f
  else if Rlt_dec (1 / 2) d then (f + 1)%Z
  else if Z.even f then f else (f + 1)%Z.

(** [round(x, 2)] *)
Definition round2 (x : R) : R := IZR (round_half_even (x * 100)) / 100.

End Math.

(** ** [bookingScrapperWithFilters.py]: class [ModernBookingScraper] *)

Module Booking.

Definition base_url : string := "https://www.booking.com".

(** *** Data *)

(** One element of [raw_data]: the fields of the schema of
    [get_xpath_schema]; [None] when the key is missing. *)
Record raw_hotel : Set := mkraw {
  raw_name : option string;
  raw_price : option string;
  raw_rating : option string;
  raw_location : option string;
  raw_distance : option string;
  raw_url : option string;
  raw_availability_message : option string;
  raw_stars : option string;
  raw_coordinates : option string
}.

(** [d.get(key, "")] *)
Definition get_or_empty (v : option string) : string :=
  match v with
  | Some s => s
  | None => EmptyString
  end.

Record rating : Set := mkrating {
  score : option spec_float;
  reviews : option Z
}.

Record coordinates : Set := mkcoords {
  latitude : spec_float;
  longitude : spec_float
}.

(** A review is a dictionary from field names to texts. *)
Definition review : Set := list (string * string).

Record hotel : Type := mkhotel {
  id : option (list N);
  name : option string;
  price : option string;
  hotel_rating : rating;
  stars : option nat;
  location : option string;
  url : string;
  availability : option string;
  coords : option coordinates;
  hotel_reviews : option (list review);
  distance_from_center : option R
}.

(** *** The collaborators *)

Record response : Set := mkresponse {
  status : Z;
  text : result string
}.

(** What the selector engine finds in one [.review_item] node. *)
Record review_item : Set := mkreview_item {
  ri_reviewer_name : string;
  ri_reviewer_country : string;
  ri_review_count : string;
  ri_review_title : string;
  ri_review_positive : list string;
  ri_review_negative : list string;
  ri_review_date : string;
  ri_review_score : string
}.

(** What the selector engine finds in one [data-testid="review"] node. *)
Record main_review : Set := mkmain_review {
  mr_score : string;
  mr_title : string;
  mr_reviewer : string;
  mr_date : string;
  mr_positive : list string;
  mr_negative : list string;
  mr_country : string;
  mr_room_type : string
}.

Record world : Type := mkworld {
  (** [session.get(url, headers=headers)]: a response, or an exception *)
  http_get : string -> result response;
  (** the [href] of the first [a[data-testid="reviews-link"]] of a page *)
  css_reviews_link : string -> option string;
  (** the [.review_item] nodes of a page *)
  css_review_items : string -> list review_item;
  (** the [[data-testid="review"]] nodes of a page *)
  css_main_reviews : string -> list main_review;
  (** the verdict of [check_no_properties_found] on a search URL *)
  no_properties_found : string -> bool;
  (** [crawler.arun]: the extracted items, or [None] without success *)
  crawl : string -> option (list raw_hotel)
}.

(** *** [build_search_url] *)

(** The loop over [filters]. *)
Fixpoint format_filters (filters : list string) : result (list string) :=
  match filters with
  | [] => Ok []
  | filter_item :: rest =>
      formatted <-
        (if Py.startswith filter_item "distance=" then
           distance_meters <- Py.int (nth 1 (Py.split "=" filter_item) EmptyString) ;;
           Ok ("distance=" ++ Py.str_of_Z distance_meters)
         else Ok filter_item) ;;
      rest' <- format_filters rest ;;
      Ok (formatted :: rest')
  end.

Definition nflt_value (filters : option (list string)) : result string :=
  match filters with
  | None | Some [] => Ok "ht_id=204"
  | Some fs =>
      formatted <- format_filters fs ;;
      Ok (Py.join ";" ("ht_id=204" :: formatted))
  end.

Definition query_params (location check_in check_out : string) (adults : Z)
    (currency nflt : string) : list (string * string) :=
  [("ss", location);
   ("checkin", check_in);
   ("checkout", check_out);
   ("group_adults", Py.str_of_Z adults);
   ("selected_currency", currency);
   ("order", "popularity");
   ("nflt", nflt)].

Definition build_search_url (location check_in check_out : string)
    (adults : Z) (filters : option (list string)) (currency : string)
  : result string :=
  nflt <- nflt_value filters ;;
  Ok (base_url ++ "/searchresults.html?"
      ++ Urllib.urlencode
           (query_params location check_in check_out adults currency nflt)).

(** *** The normalizers *)

Definition clean_rating (raw_rating : string) : result rating :=
  let score_match := Re.search Re.scored raw_rating in
  let reviews_match := Re.search Re.reviews raw_rating in
  sc <- match score_match with
        | Some g => f <- Py.float g ;; Ok (Some f)
        | None => Ok None
        end ;;
  rv <- match reviews_match with
        | Some g => n <- Py.int (Py.remove_char "," g) ;; Ok (Some n)
        | None => Ok None
        end ;;
  Ok (mkrating sc rv).

Definition extract_star_count (stars_html : string) : option nat :=
  if negb (Py.truthy stars_html) then None
  else
    let span_count := Py.count stars_html "<span" in
    if (0 <? span_count)%nat then Some (span_count / 2)%nat else None.

Definition in_closed (lo hi : Z) (x : spec_float) : bool :=
  Py.fle (Py.float_of_Z lo) x && Py.fle x (Py.float_of_Z hi).

Definition extract_coordinates (coords_str : string) : option coordinates :=
  if negb (Py.truthy coords_str) then None
  else
    catch
      (match Py.split "," coords_str with
       | [a; b] =>
           lat <- Py.float a ;;
           lng <- Py.float b ;;
           if in_closed (-90) 90 lat && in_closed (-180) 180 lng
           then Ok (Some (mkcoords lat lng))
           else Ok None
       | _ => Raise ValueError
       end)
      None.

Fixpoint all_digits (s : string) : bool :=
  match s with
  | EmptyString => true
  | String c s' => Py.isdigit c && all_digits s'
  end.

(** [str.isdigit] *)
Definition str_isdigit (s : string) : bool := Py.truthy s && all_digits s.

(** The loop of [extract_hotel_id] over the parts of the path. *)
Fixpoint id_in_path (path_parts : list string) : option string :=
  match path_parts with
  | [] => None
  | part :: rest =>
      if Py.startswith part "hotel" then Some part
      else if Py.startswith part "ac-" then Some part
      else if str_isdigit part then Some part
      else id_in_path rest
  end.

Fixpoint id_in_query (names : list string) (pairs : list (list N * list N))
  : option (list N) :=
  match names with
  | [] => None
  | param :: rest =>
      match Urllib.first_value (Urllib.points param) pairs with
      | Some v => Some v
      | None => id_in_query rest pairs
      end
  end.

Fixpoint id_in_hostname (hostname_parts : list string) : option string :=
  match hostname_parts with
  | [] => None
  | part :: rest =>
      if Py.startswith part "hotel" && (5 <? String.length part)%nat
      then Some part
      else id_in_hostname rest
  end.

Definition extract_hotel_id (url : string) : result (option (list N)) :=
  if negb (Py.truthy url) then Ok None
  else
    parsed <- Urllib.urlparse url EmptyString ;;
    match id_in_path (Py.split "/" (Urllib.path parsed)) with
    | Some part => Ok (Some (Urllib.points part))
    | None =>
        match id_in_query ["hotel_id"; "aid"; "id"]
                (Urllib.parse_qsl (Urllib.query parsed)) with
        | Some v => Ok (Some v)
        | None =>
            match Urllib.hostname parsed with
            | None => Raise AttributeError
            | Some h =>
                Ok (option_map Urllib.points (id_in_hostname (Py.split "." h)))
            end
        end
    end.

(** *** [calculate_distance] *)

Definition calculate_distance (coords1 coords2 : option coordinates)
  : option R :=
  match coords1, coords2 with
  | Some c1, Some c2 =>
      let lat1 := Math.radians (Math.SF2R (latitude c1)) in
      let lon1 := Math.radians (Math.SF2R (longitude c1)) in
      let lat2 := Math.radians (Math.SF2R (latitude c2)) in
      let lon2 := Math.radians (Math.SF2R (longitude c2)) in
      let R := 6371%R in
      let dlat := (lat2 - lat1)%R in
      let dlon := (lon2 - lon1)%R in
      let a :=
        (sin (dlat / 2) ^ 2 + cos lat1 * cos lat2 * sin (dlon / 2) ^ 2)%R in
      let c := (2 * Math.atan2 (sqrt a) (sqrt (1 - a)))%R in
      let distance := (R * c)%R in
      Some (Math.round2 distance)
  | _, _ => None
  end.

(** *** Reviews *)

Definition any_value (d : review) : bool :=
  existsb (fun kv => Py.truthy (snd kv)) d.

(** [' '.join([text.strip() for text in texts if text.strip()])] *)
Definition join_stripped (texts : list string) : string :=
  Py.join " " (filter Py.truthy (map Py.strip texts)).

Definition review_of_item (r : review_item) : review :=
  [("reviewer_name", Py.strip (ri_reviewer_name r));
   ("reviewer_country", Py.strip (ri_reviewer_country r));
   ("review_count", Py.strip (ri_review_count r));
   ("review_title", Py.strip (ri_review_title r));
   ("review_positive", join_stripped (ri_review_positive r));
   ("review_negative", join_stripped (ri_review_negative r));
   ("review_date", Py.strip (ri_review_date r));
   ("review_score", Py.strip (ri_review_score r))].

Definition review_of_main (r : main_review) : review :=
  [("reviewer_name", Py.strip (mr_reviewer r));
   ("reviewer_country", Py.strip (mr_country r));
   ("review_score", Py.strip (mr_score r));
   ("review_title", Py.strip (mr_title r));
   ("review_date", Py.strip (mr_date r));
   ("review_positive", Py.strip (Py.join " " (mr_positive r)));
   ("review_negative", Py.strip (Py.join " " (mr_negative r)));
   ("room_type", Py.strip (mr_room_type r))].

(** [reviews[:limit]] *)
Definition slice_to {A : Type} (limit : Z) (l : list A) : list A :=
  if (0 <=? limit)%Z then firstn (Z.to_nat limit) l
  else firstn (List.length l - Z.to_nat (- limit)) l.

Section Scraper.

Variable w : world.

Definition extract_reviews (html : string) : list review :=
  filter any_value (map review_of_item (css_review_items w html)).

Definition parse_reviews_from_main_page (html : string) : list review :=
  filter any_value (map review_of_main (css_main_reviews w html)).

(** The body of [get_hotel_reviews] under its [try]. *)
Definition get_hotel_reviews_body (hotel_url : string) (limit : Z)
  : result (list review) :=
  response <- http_get w hotel_url ;;
  if negb (status response =? 200)%Z then Ok []
  else
    html <- text response ;;
    parsed_url <- Urllib.urlparse hotel_url EmptyString ;;
    let path_parts := Py.split "/" (Urllib.path parsed_url) in
    let country_code := nth_error path_parts 2 in
    let last_part := last path_parts EmptyString in
    let hotel_identifier :=
      if Py.endswith last_part ".html"
      then Some (Py.remove last_part ".html") else None in
    match country_code, hotel_identifier with
    | Some cc, Some hid =>
        if negb (Py.truthy cc) || negb (Py.truthy hid) then Ok []
        else
          reviews_url <-
            match css_reviews_link w html with
            | Some link =>
                if Py.truthy link then Urllib.urljoin hotel_url link
                else Ok (base_url ++ "/reviews/" ++ cc ++ "/hotel/" ++ hid ++ ".html")
            | None =>
                Ok (base_url ++ "/reviews/" ++ cc ++ "/hotel/" ++ hid ++ ".html")
            end ;;
          response2 <- http_get w reviews_url ;;
          page <-
            (if negb (status response2 =? 200)%Z then
               let alternate_url :=
                 base_url ++ "/reviewlist.html?cc1=" ++ cc ++ ";pagename=" ++ hid in
               alt_response <- http_get w alternate_url ;;
               if negb (status alt_response =? 200)%Z then Ok None
               else html' <- text alt_response ;; Ok (Some html')
             else html' <- text response2 ;; Ok (Some html')) ;;
          match page with
          | None => Ok []
          | Some html' =>
              let reviews := extract_reviews html' in
              let reviews :=
                match reviews with
                | [] => parse_reviews_from_main_page html'
                | _ => reviews
                end in
              Ok (slice_to limit reviews)
          end
    | _, _ => Ok []
    end.

Definition get_hotel_reviews (hotel_url : string) (limit : Z) : list review :=
  catch (get_hotel_reviews_body hotel_url limit) [].

(** *** Coordinates from the detail page *)

Definition get_hotel_coordinates (hotel_url : string) : option string :=
  catch
    (response <- http_get w hotel_url ;;
     if negb (status response =? 200)%Z then Ok None
     else
       html <- text response ;;
       Ok (Re.search Re.atlas_latlng html))
    None.

(** *** [search_hotels] *)

Variable include_reviews : bool.
Variable review_limit : Z.

(** The task run for one element of [raw_data]. *)
Definition process_hotel (h : raw_hotel) : result hotel :=
  let url := get_or_empty (raw_url h) in
  coords <-
    (if Py.truthy url then
       full_url <- Urllib.urljoin base_url url ;;
       match get_hotel_coordinates full_url with
       | Some raw_coords =>
           Ok (if Py.truthy raw_coords
               then extract_coordinates raw_coords else None)
       | None => Ok None
       end
     else Ok None) ;;
  hotel_id <- extract_hotel_id url ;;
  rt <- clean_rating (get_or_empty (raw_rating h)) ;;
  joined <- Urllib.urljoin base_url url ;;
  Ok {| id := hotel_id;
        name := raw_name h;
        price := raw_price h;
        hotel_rating := rt;
        stars := extract_star_count (get_or_empty (raw_stars h));
        location := raw_location h;
        url := joined;
        availability :=
          match raw_availability_message h with
          | Some s => if Py.truthy s then Some s else None
          | None => None
          end;
        coords := coords;
        hotel_reviews :=
          if include_reviews
          then Some (get_hotel_reviews joined review_limit) else None;
        distance_from_center := None |}.

(** [asyncio.gather(..., return_exceptions=True)]: one outcome per task, in
    the order of the tasks. *)
Definition gather (raw_data : list raw_hotel) : list (result hotel) :=
  map process_hotel raw_data.

(** The outcomes that are not exceptions. *)
Fixpoint without_exceptions (outcomes : list (result hotel)) : list hotel :=
  match outcomes with
  | [] => []
  | Ok h :: rest => h :: without_exceptions rest
  | Raise _ :: rest => without_exceptions rest
  end.

(** The coordinates of the first hotel that has some. *)
Fixpoint center_of (cleaned_data : list hotel) : option coordinates :=
  match cleaned_data with
  | [] => None
  | h :: rest =>
      match coords h with
      | Some c => Some c
      | None => center_of rest
      end
  end.

Definition with_distance (center_coords : coordinates) (h : hotel) : hotel :=
  match coords h with
  | Some c =>
      {| id := id h; name := name h; price := price h;
         hotel_rating := hotel_rating h; stars := stars h;
         location := location h; url := url h;
         availability := availability h; coords := coords h;
         hotel_reviews := hotel_reviews h;
         distance_from_center :=
           calculate_distance (Some center_coords) (Some c) |}
  | None => h
  end.

Definition add_distances (cleaned_data : list hotel) : list hotel :=
  match center_of cleaned_data with
  | Some center_coords => map (with_distance center_coords) cleaned_data
  | None => cleaned_data
  end.

(** [search_hotels] from [raw_data] on. *)
Definition enrich (raw_data : list raw_hotel) : list hotel :=
  add_distances (without_exceptions (gather raw_data)).

Definition search_hotels (location check_in check_out : string) (adults : Z)
    (filters : option (list string)) (currency : string)
  : result (list hotel) :=
  search_url <-
    build_search_url location check_in check_out adults filters currency ;;
  if no_properties_found w search_url then Ok []
  else
    match crawl w search_url with
    | None => Ok []
    | Some raw_data => Ok (enrich raw_data)
    end.

End Scraper.

End Booking.

(** ** [test.py]: the rating normalizer of the stand-alone script *)

Module Standalone.

Definition clean_rating (raw_rating : string) : result Booking.rating :=
  if negb (Py.truthy raw_rating) then Ok (Booking.mkrating None None)
  else
    let score_match := Re.search Re.number_run raw_rating in
    let reviews_match := Re.search Re.reviews raw_rating in
    sc <- match score_match with
          | Some g => f <- Py.float g ;; Ok (Some f)
          | None => Ok None
          end ;;
    rv <- match reviews_match with
          | Some g => n <- Py.int (Py.remove_char "," g) ;; Ok (Some n)
          | None => Ok None
          end ;;
    Ok (Booking.mkrating sc rv).

End Standalone.

(** ** The polling script [scroll_and_wait_script] *)

Module ScrollScript.

(** The two properties the script keeps on [window]. *)
Record window : Set := mkwindow {
  lastHeight : Z;
  retries : Z
}.

(** [None] while [typeof window.lastHeight === 'undefined']. *)
Definition state : Set := option window.

(** One run of the script, [currentHeight] being
    [document.body.scrollHeight]: the new state and the value returned. *)
Definition scroll_and_wait (currentHeight : Z) (st : state) : state * bool :=
  let win :=
    match st with
    | None => mkwindow 0 5
    | Some win => win
    end in
  if (currentHeight =? lastHeight win)%Z then
    let r := (retries win - 1)%Z in
    if (r <=? 0)%Z then (Some (mkwindow (lastHeight win) r), true)
    else (Some (mkwindow currentHeight r), false)
  else (Some (mkwindow currentHeight 5), false).

(** The script polled over the successive heights of the page: the number
    of the run that returns [true], counted from [tick]. *)
Fixpoint poll (heights : list Z) (st : state) (tick : nat) : option nat :=
  match heights with
  | [] => None
  | h :: rest =>
      let '(st', done) := scroll_and_wait h st in
      if done then Some tick else poll rest st' (S tick)
  end.

(** The states passed through, for the same heights. *)
Fixpoint states (heights : list Z) (st : state) : list state :=
  match heights with
  | [] => []
  | h :: rest =>
      let st' := fst (scroll_and_wait h st) in
      st' :: states rest st'
  end.

End ScrollScript.

(** ** [agodaScrapper.py] *)

Module Agoda.

(** *** Page handles *)

Record element : Type := mkelement {
  text_content : option string;
  inner_text : string;
  get_attribute : string -> option string
}.

Record item : Type := mkitem {
  query_selector : string -> option element;
  query_selector_all : string -> list element
}.

(** *** Records *)

(** The value of [hotel_price]: the text ["N/A"] or a float. *)
Inductive price_value : Set :=
| NA
| Price (f : spec_float).

Record hotel_data : Set := mkhotel_data {
  hotel_name : string;
  hotel_price : price_value;
  hotel_rating : string;
  booking_url : string;
  image_url : string
}.

Definition hotel_name_selectors : list string :=
  ["a[data-selenium='hotel-name'] span";
   "h3[data-selenium='hotel-name']";
   "a[data-selenium='hotel-name']";
   ".PropertyCard__Name";
   "[data-selenium='hotel-name']";
   "h3";
   "a[href*='/hotel/']"].

Definition price_selectors : list string :=
  ["div[data-element-name='final-price'] span:nth-child(2)";
   "div[data-element-name='final-price']";
   "span[data-selenium='price-value']";
   "span[data-selenium='price']";
   "div[data-selenium='price']";
   "div[data-element-name='price']";
   ".PropertyCard__Price";
   "[data-testid='price']";
   ".price";
   "span[class*='price']";
   "div[class*='price']"].

Definition booking_url_selectors : list string :=
  ["a[data-selenium='hotel-name']";
   "a[class*='PropertyCard__Link']";
   "a[href*='/hotel/']"].

Definition image_selectors : list string :=
  ["button[data-element-name='ssrweb-mainphoto'] img";
   "img[data-selenium='hotel-image']";
   ".PropertyCard__Image img";
   "img"].

Definition not_na (s : string) : bool := negb (s =? "N/A").

Section Extract.

Variable it : item.

(** The loop over [hotel_name_selectors]; the name may end as [None]. *)
Fixpoint name_loop (selectors : list string) (hotel_name : option string)
  : option string :=
  match selectors with
  | [] => hotel_name
  | selector :: rest =>
      match query_selector it selector with
      | Some e =>
          match text_content e with
          | Some t =>
              if Py.truthy t && Py.truthy (Py.strip t) then Some (Py.strip t)
              else name_loop rest (Some t)
          | None => name_loop rest None
          end
      | None => name_loop rest hotel_name
      end
  end.

(** The loop over the [span] elements. *)
Fixpoint rating_loop (elements : list element) (rating_text : string)
  : string :=
  match elements with
  | [] => rating_text
  | e :: rest =>
      match text_content e with
      | Some t =>
          if Py.truthy t && Py.contains t "stars out of 5" then inner_text e
          else rating_loop rest rating_text
      | None => rating_loop rest rating_text
      end
  end.

(** The loop over [price_selectors]. *)
Fixpoint price_loop (selectors : list string) (price_text : string) : string :=
  match selectors with
  | [] => price_text
  | selector :: rest =>
      match query_selector it selector with
      | Some e =>
          let t := inner_text e in
          if Py.truthy t && not_na t && Py.truthy (Py.strip t) then t
          else price_loop rest t
      | None => price_loop rest price_text
      end
  end.

(** The loops over [booking_url_selectors] and [image_selectors]. *)
Fixpoint attribute_loop (attribute : string) (selectors : list string)
    (value : option string) : option string :=
  match selectors with
  | [] => value
  | selector :: rest =>
      match query_selector it selector with
      | Some e =>
          match get_attribute e attribute with
          | Some v =>
              if Py.truthy v then Some v
              else attribute_loop attribute rest (Some v)
          | None => attribute_loop attribute rest None
          end
      | None => attribute_loop attribute rest value
      end
  end.

End Extract.

Fixpoint keep_price_chars (s : string) : string :=
  match s with
  | EmptyString => EmptyString
  | String c s' =>
      if Py.isdigit c || Ascii.eqb c "."
      then String c (keep_price_chars s') else keep_price_chars s'
  end.

(** The value of [hotel_price] for a price text. *)
Definition price_of_text (price_text : string) : price_value :=
  if not_na price_text && Py.truthy price_text then
    let cleaned_price := keep_price_chars price_text in
    if Py.truthy cleaned_price then
      match Py.float cleaned_price with
      | Ok f => Price f
      | Raise _ => NA
      end
    else NA
  else NA.

(** The entry [booking_url] of [hotel_data]. *)
Definition booking_url_entry (value : option string) : result string :=
  match value with
  | None => Raise AttributeError
  | Some v =>
      if not_na v && negb (Py.startswith v "http")
      then Ok ("https://www.agoda.com" ++ v) else Ok v
  end.

(** The entry [image_url] of [hotel_data]. *)
Definition image_url_entry (value : option string) : result string :=
  match value with
  | None => Raise AttributeError
  | Some v =>
      if not_na v && Py.startswith v "//" then Ok ("https:" ++ v) else Ok v
  end.

(** The body of [extract_hotel_info] under its [try]. *)
Definition extract_hotel_info_body (it : item) : result (option hotel_data) :=
  match name_loop it hotel_name_selectors (Some "N/A") with
  | None => Ok None
  | Some nm =>
      if negb (not_na nm) || negb (Py.truthy nm) then Ok None
      else
        let rating_text := rating_loop (query_selector_all it "span") "N/A" in
        let rating :=
          if not_na rating_text
          then nth 0 (Py.split " " rating_text) EmptyString else "N/A" in
        let price_text := price_loop it price_selectors "N/A" in
        match price_of_text price_text with
        | NA => Ok None
        | Price f =>
            let booking := attribute_loop it "href" booking_url_selectors (Some "N/A") in
            let image := attribute_loop it "src" image_selectors (Some "N/A") in
            b <- booking_url_entry booking ;;
            i <- image_url_entry image ;;
            Ok (Some (mkhotel_data nm (Price f) rating b i))
        end
  end.

Definition extract_hotel_info (it : item) : option hotel_data :=
  catch (extract_hotel_info_body it) None.

(** The loop of [scrape_first_page_results] over [hotel_items]. *)
Fixpoint collect (hotel_items : list item) : list hotel_data :=
  match hotel_items with
  | [] => []
  | it :: rest =>
      match extract_hotel_info it with
      | Some hotel => hotel :: collect rest
      | None => collect rest
      end
  end.

(** *** [agoda_scraper] *)

Definition validate_date_format (date_string : string) : bool :=
  is_ok (Datetime.strptime date_string).

(** What the browser is asked to do. *)
Inductive action : Set :=
| Navigate (url : string)
| TypeText (locator text : string)
| Click (locator : string)
| Evaluate (script : string)
| Query (locator : string).

(** A browser session for one query: the actions carried out, and the
    result items found, or the exception that ended the session. *)
Record session : Type := mksession {
  actions : list action;
  hotel_items : result (list item)
}.

Section Scraper.

Variable browse :
  string -> string -> string -> Z -> option Z -> option string -> session.

(** The input checks of [agoda_scraper], in their order. *)
Definition check_inputs (location check_in_date check_out_date : string)
    (adults : Z) : result unit :=
  if negb (Py.truthy (Py.strip location)) then Raise ValueError
  else if negb (validate_date_format check_in_date) then Raise ValueError
  else if negb (validate_date_format check_out_date) then Raise ValueError
  else if (adults <? 1)%Z || (10 <? adults)%Z then Raise ValueError
  else
    check_in <- Datetime.strptime check_in_date ;;
    check_out <- Datetime.strptime check_out_date ;;
    if Datetime.le check_out check_in then Raise ValueError else Ok tt.

(** The actions carried out and the value returned or exception raised. *)
Definition agoda_scraper (location check_in_date check_out_date : string)
    (adults : Z) (star_rating : option Z) (currency : option string)
  : list action * result (list hotel_data) :=
  match check_inputs location check_in_date check_out_date adults with
  | Raise e => ([], Raise e)
  | Ok _ =>
      let s := browse location check_in_date check_out_date adults
                 star_rating currency in
      (actions s, Ok (catch (items <- hotel_items s ;; Ok (collect items)) []))
  end.

End Scraper.

End Agoda.

(** *** The scroll loop of [scrape_first_page_results] *)

Module FirstPage.

(** One turn of the loop as the page and the random draw make it: the
    value of [int(remaining_height * scroll_percentage)] for the percentage
    drawn, and the height of the page measured after the scroll. *)
Record turn : Type := mkturn {
  drawn_amount : Z -> Z;
  new_height : Z
}.

(** The loop [while current_position < last_height] over the turns that
    the page provides: the number of turns taken and the final
    [last_height] and [current_position], or [None] when the turns run
    out before the loop ends. *)
Fixpoint scroll (turns : list turn) (last_height current_position : Z)
  : option (nat * Z * Z) :=
  if (current_position <? last_height)%Z then
    match turns with
    | [] => None
    | t :: rest =>
        let remaining_height := (last_height - current_position)%Z in
        let scroll_amount := Z.max (drawn_amount t remaining_height) 200 in
        let current_position := (current_position + scroll_amount)%Z in
        let last_height :=
          if (new_height t >? last_height)%Z then new_height t
          else last_height in
        match scroll rest last_height current_position with
        | Some (n, l, p) => Some (S n, l, p)
        | None => None
        end
    end
  else Some (0%nat, last_height, current_position).

End FirstPage.

(** *** The results file of [agoda_scraper] *)

Module Output.

(** [str.isalnum] on one character: letters, digits, the superscript
    digits and the fractions. *)
Definition isalnum (c : ascii) : bool :=
  let n := Py.ord c in
  Py.in_range 48 57 n || Py.in_range 65 90 n || Py.in_range 97 122 n
  || (n =? 170)%N || (n =? 178)%N || (n =? 179)%N || (n =? 181)%N
  || (n =? 185)%N || (n =? 186)%N || Py.in_range 188 190 n
  || Py.in_range 192 214 n || Py.in_range 216 246 n || Py.in_range 248 255 n.

(** [''.join(c for c in s if p(c))] *)
Fixpoint keep (p : ascii -> bool) (s : string) : string :=
  match s with
  | EmptyString => EmptyString
  | String c s' => if p c then String c (keep p s') else keep p s'
  end.

Definition safe_char (c : ascii) : bool :=
  isalnum c || Ascii.eqb c " " || Ascii.eqb c "-" || Ascii.eqb c "_".

Definition safe_location (location : string) : string :=
  Py.rstrip (keep safe_char location).

Definition output_filename (location check_in_date check_out_date : string)
    (adults : Z) : string :=
  safe_location location ++ "_" ++ check_in_date ++ "_" ++ check_out_date
  ++ "_" ++ Py.str_of_Z adults ++ "adults.json".

End Output.

(** *** The address of the results in [search_agoda_homepage] *)

Module ResultsAddress.

Section Navigation.

(** [page.url] after [page.goto(new_url)]. *)
Variable goto : string -> string.

(** The separator put before a parameter that is appended. *)
Definition separator (current_url : string) : string :=
  if Py.contains current_url "?" then "&" else "?".

(** [search_agoda_homepage], the step that adds [hotelAccom=34]: the
    addresses navigated to and the new [current_url]. *)
Definition add_accommodation (current_url : string) : list string * string :=
  if negb (Py.contains current_url "hotelAccom=34") then
    let new_url := current_url ++ separator current_url ++ "hotelAccom=34" in
    ([new_url], goto new_url)
  else ([], current_url).

(** The step that adds [hotelStarRating]. *)
Definition add_star_rating (star_rating : option Z) (current_url : string)
  : list string * string :=
  match star_rating with
  | Some n =>
      if (n =? 0)%Z then ([], current_url)
      else if negb (Py.contains current_url "hotelStarRating") then
        let new_url :=
          current_url ++ separator current_url ++ "hotelStarRating="
          ++ Py.str_of_Z n in
        ([new_url], goto new_url)
      else ([], current_url)
  | None => ([], current_url)
  end.

(** The two steps one after the other. *)
Definition add_parameters (star_rating : option Z) (current_url : string)
  : list string * string :=
  let '(first, current_url) := add_accommodation current_url in
  let '(second, current_url) := add_star_rating star_rating current_url in
  ((first ++ second)%list, current_url).

End Navigation.

End ResultsAddress.

(** ** [main.py]: the star rating handed to the Agoda scraper *)

Module Main.

(** [main.py], the loop of [get_agoda_hotels] over [request.filters]: the
    star rating handed to [agoda_scraper]. *)
Fixpoint star_rating_loop (filters : list string) (star_rating : option Z)
  : option Z :=
  match filters with
  | [] => star_rating
  | f :: rest =>
      if Py.startswith f "class=" then
        match Py.int (nth 1 (Py.split "=" f) EmptyString) with
        | Ok z => star_rating_loop rest (Some z)
        | Raise _ => star_rating_loop rest star_rating
        end
      else star_rating_loop rest star_rating
  end.

Definition star_rating (filters : option (list string)) : option Z :=
  match filters with
  | Some fs => star_rating_loop fs None
  | None => None
  end.

End Main.

(** * Sample pages and sessions

    Inputs used further down to run the scrapers on. *)

Module Samples.

(** A network on which every request fails, and a results page with the
    given cards. *)
Definition unreachable (cards : list Booking.raw_hotel) : Booking.world :=
  {| Booking.http_get := fun _ => Raise ClientError;
     Booking.css_reviews_link := fun _ => None;
     Booking.css_review_items := fun _ => [];
     Booking.css_main_reviews := fun _ => [];
     Booking.no_properties_found := fun _ => false;
     Booking.crawl := fun _ => Some cards |}.

(** A card with a name and a rating, no price, and no link. *)
Definition card_without_price : Booking.raw_hotel :=
  {| Booking.raw_name := Some "Sold Out Inn";
     Booking.raw_price := None;
     Booking.raw_rating := Some "Scored 8.0 8.0 Very Good 12 reviews";
     Booking.raw_location := Some "Kuala Lumpur";
     Booking.raw_distance := None;
     Booking.raw_url := None;
     Booking.raw_availability_message := None;
     Booking.raw_stars := None;
     Booking.raw_coordinates := None |}.

(** A card with a price. *)
Definition card_with_price : Booking.raw_hotel :=
  {| Booking.raw_name := Some "Hotel Maya";
     Booking.raw_price := Some "US$120";
     Booking.raw_rating := Some "Scored 8.5 8.5 Very Good 1,234 reviews";
     Booking.raw_location := Some "Kuala Lumpur";
     Booking.raw_distance := None;
     Booking.raw_url := None;
     Booking.raw_availability_message := None;
     Booking.raw_stars := None;
     Booking.raw_coordinates := None |}.

(** A card whose rating text has a full stop after the score. *)
Definition card_with_dotted_rating : Booking.raw_hotel :=
  {| Booking.raw_name := Some "Hotel Dot";
     Booking.raw_price := Some "US$95";
     Booking.raw_rating := Some "Scored 8.5. 1,234 reviews";
     Booking.raw_location := Some "Kuala Lumpur";
     Booking.raw_distance := None;
     Booking.raw_url := None;
     Booking.raw_availability_message := None;
     Booking.raw_stars := None;
     Booking.raw_coordinates := None |}.

(** A browser session that opens the home page and finds no result item. *)
Definition empty_session
    (location check_in_date check_out_date : string) (adults : Z)
    (star_rating : option Z) (currency : option string) : Agoda.session :=
  {| Agoda.actions := [Agoda.Navigate "https://www.agoda.com/"];
     Agoda.hotel_items := Ok [] |}.

(** An element with a text and one attribute. *)
Definition node (content attribute value : string) : Agoda.element :=
  {| Agoda.text_content := Some content;
     Agoda.inner_text := content;
     Agoda.get_attribute :=
       fun a => if a =? attribute then Some value else None |}.

(** A result item of Agoda: a heading, a price, a link whose address has no
    scheme, and an image whose address starts at the root of the site. *)
Definition agoda_card : Agoda.item :=
  {| Agoda.query_selector :=
       fun selector =>
         if selector =? "h3" then Some (node "Grand Hotel" "class" "name")
         else if selector =? ".price" then Some (node "$1,234.50" "class" "price")
         else if selector =? "a[href*='/hotel/']"
         then Some (node "Grand Hotel" "href" "//www.agoda.com/grand/hotel/kl.html")
         else if selector =? "img"
         then Some (node "" "src" "/images/grand.jpg")
         else None;
     Agoda.query_selector_all := fun _ => [] |}.

(** The detail page of a hotel at the given coordinates. *)
Definition detail_page (latlng : string) : string :=
  "<div data-testid=" ++ String Re.dquote
    ("MapEntryPointDesktop-wrapper" ++ String Re.dquote
       (" data-atlas-latlng=" ++ String Re.dquote
          (latlng ++ String Re.dquote "></div>"))).

(** A network with the detail pages of two hotels. *)
Definition two_detail_pages : Booking.world :=
  {| Booking.http_get :=
       fun u =>
         if u =? "https://www.booking.com/hotel/my/maya.html"
         then Ok (Booking.mkresponse 200 (Ok (detail_page "3.15,101.7")))
         else if u =? "https://www.booking.com/hotel/my/indah.html"
         then Ok (Booking.mkresponse 200 (Ok (detail_page "3.16,101.71")))
         else Ok (Booking.mkresponse 404 (Ok EmptyString));
     Booking.css_reviews_link := fun _ => None;
     Booking.css_review_items := fun _ => [];
     Booking.css_main_reviews := fun _ => [];
     Booking.no_properties_found := fun _ => false;
     Booking.crawl := fun _ => None |}.

(** A second card with a link to its detail page. *)
Definition card_indah : Booking.raw_hotel :=
  {| Booking.raw_name := Some "Hotel Indah";
     Booking.raw_price := Some "US$80";
     Booking.raw_rating := None;
     Booking.raw_location := Some "Kuala Lumpur";
     Booking.raw_distance := None;
     Booking.raw_url := Some "/hotel/my/indah.html";
     Booking.raw_availability_message := None;
     Booking.raw_stars := None;
     Booking.raw_coordinates := None |}.

(** A card with a link to its detail page. *)
Definition card_with_link : Booking.raw_hotel :=
  {| Booking.raw_name := Some "Hotel Maya";
     Booking.raw_price := Some "US$120";
     Booking.raw_rating := Some "Scored 8.5 8.5 Very Good 1,234 reviews";
     Booking.raw_location := Some "Kuala Lumpur";
     Booking.raw_distance := None;
     Booking.raw_url := Some "/hotel/my/maya.html";
     Booking.raw_availability_message := None;
     Booking.raw_stars := None;
     Booking.raw_coordinates := None |}.

End Samples.

(** Further cards and sites. *)

Module Pages.

(** A card with a heading that holds white space only, and a price. *)
Definition card_with_blank_name : Agoda.item :=
  {| Agoda.query_selector :=
       fun selector =>
         if selector =? "h3" then Some (Samples.node "  " "class" "name")
         else if selector =? ".price"
         then Some (Samples.node "RM 250" "class" "price")
         else None;
     Agoda.query_selector_all := fun _ => [] |}.

(** A card with a name and a price whose image element has no [src]. *)
Definition card_with_bare_image : Agoda.item :=
  {| Agoda.query_selector :=
       fun selector =>
         if selector =? "h3" then Some (Samples.node "Grand Hotel" "class" "name")
         else if selector =? ".price"
         then Some (Samples.node "RM 250" "class" "price")
         else if selector =? "img"
         then Some (Samples.node "" "alt" "Grand Hotel")
         else None;
     Agoda.query_selector_all := fun _ => [] |}.

(** A card with a name, a price and two [span] elements. *)
Definition card_with_stars : Agoda.item :=
  {| Agoda.query_selector :=
       fun selector =>
         if selector =? "h3" then Some (Samples.node "Grand Hotel" "class" "name")
         else if selector =? ".price"
         then Some (Samples.node "RM 250" "class" "price")
         else None;
     Agoda.query_selector_all :=
       fun selector =>
         if selector =? "span"
         then [Samples.node "Breakfast included" "class" "perk";
               Samples.node "4.5 stars out of 5" "class" "stars";
               Samples.node "3 stars out of 5" "class" "stars"]
         else [] |}.

(** A site with a detail page and a reviews page that holds three reviews,
    the second of them empty. *)
Definition site_with_reviews : Booking.world :=
  {| Booking.http_get :=
       fun u =>
         if u =? "https://www.booking.com/hotel/my/maya.html"
         then Ok (Booking.mkresponse 200 (Ok "detail"))
         else if u =? "https://www.booking.com/reviews/my/hotel/maya.html"
         then Ok (Booking.mkresponse 200 (Ok "reviews"))
         else Ok (Booking.mkresponse 404 (Ok EmptyString));
     Booking.css_reviews_link := fun _ => None;
     Booking.css_review_items :=
       fun html =>
         if html =? "reviews" then
           [Booking.mkreview_item "Aisha" "Malaysia" "3 reviews" "Lovely"
              ["Clean room"] [] "1 May 2025" "9.0";
            Booking.mkreview_item " " "" "" "" [] [" "] "" "";
            Booking.mkreview_item "Ben" "Ireland" "" "Fine" [] [] "" "7.5"]
         else [];
     Booking.css_main_reviews := fun _ => [];
     Booking.no_properties_found := fun _ => false;
     Booking.crawl := fun _ => None |}.

End Pages.

(** * The wording of the specification

    Readings of phrases of the specification, to compare the code with. *)

Module Wording.

(** An exact match of [YYYY-MM-DD]: four digits, a hyphen, two digits, a
    hyphen, two digits. *)
Definition iso_date_shape (s : string) : bool :=
  match s with
  | String y1 (String y2 (String y3 (String y4 (String "-"
      (String m1 (String m2 (String "-"
        (String d1 (String d2 EmptyString))))))))) =>
      Py.isdecimal y1 && Py.isdecimal y2 && Py.isdecimal y3 && Py.isdecimal y4
      && Py.isdecimal m1 && Py.isdecimal m2
      && Py.isdecimal d1 && Py.isdecimal d2
  | _ => false
  end.

(** The first decimal number occurring in a text: its first run of digits
    and dots. *)
Definition first_decimal_number (s : string) : option string :=
  Re.search Re.number_run s.

End Wording.

(** * Properties *)

(** ** Strings *)

Section StringFacts.

Lemma append_nil_r (s : string) : s ++ EmptyString = s.
Proof. induction s as [|c s IH]; simpl; [reflexivity | now rewrite IH]. Qed.

Lemma append_assoc (a b c : string) : (a ++ b) ++ c = a ++ (b ++ c).
Proof. induction a as [|x a IH]; simpl; [reflexivity | now rewrite IH]. Qed.

Lemma length_append (a b : string) :
  String.length (a ++ b) = (String.length a + String.length b)%nat.
Proof. induction a as [|x a IH]; simpl; [reflexivity | now rewrite IH]. Qed.

Lemma prefix_append (p s : string) : prefix p (p ++ s) = true.
Proof.
  induction p as [|c p IH]; simpl; [now destruct s |].
  destruct (ascii_dec c c) as [_|ne]; [exact IH | now elim ne].
Qed.

Lemma prefix_true_split (p s : string) :
  prefix p s = true -> exists r, s = p ++ r.
Proof.
  revert s; induction p as [|c p IH]; intros s H.
  - exists s; reflexivity.
  - destruct s as [|d s]; simpl in H; [discriminate |].
    destruct (ascii_dec c d) as [->|]; [|discriminate].
    destruct (IH s H) as [r ->]. exists r; reflexivity.
Qed.

Lemma drop_append (p s : string) : Py.drop (String.length p) (p ++ s) = s.
Proof. induction p as [|c p IH]; simpl; [now destruct s | exact IH]. Qed.

Lemma truthy_false_iff (s : string) : Py.truthy s = false <-> s = EmptyString.
Proof. destruct s; simpl; split; intro H; congruence. Qed.

Lemma truthy_true_iff (s : string) : Py.truthy s = true <-> s <> EmptyString.
Proof. destruct s; simpl; split; intro H; congruence. Qed.

Lemma split_not_nil (sep : ascii) (s : string) : Py.split sep s <> [].
Proof.
  destruct s as [|c s]; simpl; [discriminate |].
  destruct (Ascii.eqb c sep); [discriminate |].
  destruct (Py.split sep s); discriminate.
Qed.

Lemma quote_plus_append (a b : string) :
  Urllib.quote_plus (a ++ b) = Urllib.quote_plus a ++ Urllib.quote_plus b.
Proof.
  induction a as [|c a IH]; simpl; [reflexivity |].
  now rewrite IH, append_assoc.
Qed.

End StringFacts.

(** ** Results *)

Lemma bind_ok_inv {A B : Type} (r : result A) (k : A -> result B) (b : B) :
  bind r k = Ok b -> exists a, r = Ok a /\ k a = Ok b.
Proof. destruct r as [a|e]; simpl; intro H; [eauto | discriminate]. Qed.

Lemma bind_raise_inv {A B : Type} (r : result A) (k : A -> result B) (e : exn) :
  bind r k = Raise e -> r = Raise e \/ exists a, r = Ok a /\ k a = Raise e.
Proof. destruct r as [a|e']; simpl; intro H; [eauto | left; congruence]. Qed.

(** ** The normalizers *)

(** C4. The rating normalizer is not total: on a rating text whose score is
    followed by a full stop, the digits and dots after the word Scored are
    handed to [float] as they are, and [clean_rating] raises [ValueError]
    instead of returning a value or leaving the score absent. *)
Theorem clean_rating_raises_on_trailing_dot :
  Booking.clean_rating "Scored 8.5. 1,234 reviews" = Raise ValueError.
Proof. vm_compute. reflexivity. Qed.

(** The other normalizers return on every text. *)
Lemma normalizers_without_rating_return (s : string) :
  (exists r, Booking.extract_star_count s = r)
  /\ (exists r, Booking.extract_coordinates s = r)
  /\ (exists r, Agoda.price_of_text s = r).
Proof. repeat split; eexists; reflexivity. Qed.

Lemma split_two_nonempty (s a b : string) :
  Py.split "," s = [a; b] -> Py.truthy s = true.
Proof. destruct s; simpl; [discriminate | reflexivity]. Qed.


(** ** The search URL *)

Lemma mem_char_false_eqb (sep : ascii) (c : ascii) (a : string) :
  Py.mem_char sep (String c a) = false ->
  Ascii.eqb c sep = false /\ Py.mem_char sep a = false.
Proof.
  simpl; intro H. apply orb_false_elim in H as [H1 H2].
  rewrite Ascii.eqb_sym in H1. now split.
Qed.

Lemma split_without_sep (sep : ascii) (a : string) :
  Py.mem_char sep a = false -> Py.split sep a = [a].
Proof.
  induction a as [|c a IH]; intro H; [reflexivity |].
  apply mem_char_false_eqb in H as [H1 H2].
  simpl. rewrite H1, (IH H2). reflexivity.
Qed.

Lemma split_at_first_sep (sep : ascii) (a b : string) :
  Py.mem_char sep a = false ->
  Py.split sep (a ++ String sep b) = a :: Py.split sep b.
Proof.
  induction a as [|c a IH]; intro H.
  - simpl. now rewrite Ascii.eqb_refl.
  - apply mem_char_false_eqb in H as [H1 H2].
    simpl. rewrite H1, (IH H2). reflexivity.
Qed.

Lemma format_filters_raise (fs : list string) (e : exn) :
  Booking.format_filters fs = Raise e ->
  e = ValueError
  /\ exists item,
      In item fs
      /\ Py.startswith item "distance=" = true
      /\ Py.int (nth 1 (Py.split "=" item) EmptyString) = Raise ValueError.
Proof.
  induction fs as [|item fs IH]; simpl; [discriminate |].
  destruct (Py.startswith item "distance=") eqn:Hd.
  - destruct (Py.int (nth 1 (Py.split "=" item) EmptyString)) as [n|e'] eqn:Hi;
      simpl.
    + destruct (Booking.format_filters fs) as [l|e'] eqn:Hf; simpl;
        [discriminate |].
      intro H; injection H as ->. destruct (IH eq_refl) as (-> & x & Hx & H1 & H2).
      split; [reflexivity |]. exists x; auto.
    + intro H; injection H as ->.
      assert (e = ValueError) as ->.
      { unfold Py.int in Hi.
        destruct (Py.sign_of (Py.strip (nth 1 (Py.split "=" item) EmptyString)))
          as [neg body].
        destruct (Py.digitpart body) as [[[v n] [|c r]]|]; congruence. }
      split; [reflexivity |]. exists item; auto.
  - simpl.
    destruct (Booking.format_filters fs) as [l|e'] eqn:Hf; simpl;
      [discriminate |].
    intro H; injection H as ->. destruct (IH eq_refl) as (-> & x & Hx & H1 & H2).
    split; [reflexivity |]. exists x; auto.
Qed.

Lemma format_filters_length (fs l : list string) :
  Booking.format_filters fs = Ok l -> List.length l = List.length fs.
Proof.
  revert l; induction fs as [|item fs IH]; simpl; intros l H.
  - now injection H as <-.
  - apply bind_ok_inv in H as (x & _ & H).
    apply bind_ok_inv in H as (l' & Hl & H).
    injection H as <-. simpl. now rewrite (IH l' Hl).
Qed.

(** The value of the parameter [nflt]: the hotel category, alone or
    followed by a semicolon and the filters of the caller. *)
Lemma nflt_value_shape (filters : option (list string)) (nflt : string) :
  Booking.nflt_value filters = Ok nflt ->
  nflt = "ht_id=204" \/ exists rest, nflt = "ht_id=204" ++ String ";" rest.
Proof.
  destruct filters as [[|f fs]|]; lazy beta iota delta [Booking.nflt_value].
  - intro H; injection H as <-; now left.
  - intro H. apply bind_ok_inv in H as (l & Hl & H).
    injection H as <-. right.
    pose proof (format_filters_length _ _ Hl) as Hlen.
    destruct l as [|x l]; [discriminate |].
    exists (Py.join ";" (x :: l)). reflexivity.
  - intro H; injection H as <-; now left.
Qed.

Lemma urlencode_query_params
    (location check_in check_out : string) (adults : Z)
    (currency nflt : string) :
  Urllib.urlencode
    (Booking.query_params location check_in check_out adults currency nflt)
  = ("ss=" ++ Urllib.quote_plus location
     ++ "&checkin=" ++ Urllib.quote_plus check_in
     ++ "&checkout=" ++ Urllib.quote_plus check_out
     ++ "&group_adults=" ++ Urllib.quote_plus (Py.str_of_Z adults)
     ++ "&selected_currency=" ++ Urllib.quote_plus currency
     ++ "&order=popularity")
    ++ "&nflt=" ++ Urllib.quote_plus nflt.
Proof.
  unfold Urllib.urlencode, Booking.query_params, Py.join.
  cbn [map concat fst snd].
  change (Urllib.quote_plus "ss") with "ss".
  change (Urllib.quote_plus "checkin") with "checkin".
  change (Urllib.quote_plus "checkout") with "checkout".
  change (Urllib.quote_plus "group_adults") with "group_adults".
  change (Urllib.quote_plus "selected_currency") with "selected_currency".
  change (Urllib.quote_plus "order") with "order".
  change (Urllib.quote_plus "popularity") with "popularity".
  change (Urllib.quote_plus "nflt") with "nflt".
  repeat rewrite append_assoc.
  reflexivity.
Qed.

(** C10. Whatever the location, the dates, the number of adults, the
    currency and the filters (none at all included), a URL built by
    [build_search_url] carries the hotel category: the value of [nflt]
    starts with the token [ht_id=204], alone or followed by a semicolon;
    the URL is the base, the path of the search page and the encoded
    parameters, [nflt] last, so it contains [&nflt=ht_id%3D204]. The only
    inputs for which no URL is built are those with a filter [distance=]
    whose value [int] does not accept, and then the builder raises
    [ValueError]. *)
Theorem build_search_url_has_hotel_category
    (location check_in check_out : string) (adults : Z)
    (filters : option (list string)) (currency : string) :
  match Booking.build_search_url location check_in check_out adults filters
          currency with
  | Ok url =>
      exists nflt,
        url = Booking.base_url ++ "/searchresults.html?"
              ++ Urllib.urlencode
                   (Booking.query_params location check_in check_out adults
                      currency nflt)
        /\ hd EmptyString (Py.split ";" nflt) = "ht_id=204"
        /\ exists before after,
            url = before ++ "&nflt=ht_id%3D204" ++ after
  | Raise e =>
      e = ValueError
      /\ exists fs item,
          filters = Some fs
          /\ In item fs
          /\ Py.startswith item "distance=" = true
          /\ Py.int (nth 1 (Py.split "=" item) EmptyString) = Raise ValueError
  end.
Proof.
  unfold Booking.build_search_url.
  destruct (Booking.nflt_value filters) as [nflt|e] eqn:Hn;
    cbn [bind].
  - exists nflt. split; [reflexivity |].
    rewrite urlencode_query_params.
    set (front := "ss=" ++ _).
    assert (Hq : exists after,
               Urllib.quote_plus nflt = "ht_id%3D204" ++ after
               /\ hd EmptyString (Py.split ";" nflt) = "ht_id=204").
    { destruct (nflt_value_shape _ _ Hn) as [-> | [rest ->]].
      - exists EmptyString; split; reflexivity.
      - exists (Urllib.quote_plus (String ";" rest)). split.
        + now rewrite quote_plus_append.
        + now rewrite (split_at_first_sep ";" "ht_id=204" rest eq_refl). }
    destruct Hq as (after & Hq & Hhd).
    split; [exact Hhd |].
    exists (Booking.base_url ++ "/searchresults.html?" ++ front), after.
    rewrite Hq.
    repeat rewrite append_assoc. reflexivity.
  - destruct filters as [[|f fs]|];
      lazy beta iota delta [Booking.nflt_value] in Hn; try discriminate.
    apply bind_raise_inv in Hn as [Hn | (l & _ & Hn)]; [| discriminate].
    destruct (format_filters_raise _ _ Hn) as (-> & item & Hin & H1 & H2).
    split; [reflexivity |]. exists (f :: fs), item. auto.
Qed.

(** ** The polling script *)

(** The properties on [window] that a run of the script starts from. *)
Definition window_of (st : ScrollScript.state) : ScrollScript.window :=
  match st with
  | None => ScrollScript.mkwindow 0 5
  | Some win => win
  end.

(** Each height exceeds the one before it, the first one exceeds [lo]. *)
Fixpoint increasing_from (lo : Z) (heights : list Z) : Prop :=
  match heights with
  | [] => True
  | h :: rest => (lo < h)%Z /\ increasing_from h rest
  end.

(** The counter after a run, as the specification words it: back to 5 when
    the height grew beyond the last one, one less otherwise. *)
Definition counter_as_worded (currentHeight last counter : Z) : Z :=
  if (last <? currentHeight)%Z then 5%Z else (counter - 1)%Z.

Lemma scroll_and_wait_changed (h : Z) (st : ScrollScript.state) :
  h <> ScrollScript.lastHeight (window_of st) ->
  ScrollScript.scroll_and_wait h st = (Some (ScrollScript.mkwindow h 5), false).
Proof.
  intro H. unfold ScrollScript.scroll_and_wait. fold (window_of st).
  apply Z.eqb_neq in H. now rewrite H.
Qed.

Lemma scroll_and_wait_unchanged (h : Z) (st : ScrollScript.state) :
  h = ScrollScript.lastHeight (window_of st) ->
  ScrollScript.scroll_and_wait h st
  = (Some (ScrollScript.mkwindow h (ScrollScript.retries (window_of st) - 1)),
     (ScrollScript.retries (window_of st) - 1 <=? 0)%Z).
Proof.
  intro H. unfold ScrollScript.scroll_and_wait. fold (window_of st).
  rewrite <- H, Z.eqb_refl.
  now destruct (ScrollScript.retries (window_of st) - 1 <=? 0)%Z.
Qed.

(** While the page grows, no run returns [true], and the last height is
    recorded with a full counter. *)
Lemma poll_growing (inc rest : list Z) :
  forall (st : ScrollScript.state) (tick : nat),
    inc <> [] ->
    increasing_from (ScrollScript.lastHeight (window_of st)) inc ->
    ScrollScript.poll (inc ++ rest)%list st tick
    = ScrollScript.poll rest
        (Some (ScrollScript.mkwindow (last inc 0%Z) 5))
        (tick + List.length inc).
Proof.
  induction inc as [|h inc IH]; intros st tick Hne Hinc; [congruence |].
  destruct Hinc as [Hlt Hinc].
  cbn [app ScrollScript.poll].
  rewrite scroll_and_wait_changed by lia.
  destruct inc as [|h' inc].
  - cbn [app List.length last]. f_equal. lia.
  - rewrite IH; [| discriminate | exact Hinc].
    cbn [List.length last]. f_equal. lia.
Qed.

(** On a page that stays at the recorded height, the run that takes the
    counter to zero is the first to return [true]. *)
Lemma poll_plateau (h : Z) (n : nat) :
  forall (k : nat) (tick : nat),
    ScrollScript.poll (repeat h n)
      (Some (ScrollScript.mkwindow h (Z.of_nat (S k)))) tick
    = if (S k <=? n)%nat then Some (tick + k)%nat else None.
Proof.
  induction n as [|n IH]; intros k tick; [reflexivity |].
  cbn [repeat ScrollScript.poll].
  rewrite scroll_and_wait_unchanged by reflexivity.
  cbn [window_of ScrollScript.retries].
  destruct k as [|k].
  - cbn. f_equal. lia.
  - replace (Z.of_nat (S (S k)) - 1)%Z with (Z.of_nat (S k)) by lia.
    destruct (Z.of_nat (S k) <=? 0)%Z eqn:Hz; [apply Z.leb_le in Hz; lia |].
    rewrite IH.
    change (S (S k) <=? S n)%nat with (S k <=? n)%nat.
    destruct (S k <=? n)%nat; [f_equal; lia | reflexivity].
Qed.

(** C9, as amended. The script starts with the counter at 5. A run that
    measures a height different from the recorded one, larger or smaller,
    puts the counter back to 5 and returns [false]; a run that measures
    the recorded height takes one off the counter and returns [true] when
    the counter has reached zero. On heights that grow strictly and then
    stay constant, the first run to return [true] is the fifth run that
    measures the unchanged height: no run before it returns [true], and
    with fewer than five such runs none does. *)
Theorem detector_steps_and_plateau :
  (forall (h : Z) (st : ScrollScript.state),
      ScrollScript.retries (window_of None) = 5%Z
      /\ (h <> ScrollScript.lastHeight (window_of st) ->
          ScrollScript.scroll_and_wait h st
          = (Some (ScrollScript.mkwindow h 5), false))
      /\ (h = ScrollScript.lastHeight (window_of st) ->
          ScrollScript.scroll_and_wait h st
          = (Some (ScrollScript.mkwindow h
                     (ScrollScript.retries (window_of st) - 1)),
             (ScrollScript.retries (window_of st) - 1 <=? 0)%Z)))
  /\ (forall (inc : list Z) (n : nat),
         inc <> [] ->
         increasing_from 0 inc ->
         ScrollScript.poll (inc ++ repeat (last inc 0%Z) n)%list None 1
         = if (5 <=? n)%nat then Some (List.length inc + 5)%nat else None).
Proof.
  split.
  - intros h st. split; [reflexivity |]. split.
    + apply scroll_and_wait_changed.
    + apply scroll_and_wait_unchanged.
  - intros inc n Hne Hinc.
    rewrite poll_growing by assumption.
    rewrite (poll_plateau (last inc 0%Z) n 4).
    destruct (5 <=? n)%nat; [f_equal; lia | reflexivity].
Qed.

(** A page that grows three times and then stays at 300. *)
Lemma detector_plateau_witness :
  [100; 200; 300]%Z <> []
  /\ increasing_from 0 [100; 200; 300]%Z
  /\ ScrollScript.poll ([100; 200; 300] ++ repeat 300 6)%Z%list None 1
     = Some 8%nat.
Proof.
  assert (Hne : [100; 200; 300]%Z <> []) by discriminate.
  assert (Hinc : increasing_from 0 [100; 200; 300]%Z) by (simpl; lia).
  split; [exact Hne |]. split; [exact Hinc |].
  exact (proj2 detector_steps_and_plateau [100; 200; 300]%Z 6%nat Hne Hinc).
Defined.

(** C9, as worded, fails on a page that shrinks: after heights 100 and 50
    the counter is back at 5, where the wording has it at 4, and on the
    heights 100, 50, 50, ... the script returns [true] at the seventh run,
    one run later than a counter decremented at the second run would. *)
Lemma detector_resets_on_shrinking_page :
  ScrollScript.states [100; 50]%Z None
  = [Some (ScrollScript.mkwindow 100 5); Some (ScrollScript.mkwindow 50 5)]
  /\ counter_as_worded 50 100 5 = 4%Z
  /\ ScrollScript.poll [100; 50; 50; 50; 50; 50; 50]%Z None 1 = Some 7%nat.
Proof. repeat split. Qed.

(** ** The price gate *)

Lemma price_of_text_spec (t : string) (f : spec_float) :
  Agoda.price_of_text t = Agoda.Price f <->
  t <> "N/A" /\ Py.float (Agoda.keep_price_chars t) = Ok f.
Proof.
  unfold Agoda.price_of_text, Agoda.not_na. split.
  - destruct (t =? "N/A") eqn:Hna; simpl; [discriminate |].
    destruct (Py.truthy t); [| discriminate].
    destruct (Py.truthy (Agoda.keep_price_chars t)); [| discriminate].
    destruct (Py.float (Agoda.keep_price_chars t)) as [g|]; [| discriminate].
    intro H; injection H as ->. split; [| reflexivity].
    now apply String.eqb_neq.
  - intros [Hna Hf]. apply String.eqb_neq in Hna. rewrite Hna; simpl.
    destruct t as [|c t]; [discriminate Hf |]. cbn [Py.truthy].
    destruct (Agoda.keep_price_chars (String c t)) as [|d k];
      [discriminate Hf |].
    cbn [Py.truthy]. now rewrite Hf.
Qed.

Lemma extract_hotel_info_price (it : Agoda.item) (d : Agoda.hotel_data) :
  Agoda.extract_hotel_info it = Some d ->
  exists f,
    Agoda.hotel_price d = Agoda.Price f
    /\ Agoda.price_of_text
         (Agoda.price_loop it Agoda.price_selectors "N/A") = Agoda.Price f.
Proof.
  unfold Agoda.extract_hotel_info, Agoda.extract_hotel_info_body.
  destruct (Agoda.name_loop it Agoda.hotel_name_selectors (Some "N/A"))
    as [nm|]; [| discriminate].
  destruct (negb (Agoda.not_na nm) || negb (Py.truthy nm)); [discriminate |].
  destruct (Agoda.price_of_text _) as [|f] eqn:Hp; [discriminate |].
  destruct (Agoda.booking_url_entry _) as [b|]; [| discriminate].
  destruct (Agoda.image_url_entry _) as [i|]; [| discriminate].
  cbn. intro H; injection H as <-. exists f. split; reflexivity.
Qed.

Lemma extract_hotel_info_dropped (it : Agoda.item) :
  Agoda.price_of_text (Agoda.price_loop it Agoda.price_selectors "N/A")
  = Agoda.NA ->
  Agoda.extract_hotel_info it = None.
Proof.
  intro Hp.
  unfold Agoda.extract_hotel_info, Agoda.extract_hotel_info_body.
  destruct (Agoda.name_loop it Agoda.hotel_name_selectors (Some "N/A"))
    as [nm|]; [| reflexivity].
  destruct (negb (Agoda.not_na nm) || negb (Py.truthy nm)); [reflexivity |].
  now rewrite Hp.
Qed.

Lemma collect_in (hotel_items : list Agoda.item) (d : Agoda.hotel_data) :
  In d (Agoda.collect hotel_items) ->
  exists it, In it hotel_items /\ Agoda.extract_hotel_info it = Some d.
Proof.
  induction hotel_items as [|it rest IH]; simpl; [tauto |].
  destruct (Agoda.extract_hotel_info it) as [d'|] eqn:He.
  - intros [<- | H].
    + exists it; auto.
    + destruct (IH H) as (x & Hx & Hd). exists x; auto.
  - intro H. destruct (IH H) as (x & Hx & Hd). exists x; auto.
Qed.

Lemma collect_skips (hotel_items : list Agoda.item) (it : Agoda.item) :
  Agoda.extract_hotel_info it = None ->
  Agoda.collect (it :: hotel_items) = Agoda.collect hotel_items.
Proof. intro H; simpl; now rewrite H. Qed.

Lemma process_hotel_price (w : Booking.world) (include_reviews : bool)
    (review_limit : Z) (h : Booking.raw_hotel) (r : Booking.hotel) :
  Booking.process_hotel w include_reviews review_limit h = Ok r ->
  Booking.price r = Booking.raw_price h /\ Booking.name r = Booking.raw_name h.
Proof.
  unfold Booking.process_hotel. intro H.
  apply bind_ok_inv in H as (c & _ & H).
  apply bind_ok_inv in H as (i & _ & H).
  apply bind_ok_inv in H as (rt & _ & H).
  apply bind_ok_inv in H as (j & _ & H).
  injection H as <-. split; reflexivity.
Qed.

(** C2, as amended. Every record in the list returned by the Agoda scraper
    carries a price that is a float, the value of the price text cleaned
    to its digits and dots; a result item whose price text is [N/A] or
    whose cleaned text [float] does not accept is left out of the list.
    The Booking scraper has no such gate: the price of a record is the
    price text of the card as extracted, or absent when the card has none. *)
Theorem price_gate_of_each_scraper :
  (forall browse location check_in check_out adults star_rating currency
          acts hotels d,
      Agoda.agoda_scraper browse location check_in check_out adults
        star_rating currency = (acts, Ok hotels) ->
      In d hotels ->
      exists f, Agoda.hotel_price d = Agoda.Price f)
  /\ (forall it d,
         Agoda.extract_hotel_info it = Some d ->
         exists f,
           Agoda.hotel_price d = Agoda.Price f
           /\ Agoda.price_loop it Agoda.price_selectors "N/A" <> "N/A"
           /\ Py.float
                (Agoda.keep_price_chars
                   (Agoda.price_loop it Agoda.price_selectors "N/A")) = Ok f)
  /\ (forall it rest,
         (Agoda.price_loop it Agoda.price_selectors "N/A" = "N/A"
          \/ is_ok (Py.float
                      (Agoda.keep_price_chars
                         (Agoda.price_loop it Agoda.price_selectors "N/A")))
             = false) ->
         Agoda.extract_hotel_info it = None
         /\ Agoda.collect (it :: rest) = Agoda.collect rest)
  /\ (forall w include_reviews review_limit h r,
         Booking.process_hotel w include_reviews review_limit h = Ok r ->
         Booking.price r = Booking.raw_price h).
Proof.
  split; [| split; [| split]].
  - intros browse location check_in check_out adults star_rating currency
      acts hotels d Hrun Hin.
    unfold Agoda.agoda_scraper in Hrun.
    destruct (Agoda.check_inputs _ _ _ _); [| discriminate].
    injection Hrun as _ <-.
    destruct (Agoda.hotel_items _) as [items|]; cbn in Hin; [| tauto].
    destruct (collect_in _ _ Hin) as (it & _ & He).
    destruct (extract_hotel_info_price _ _ He) as (f & Hf & _). eauto.
  - intros it d H.
    apply extract_hotel_info_price in H as (f & Hf & Hp).
    apply price_of_text_spec in Hp as [Hna Hfl].
    exists f. auto.
  - intros it rest H.
    assert (Hnone : Agoda.extract_hotel_info it = None).
    { apply extract_hotel_info_dropped.
      destruct (Agoda.price_of_text _) as [|f] eqn:Hp; [reflexivity |].
      apply price_of_text_spec in Hp as [Hna Hfl].
      destruct H as [H | H]; [congruence | now rewrite Hfl in H]. }
    split; [exact Hnone | now apply collect_skips].
  - intros w include_reviews review_limit h r H.
    now apply process_hotel_price in H.
Qed.

(** C2, as worded, fails on the Booking scraper: for the query of the
    end-to-end scenario and a results page with two cards, one of them
    without a price, both records are returned and the second has no
    price. *)
Lemma booking_returns_record_without_price :
  match Booking.search_hotels
          (Samples.unreachable
             [Samples.card_with_price; Samples.card_without_price])
          false 5 "Kuala Lumpur" "2025-06-07" "2025-06-08" 1
          (Some ["distance=3000"]) "USD" with
  | Ok hotels => map Booking.price hotels
  | Raise _ => []
  end = [Some "US$120"; None].
Proof. vm_compute. reflexivity. Qed.

(** ** Enrichment *)

(** No page is obtained from a URL: the request raises, or the status is
    not 200, or the body cannot be read. *)
Definition fetch_fails (w : Booking.world) (u : string) : Prop :=
  forall resp html,
    Booking.http_get w u = Ok resp ->
    Booking.status resp = 200%Z ->
    Booking.text resp <> Ok html.

(** The fields of a record that are set by its own task. *)
Definition own_fields (h : Booking.hotel) :=
  (Booking.id h, Booking.name h, Booking.price h, Booking.hotel_rating h,
   Booking.stars h, Booking.location h, Booking.url h,
   Booking.availability h, Booking.coords h, Booking.hotel_reviews h).

Section Enrichment.

Variable w : Booking.world.
Variable include_reviews : bool.
Variable review_limit : Z.

Let process_hotel := Booking.process_hotel w include_reviews review_limit.
Let gather := Booking.gather w include_reviews review_limit.
Let enrich := Booking.enrich w include_reviews review_limit.

Lemma get_hotel_coordinates_fails (u : string) :
  fetch_fails w u -> Booking.get_hotel_coordinates w u = None.
Proof.
  intro Hf. unfold Booking.get_hotel_coordinates.
  destruct (Booking.http_get w u) as [resp|] eqn:Hg; [| reflexivity].
  cbn [bind].
  destruct (Booking.status resp =? 200)%Z eqn:Hs; [| reflexivity].
  apply Z.eqb_eq in Hs. cbn [negb].
  destruct (Booking.text resp) as [html|] eqn:Ht; [| reflexivity].
  now elim (Hf resp html Hg Hs).
Qed.

Lemma get_hotel_reviews_fails (u : string) (limit : Z) :
  fetch_fails w u -> Booking.get_hotel_reviews w u limit = [].
Proof.
  intro Hf. unfold Booking.get_hotel_reviews, Booking.get_hotel_reviews_body.
  destruct (Booking.http_get w u) as [resp|] eqn:Hg; [| reflexivity].
  cbn [bind].
  destruct (Booking.status resp =? 200)%Z eqn:Hs; [| reflexivity].
  apply Z.eqb_eq in Hs. cbn [negb].
  destruct (Booking.text resp) as [html|] eqn:Ht; [| reflexivity].
  now elim (Hf resp html Hg Hs).
Qed.

Lemma process_hotel_fetch_failure (h : Booking.raw_hotel) (r : Booking.hotel) :
  process_hotel h = Ok r ->
  Booking.distance_from_center r = None
  /\ (fetch_fails w (Booking.url r) ->
      Booking.coords r = None
      /\ Booking.hotel_reviews r = if include_reviews then Some [] else None).
Proof.
  unfold process_hotel, Booking.process_hotel. intro H.
  apply bind_ok_inv in H as (c & Hc & H).
  apply bind_ok_inv in H as (i & _ & H).
  apply bind_ok_inv in H as (rt & _ & H).
  apply bind_ok_inv in H as (j & Hj & H).
  injection H as <-. cbn. split; [reflexivity |]. intro Hf. split.
  - destruct (Py.truthy (Booking.get_or_empty (Booking.raw_url h)));
      [| now injection Hc as <-].
    rewrite Hj in Hc. cbn [bind] in Hc.
    rewrite (get_hotel_coordinates_fails j Hf) in Hc. now injection Hc as <-.
  - destruct include_reviews; [| reflexivity].
    now rewrite (get_hotel_reviews_fails j review_limit Hf).
Qed.

Lemma without_exceptions_app (a b : list (result Booking.hotel)) :
  Booking.without_exceptions (a ++ b)%list
  = (Booking.without_exceptions a ++ Booking.without_exceptions b)%list.
Proof.
  induction a as [|[r|e] a IH]; simpl; [reflexivity | now rewrite IH | exact IH].
Qed.

Lemma without_exceptions_in (raw_data : list Booking.raw_hotel)
    (r : Booking.hotel) :
  In r (Booking.without_exceptions (gather raw_data)) ->
  exists h, In h raw_data /\ process_hotel h = Ok r.
Proof.
  unfold gather, Booking.gather.
  induction raw_data as [|h rest IH]; simpl; [tauto |].
  destruct (Booking.process_hotel w include_reviews review_limit h)
    as [r'|e] eqn:Hp.
  - intros [<- | H]; [exists h; auto |].
    destruct (IH H) as (x & Hx & Hr). exists x; auto.
  - intro H. destruct (IH H) as (x & Hx & Hr). exists x; auto.
Qed.

(** The number of tasks that end with an exception. *)
Fixpoint failures (outcomes : list (result Booking.hotel)) : nat :=
  match outcomes with
  | [] => 0
  | Ok _ :: rest => failures rest
  | Raise _ :: rest => S (failures rest)
  end.

Lemma without_exceptions_length (outcomes : list (result Booking.hotel)) :
  (List.length (Booking.without_exceptions outcomes) + failures outcomes
   = List.length outcomes)%nat.
Proof.
  induction outcomes as [|[r|e] rest IH]; simpl; lia.
Qed.

Lemma with_distance_own_fields (c : Booking.coordinates) (h : Booking.hotel) :
  own_fields (Booking.with_distance c h) = own_fields h.
Proof.
  unfold Booking.with_distance, own_fields.
  destruct (Booking.coords h) eqn:Hc; cbn; now rewrite ?Hc.
Qed.

Lemma add_distances_own_fields (l : list Booking.hotel) :
  map own_fields (Booking.add_distances l) = map own_fields l.
Proof.
  unfold Booking.add_distances.
  destruct (Booking.center_of l) as [c|]; [| reflexivity].
  rewrite map_map. apply map_ext. apply with_distance_own_fields.
Qed.

Lemma add_distances_in (l : list Booking.hotel) (r : Booking.hotel) :
  In r (Booking.add_distances l) ->
  exists r0,
    In r0 l
    /\ own_fields r = own_fields r0
    /\ (Booking.coords r0 = None ->
        Booking.distance_from_center r = Booking.distance_from_center r0).
Proof.
  unfold Booking.add_distances.
  destruct (Booking.center_of l) as [c|].
  - intro H. apply in_map_iff in H as (r0 & <- & Hin).
    exists r0. split; [exact Hin |]. split.
    + apply with_distance_own_fields.
    + intro Hc. unfold Booking.with_distance. now rewrite Hc.
  - intro H. exists r; auto.
Qed.


End Enrichment.

Lemma unreachable_fetch_fails (cards : list Booking.raw_hotel) (u : string) :
  fetch_fails (Samples.unreachable cards) u.
Proof. intros resp html H. discriminate H. Qed.



(** ** Input validation *)

(** The first date is before the second. *)
Definition date_before (a b : Datetime.date) : Prop :=
  (Datetime.year a < Datetime.year b
   \/ (Datetime.year a = Datetime.year b
       /\ (Datetime.month a < Datetime.month b
           \/ (Datetime.month a = Datetime.month b
               /\ Datetime.day a < Datetime.day b))))%N.

Lemma le_false_iff (a b : Datetime.date) :
  Datetime.le b a = false <-> date_before a b.
Proof.
  unfold Datetime.le, date_before.
  destruct (N.ltb_spec (Datetime.year b) (Datetime.year a));
    destruct (N.eqb_spec (Datetime.year b) (Datetime.year a));
    destruct (N.ltb_spec (Datetime.month b) (Datetime.month a));
    destruct (N.eqb_spec (Datetime.month b) (Datetime.month a));
    destruct (N.leb_spec (Datetime.day b) (Datetime.day a));
    cbn; split; intro; try discriminate; try reflexivity; try lia.
Qed.

(** The inputs that [agoda_scraper] lets through. *)
Definition inputs_accepted (location check_in_date check_out_date : string)
    (adults : Z) : Prop :=
  Py.strip location <> EmptyString
  /\ (1 <= adults <= 10)%Z
  /\ exists check_in check_out,
      Datetime.strptime check_in_date = Ok check_in
      /\ Datetime.strptime check_out_date = Ok check_out
      /\ date_before check_in check_out.

Lemma strptime_raises_value_error (s : string) (e : exn) :
  Datetime.strptime s = Raise e -> e = ValueError.
Proof.
  unfold Datetime.strptime.
  destruct (Datetime.match_format s) as [[[[y m] d] [|c r]]|]; try congruence.
  destruct (Datetime.valid_date y m d); congruence.
Qed.

Lemma check_inputs_spec (location check_in_date check_out_date : string)
    (adults : Z) :
  (inputs_accepted location check_in_date check_out_date adults
   /\ Agoda.check_inputs location check_in_date check_out_date adults = Ok tt)
  \/ (~ inputs_accepted location check_in_date check_out_date adults
      /\ Agoda.check_inputs location check_in_date check_out_date adults
         = Raise ValueError).
Proof.
  unfold Agoda.check_inputs, inputs_accepted, Agoda.validate_date_format.
  destruct (Py.truthy (Py.strip location)) eqn:Hloc; cbn [negb].
  2: { right. split; [| reflexivity]. apply truthy_false_iff in Hloc. tauto. }
  apply truthy_true_iff in Hloc.
  destruct (Datetime.strptime check_in_date) as [ci|e1] eqn:Hci; cbn [is_ok negb].
  2: { right. split; [| reflexivity]. intros (_ & _ & a & b & H & _). congruence. }
  destruct (Datetime.strptime check_out_date) as [co|e2] eqn:Hco;
    cbn [is_ok negb].
  2: { right. split; [| reflexivity].
       intros (_ & _ & a & b & _ & H & _). congruence. }
  destruct ((adults <? 1)%Z || (10 <? adults)%Z) eqn:Had.
  { right. split; [| reflexivity]. intros (_ & Hr & _).
    apply orb_true_iff in Had as [Had | Had]; apply Z.ltb_lt in Had; lia. }
  apply orb_false_elim in Had as [Ha1 Ha2].
  apply Z.ltb_ge in Ha1, Ha2. cbn [bind].
  destruct (Datetime.le co ci) eqn:Hle.
  - right. split; [| reflexivity].
    intros (_ & _ & a & b & Ea & Eb & Hb).
    injection Ea as <-. injection Eb as <-.
    apply le_false_iff in Hb. congruence.
  - left. split; [| reflexivity].
    split; [exact Hloc |]. split; [lia |].
    exists ci, co. repeat split. now apply le_false_iff.
Qed.



(** ** Distances *)

Section Distances.

Local Open Scope R_scope.

Lemma Int_part_0 : Int_part 0 = 0%Z.
Proof.
  unfold Int_part.
  assert (H : (0 + 1)%Z = up 0) by (apply up_tech; simpl; lra).
  rewrite <- H. reflexivity.
Qed.

Lemma round2_0 : Math.round2 0 = 0.
Proof.
  unfold Math.round2, Math.round_half_even.
  rewrite Rmult_0_l, Int_part_0.
  destruct (Rlt_dec (0 - 0) (1 / 2)) as [_|n]; [| exfalso; apply n; lra].
  simpl. lra.
Qed.

Lemma atan2_0_1 : Math.atan2 0 1 = 0.
Proof.
  unfold Math.atan2.
  destruct (Rlt_dec 0 1) as [_|n]; [| exfalso; apply n; lra].
  replace (0 / 1) with 0 by lra. apply atan_0.
Qed.

(** Two points with the same coordinates are 0.00 km apart. *)
Lemma calculate_distance_same (c : Booking.coordinates) :
  Booking.calculate_distance (Some c) (Some c) = Some 0.
Proof.
  unfold Booking.calculate_distance. f_equal.
  rewrite !Rminus_diag.
  replace (0 / 2) with 0 by lra.
  rewrite sin_0.
  replace (0 ^ 2 + _ * _ * 0 ^ 2) with 0 by ring.
  rewrite sqrt_0, Rminus_0_r, sqrt_1, atan2_0_1.
  replace (6371 * (2 * 0)) with 0 by ring.
  apply round2_0.
Qed.

End Distances.

(** The central angle between two points by the Haversine formula, with
    the latitudes and longitudes in degrees. *)
Definition haversine_angle (c1 c2 : Booking.coordinates) : R :=
  let lat1 := Math.radians (Math.SF2R (Booking.latitude c1)) in
  let lon1 := Math.radians (Math.SF2R (Booking.longitude c1)) in
  let lat2 := Math.radians (Math.SF2R (Booking.latitude c2)) in
  let lon2 := Math.radians (Math.SF2R (Booking.longitude c2)) in
  let a :=
    (sin ((lat2 - lat1) / 2) ^ 2
     + cos lat1 * cos lat2 * sin ((lon2 - lon1) / 2) ^ 2)%R in
  (2 * Math.atan2 (sqrt a) (sqrt (1 - a)))%R.

Lemma calculate_distance_formula (c1 c2 : Booking.coordinates) :
  Booking.calculate_distance (Some c1) (Some c2)
  = Some (Math.round2 (6371 * haversine_angle c1 c2)).
Proof. reflexivity. Qed.

(** What the distance pass makes of one record, given the reference. *)
Definition distance_set (center : Booking.coordinates)
    (before after : Booking.hotel) : Prop :=
  own_fields after = own_fields before
  /\ match Booking.coords before with
     | Some c =>
         Booking.distance_from_center after
         = Some (Math.round2 (6371 * haversine_angle center c))
         /\ (c = center -> Booking.distance_from_center after = Some 0%R)
     | None =>
         Booking.distance_from_center after
         = Booking.distance_from_center before
     end.

Lemma center_of_first (l : list Booking.hotel) (c : Booking.coordinates) :
  Booking.center_of l = Some c ->
  exists before h after,
    l = (before ++ h :: after)%list
    /\ Forall (fun x => Booking.coords x = None) before
    /\ Booking.coords h = Some c.
Proof.
  induction l as [|x l IH]; simpl; [discriminate |].
  destruct (Booking.coords x) as [cx|] eqn:Hx.
  - intro H; injection H as ->. exists [], x, l. auto.
  - intro H. destruct (IH H) as (b & h & a & -> & Hb & Hh).
    exists (x :: b), h, a. auto.
Qed.

Lemma center_of_none (l : list Booking.hotel) :
  Booking.center_of l = None ->
  Forall (fun x => Booking.coords x = None) l.
Proof.
  induction l as [|x l IH]; simpl; [constructor |].
  destruct (Booking.coords x) eqn:Hx; [discriminate |]. auto.
Qed.

Lemma with_distance_sets (center : Booking.coordinates) (h : Booking.hotel) :
  distance_set center h (Booking.with_distance center h).
Proof.
  split; [apply with_distance_own_fields |].
  unfold Booking.with_distance.
  destruct (Booking.coords h) as [c|] eqn:Hc; [| reflexivity].
  cbn [Booking.distance_from_center]. split.
  - apply calculate_distance_formula.
  - intros ->. apply calculate_distance_same.
Qed.

Lemma map_with_distance (center : Booking.coordinates) (l : list Booking.hotel) :
  Forall2 (distance_set center) l (map (Booking.with_distance center) l).
Proof.
  induction l as [|h l IH]; simpl; constructor;
    [apply with_distance_sets | exact IH].
Qed.

Lemma without_exceptions_no_distance (w : Booking.world)
    (include_reviews : bool) (review_limit : Z)
    (raw_data : list Booking.raw_hotel) :
  Forall (fun h => Booking.distance_from_center h = None)
    (Booking.without_exceptions
       (Booking.gather w include_reviews review_limit raw_data)).
Proof.
  apply Forall_forall. intros r Hin.
  apply without_exceptions_in in Hin as (h & _ & Hp).
  now apply process_hotel_fetch_failure in Hp as [Hd _].
Qed.


(** ** Pattern matching *)

(** No match of the pattern starts inside [pre], when [s] follows it. *)
Fixpoint no_match_within (p : Re.pattern) (pre s : string) : bool :=
  match pre with
  | EmptyString => true
  | String _ pre' =>
      match Re.match_here p (pre ++ s) with
      | None => no_match_within p pre' s
      | Some _ => false
      end
  end.

(** The text is empty or starts outside the class. *)
Definition stops (cls : ascii -> bool) (s : string) : bool :=
  match s with
  | EmptyString => true
  | String c _ => negb (cls c)
  end.

(** The number written with the decimal digits of a text. *)
Fixpoint digits_value (acc : N) (s : string) : N :=
  match s with
  | EmptyString => acc
  | String c s' => digits_value (acc * 10 + Py.digit_value c) s'
  end.

(** The review count for the group of the pattern. *)
Definition count_of_group (g : string) : Z :=
  Z.of_N (digits_value 0 (Py.remove_char "," g)).

Section PatternFacts.

Lemma search_after (p : Re.pattern) (pre s : string) :
  no_match_within p pre s = true -> Re.search p (pre ++ s) = Re.search p s.
Proof.
  induction pre as [|c pre IH]; intro H; [reflexivity |].
  cbn [no_match_within] in H.
  change (String c pre ++ s) with (String c (pre ++ s)) in *.
  cbn [Re.search].
  destruct (Re.match_here p (String c (pre ++ s))); [discriminate |].
  exact (IH H).
Qed.

Lemma search_found (p : Re.pattern) (s g rest : string) :
  Re.match_here p s = Some (g, rest) -> Re.search p s = Some g.
Proof. intro H. destruct s; cbn [Re.search]; now rewrite H. Qed.

Lemma search_none (p : Re.pattern) (s : string) :
  (forall a b, s = a ++ b -> Re.match_here p b = None) ->
  Re.search p s = None.
Proof.
  induction s as [|c s IH]; intro H; cbn [Re.search].
  - now rewrite (H EmptyString EmptyString eq_refl).
  - rewrite (H EmptyString (String c s) eq_refl).
    apply IH. intros a b ->. exact (H (String c a) b eq_refl).
Qed.

Lemma run_length_append (cls : ascii -> bool) (a b : string) :
  Py.all_chars cls a = true -> stops cls b = true ->
  Re.run_length cls (a ++ b) = String.length a.
Proof.
  induction a as [|c a IH]; cbn; intros Ha Hb.
  - destruct b as [|d b]; [reflexivity |]. cbn in *.
    now destruct (cls d).
  - apply andb_prop in Ha as [Hc Ha]. rewrite Hc. f_equal. now apply IH.
Qed.

Lemma take_append (a b : string) : Re.take (String.length a) (a ++ b) = a.
Proof. induction a as [|c a IH]; cbn; [now destruct b | now rewrite IH]. Qed.

Lemma give_back_first (k : string -> option (string * string)) (g : bool)
    (min : nat) (s : string) (n : nat) (grp rest : string) :
  k (Py.drop n s) = Some (grp, rest) ->
  Re.give_back k g min s n = Some (Re.grouped g (Re.take n s) ++ grp, rest).
Proof. intro H. destruct n; cbn [Re.give_back]; now rewrite H. Qed.

Lemma give_back_inv (k : string -> option (string * string)) (g : bool)
    (min : nat) (s : string) (n : nat) (x rest : string) :
  Re.give_back k g min s n = Some (x, rest) ->
  exists m grp,
    (m <= n)%nat
    /\ k (Py.drop m s) = Some (grp, rest)
    /\ x = Re.grouped g (Re.take m s) ++ grp.
Proof.
  induction n as [|n IH]; cbn [Re.give_back].
  - destruct (k (Py.drop 0 s)) as [[grp r]|] eqn:Hk; [| discriminate].
    intro H; injection H as <- <-. exists 0%nat, grp. auto.
  - destruct (k (Py.drop (S n) s)) as [[grp r]|] eqn:Hk.
    + intro H; injection H as <- <-. exists (S n), grp. auto.
    + destruct (min <=? n)%nat; [| discriminate].
      intro H. destruct (IH H) as (m & grp & Hm & Hk' & Hx).
      exists m, grp. auto.
Qed.

Lemma take_run_length (cls : ascii -> bool) (s : string) (m : nat) :
  (m <= Re.run_length cls s)%nat -> Py.all_chars cls (Re.take m s) = true.
Proof.
  revert s; induction m as [|m IH]; intros s H; [now destruct s |].
  destruct s as [|c s]; cbn in *; [reflexivity |].
  destruct (cls c); [| lia]. cbn. apply IH. lia.
Qed.

Lemma digit_or_dot_not_space (c : ascii) :
  Re.digit_or_dot c = true -> Py.isspace c = false.
Proof.
  destruct c as [[] [] [] [] [] [] [] []]; vm_compute; intro H;
    reflexivity || discriminate H.
Qed.

Lemma space_not_digit_or_comma (c : ascii) :
  Py.isspace c = true -> Re.digit_or_comma c = false.
Proof.
  destruct c as [[] [] [] [] [] [] [] []]; vm_compute; intro H;
    reflexivity || discriminate H.
Qed.

Lemma decimal_not_sign (c : ascii) :
  Py.isdecimal c = true ->
  Py.isspace c = false /\ c <> "-"%char /\ c <> "+"%char /\ c <> ","%char
  /\ c <> "_"%char.
Proof.
  destruct c as [[] [] [] [] [] [] [] []]; vm_compute; intro H;
    try discriminate H; repeat split; discriminate.
Qed.

Lemma stops_first (cls cls' : ascii -> bool) (a b : string) :
  a <> EmptyString ->
  Py.all_chars cls a = true ->
  (forall c, cls c = true -> cls' c = false) ->
  stops cls' (a ++ b) = true.
Proof.
  destruct a as [|c a]; [congruence |]. cbn. intros _ Ha H.
  apply andb_prop in Ha as [Hc _]. now rewrite (H c Hc).
Qed.

Lemma length_pos (s : string) : s <> EmptyString -> (1 <= String.length s)%nat.
Proof. destruct s; [congruence | cbn; lia]. Qed.

(** The pattern of the score at the start of a text. *)
Lemma match_here_scored (ws num rest : string) :
  ws <> EmptyString -> Py.all_chars Py.isspace ws = true ->
  num <> EmptyString -> Py.all_chars Re.digit_or_dot num = true ->
  stops Re.digit_or_dot rest = true ->
  Re.match_here Re.scored ("Scored" ++ ws ++ num ++ rest) = Some (num, rest).
Proof.
  intros Hws Hws' Hnum Hnum' Hrest.
  unfold Re.scored. cbn [Re.match_here].
  rewrite prefix_append, drop_append.
  rewrite run_length_append;
    [| exact Hws' | now apply (stops_first Re.digit_or_dot);
                     [| | apply digit_or_dot_not_space]].
  apply length_pos in Hws as Hl. apply Nat.leb_le in Hl. rewrite Hl.
  erewrite give_back_first.
  2: { rewrite drop_append. cbn [Re.match_here].
       rewrite run_length_append by assumption.
       apply length_pos in Hnum as Hn. apply Nat.leb_le in Hn. rewrite Hn.
       apply give_back_first. rewrite drop_append. reflexivity. }
  cbn [Re.grouped]. rewrite take_append. cbn. now rewrite append_nil_r.
Qed.

Lemma match_here_scored_needs_word (s : string) :
  prefix "Scored" s = false -> Re.match_here Re.scored s = None.
Proof. intro H. unfold Re.scored. cbn [Re.match_here]. now rewrite H. Qed.

Lemma contains_false_suffix (s sub a b : string) :
  Py.contains s sub = false -> s = a ++ b -> prefix sub b = false.
Proof.
  revert s; induction a as [|c a IH]; intros s H ->.
  - destruct b; cbn in H; now apply orb_false_elim in H as [H _].
  - cbn in H. apply orb_false_elim in H as [_ H]. exact (IH _ H eq_refl).
Qed.

Lemma search_scored_without_word (raw : string) :
  Py.contains raw "Scored" = false -> Re.search Re.scored raw = None.
Proof.
  intro H. apply search_none. intros a b E.
  apply match_here_scored_needs_word. exact (contains_false_suffix _ _ _ _ H E).
Qed.

(** The pattern of the review count at the start of a text. *)
Lemma match_here_reviews (d : ascii) (g ws rest : string) :
  Py.isdecimal d = true -> Py.all_chars Re.digit_or_comma g = true ->
  ws <> EmptyString -> Py.all_chars Py.isspace ws = true ->
  Re.match_here Re.reviews (String d g ++ ws ++ "reviews" ++ rest)
  = Some (String d g, rest).
Proof.
  intros Hd Hg Hws Hws'.
  unfold Re.reviews.
  change (String d g ++ ws ++ "reviews" ++ rest)
    with (String d (g ++ ws ++ "reviews" ++ rest)).
  cbn [Re.match_here]. rewrite Hd.
  rewrite run_length_append;
    [| exact Hg | now apply (stops_first Py.isspace);
                   [| | apply space_not_digit_or_comma]].
  change (0 <=? String.length g)%nat with true. cbv iota.
  erewrite give_back_first.
  2: { rewrite drop_append. cbn [Re.match_here].
       rewrite run_length_append; [| exact Hws' | reflexivity].
       apply length_pos in Hws as Hl. apply Nat.leb_le in Hl. rewrite Hl.
       apply give_back_first. rewrite drop_append.
       rewrite prefix_append, drop_append. reflexivity. }
  cbn [Re.grouped]. rewrite take_append. cbn. now rewrite append_nil_r.
Qed.

Lemma drop_suffix (n : nat) (t : string) : exists a, t = a ++ Py.drop n t.
Proof.
  revert t; induction n as [|n IH]; intros t.
  - exists EmptyString. now destruct t.
  - destruct t as [|c t]; [exists EmptyString; reflexivity |].
    destruct (IH t) as [a Ha]. exists (String c a). cbn. now rewrite <- Ha.
Qed.

Lemma match_here_reviews_word (s g r : string) :
  Re.match_here Re.reviews s = Some (g, r) ->
  exists a b, s = a ++ b /\ prefix "reviews" b = true.
Proof.
  unfold Re.reviews. cbn [Re.match_here].
  destruct s as [|c s]; [discriminate |].
  destruct (Py.isdecimal c); [| discriminate].
  destruct (0 <=? Re.run_length Re.digit_or_comma s)%nat; [| discriminate].
  match goal with
  | |- context [Re.give_back ?k ?gg ?mn ?t ?n] =>
      destruct (Re.give_back k gg mn t n) as [[x r0]|] eqn:Hg; [| discriminate]
  end.
  intros _.
  apply give_back_inv in Hg as (m & grp & _ & Hk & _).
  destruct (1 <=? Re.run_length Py.isspace (Py.drop m s))%nat; [| discriminate].
  apply give_back_inv in Hk as (m' & grp' & _ & Hk & _).
  destruct (prefix "reviews" (Py.drop m' (Py.drop m s))) eqn:Hp; [| discriminate].
  destruct (drop_suffix m s) as [a Ha].
  destruct (drop_suffix m' (Py.drop m s)) as [a' Ha'].
  exists (String c a ++ a'), (Py.drop m' (Py.drop m s)).
  split; [| exact Hp].
  rewrite append_assoc, <- Ha'. cbn. now rewrite <- Ha.
Qed.

Lemma match_here_reviews_needs_word (s : string) :
  Py.contains s "reviews" = false -> Re.match_here Re.reviews s = None.
Proof.
  intro H.
  destruct (Re.match_here Re.reviews s) as [[g r]|] eqn:Hm; [| reflexivity].
  apply match_here_reviews_word in Hm as (a & b & E & Hp).
  now rewrite (contains_false_suffix _ _ _ _ H E) in Hp.
Qed.

Lemma contains_false_tail (s sub a b : string) :
  Py.contains s sub = false -> s = a ++ b -> Py.contains b sub = false.
Proof.
  revert s; induction a as [|c a IH]; intros s H ->; [exact H |].
  cbn in H. apply orb_false_elim in H as [_ H]. exact (IH _ H eq_refl).
Qed.

Lemma search_reviews_without_word (raw : string) :
  Py.contains raw "reviews" = false -> Re.search Re.reviews raw = None.
Proof.
  intro H. apply search_none. intros a b E.
  apply match_here_reviews_needs_word.
  exact (contains_false_tail _ _ _ _ H E).
Qed.

Lemma digits_tail_all (s : string) :
  forall acc n,
    Py.all_chars Py.isdecimal s = true ->
    Py.digits_tail acc n s
    = (digits_value acc s, (n + N.of_nat (String.length s))%N, EmptyString).
Proof.
  induction s as [|c s IH]; intros acc n H.
  - cbn. f_equal. f_equal. lia.
  - cbn [Py.all_chars] in H. apply andb_prop in H as [Hc Hs].
    cbn [Py.digits_tail digits_value String.length]. rewrite Hc.
    rewrite (IH _ _ Hs). f_equal. f_equal. lia.
Qed.

Lemma rstrip_no_space (s : string) :
  Py.all_chars (fun c => negb (Py.isspace c)) s = true -> Py.rstrip s = s.
Proof.
  induction s as [|c s IH]; [reflexivity |].
  cbn [Py.all_chars Py.rstrip]. intro H. apply andb_prop in H as [Hc Hs].
  rewrite (IH Hs). apply negb_true_iff in Hc. rewrite Hc.
  now destruct s.
Qed.

Lemma all_chars_weaken (p q : ascii -> bool) (s : string) :
  (forall c, p c = true -> q c = true) ->
  Py.all_chars p s = true -> Py.all_chars q s = true.
Proof.
  intro Hpq. induction s as [|c s IH]; [reflexivity |].
  cbn. intro H. apply andb_prop in H as [Hc Hs].
  now rewrite (Hpq c Hc), (IH Hs).
Qed.

Lemma int_of_digits (c : ascii) (s : string) :
  Py.isdecimal c = true -> Py.all_chars Py.isdecimal s = true ->
  Py.int (String c s) = Ok (Z.of_N (digits_value 0 (String c s))).
Proof.
  intros Hc Hs. unfold Py.int, Py.strip.
  rewrite rstrip_no_space.
  2: { apply (all_chars_weaken Py.isdecimal).
       - intros x Hx. apply decimal_not_sign in Hx as [Hx _]. now rewrite Hx.
       - cbn. now rewrite Hc. }
  destruct (decimal_not_sign c Hc) as (Hsp & Hm & Hp & _).
  cbn [Py.lstrip]. rewrite Hsp.
  assert (Hsign : Py.sign_of (String c s) = (false, String c s)).
  { unfold Py.sign_of.
    destruct c as [[] [] [] [] [] [] [] []]; try reflexivity; congruence. }
  rewrite Hsign. unfold Py.digitpart, Py.digitpart_from. rewrite Hc.
  rewrite digits_tail_all by exact Hs. reflexivity.
Qed.

Lemma search_some_inv (p : Re.pattern) (s g : string) :
  Re.search p s = Some g ->
  exists a b r, s = a ++ b /\ Re.match_here p b = Some (g, r).
Proof.
  induction s as [|c s IH]; cbn [Re.search].
  - destruct (Re.match_here p EmptyString) as [[x r]|] eqn:Hm; [| discriminate].
    intro H; injection H as <-. exists EmptyString, EmptyString, r. auto.
  - destruct (Re.match_here p (String c s)) as [[x r]|] eqn:Hm.
    + intro H; injection H as <-. exists EmptyString, (String c s), r. auto.
    + intro H. destruct (IH H) as (a & b & r & -> & Hb).
      exists (String c a), b, r. auto.
Qed.

Lemma match_here_reviews_group (s g r : string) :
  Re.match_here Re.reviews s = Some (g, r) ->
  exists d g',
    g = String d g' /\ Py.isdecimal d = true
    /\ Py.all_chars Re.digit_or_comma g' = true.
Proof.
  unfold Re.reviews. cbn [Re.match_here].
  destruct s as [|c s]; [discriminate |].
  destruct (Py.isdecimal c) eqn:Hc; [| discriminate].
  destruct (0 <=? Re.run_length Re.digit_or_comma s)%nat; [| discriminate].
  match goal with
  | |- context [Re.give_back ?k ?gg ?mn ?t ?n] =>
      destruct (Re.give_back k gg mn t n) as [[x r0]|] eqn:Hg; [| discriminate]
  end.
  intro H; injection H as <- <-.
  apply give_back_inv in Hg as (m & grp & Hm & Hk & ->).
  destruct (1 <=? Re.run_length Py.isspace (Py.drop m s))%nat; [| discriminate].
  apply give_back_inv in Hk as (m' & grp' & _ & Hk & ->).
  destruct (prefix "reviews" (Py.drop m' (Py.drop m s))); [| discriminate].
  injection Hk as <- _.
  exists c, (Re.take m s). cbn. rewrite append_nil_r.
  split; [reflexivity |]. split; [exact Hc |].
  now apply take_run_length.
Qed.

Lemma remove_commas_digits (g : string) :
  Py.all_chars Re.digit_or_comma g = true ->
  Py.all_chars Py.isdecimal (Py.remove_char "," g) = true.
Proof.
  induction g as [|c g IH]; [reflexivity |].
  cbn [Py.all_chars Py.remove_char]. intro H. apply andb_prop in H as [Hc Hg].
  destruct (Ascii.eqb c ",") eqn:E; [now apply IH |].
  cbn [Py.all_chars]. rewrite (IH Hg), andb_true_r.
  unfold Re.digit_or_comma in Hc. now rewrite E, orb_false_r in Hc.
Qed.

Lemma int_of_group (d : ascii) (g : string) :
  Py.isdecimal d = true -> Py.all_chars Re.digit_or_comma g = true ->
  Py.int (Py.remove_char "," (String d g)) = Ok (count_of_group (String d g)).
Proof.
  intros Hd Hg. unfold count_of_group. cbn [Py.remove_char].
  destruct (decimal_not_sign d Hd) as (_ & _ & _ & Hcomma & _).
  apply Ascii.eqb_neq in Hcomma. rewrite Hcomma.
  apply int_of_digits; [exact Hd | now apply remove_commas_digits].
Qed.

(** The review count of a rating text. *)
Definition review_count (raw : string) : option Z :=
  option_map count_of_group (Re.search Re.reviews raw).

Lemma clean_rating_unfold (raw : string) :
  Booking.clean_rating raw
  = match Re.search Re.scored raw with
    | None => Ok (Booking.mkrating None (review_count raw))
    | Some num =>
        match Py.float num with
        | Ok f => Ok (Booking.mkrating (Some f) (review_count raw))
        | Raise e => Raise e
        end
    end.
Proof.
  unfold Booking.clean_rating, review_count.
  assert (Hr : match Re.search Re.reviews raw with
               | Some g => n <- Py.int (Py.remove_char "," g) ;; Ok (Some n)
               | None => Ok None
               end
               = Ok (option_map count_of_group (Re.search Re.reviews raw))).
  { destruct (Re.search Re.reviews raw) as [g|] eqn:Hs; [| reflexivity].
    apply search_some_inv in Hs as (a & b & r & _ & Hm).
    apply match_here_reviews_group in Hm as (d & g' & -> & Hd & Hg).
    now rewrite int_of_group. }
  rewrite Hr.
  destruct (Re.search Re.scored raw) as [num|]; [| reflexivity].
  destruct (Py.float num); reflexivity.
Qed.

End PatternFacts.




(** ** Addresses *)

Lemma extract_hotel_info_urls (it : Agoda.item) (d : Agoda.hotel_data) :
  Agoda.extract_hotel_info it = Some d ->
  Agoda.booking_url_entry
    (Agoda.attribute_loop it "href" Agoda.booking_url_selectors (Some "N/A"))
  = Ok (Agoda.booking_url d)
  /\ Agoda.image_url_entry
       (Agoda.attribute_loop it "src" Agoda.image_selectors (Some "N/A"))
     = Ok (Agoda.image_url d).
Proof.
  unfold Agoda.extract_hotel_info, Agoda.extract_hotel_info_body.
  destruct (Agoda.name_loop it Agoda.hotel_name_selectors (Some "N/A"))
    as [nm|]; [| discriminate].
  destruct (negb (Agoda.not_na nm) || negb (Py.truthy nm)); [discriminate |].
  destruct (Agoda.price_of_text _) as [|f]; [discriminate |].
  destruct (Agoda.booking_url_entry _) as [b|]; [| discriminate].
  destruct (Agoda.image_url_entry _) as [i|]; [| discriminate].
  cbn. intro H; injection H as <-. split; reflexivity.
Qed.


(** A character with no part in the split of an address. *)
Definition plain_char (c : ascii) : bool :=
  negb (Py.mem_char c ":?#;[]") && negb (Urllib.unsafe_byte c).

Definition host_char (c : ascii) : bool :=
  plain_char c && negb (Ascii.eqb c "/").

(** No segment of the path is [.] or [..]. *)
Definition no_dot_segments (path : string) : bool :=
  forallb (fun seg => negb (seg =? ".") && negb (seg =? ".."))
    (Py.split "/" path).


Section AddressFacts.

Lemma plain_char_facts (c : ascii) :
  plain_char c = true ->
  Urllib.unsafe_byte c = false
  /\ Ascii.eqb c ":" = false /\ Ascii.eqb c "?" = false
  /\ Ascii.eqb c "#" = false /\ Ascii.eqb c ";" = false
  /\ Ascii.eqb c "[" = false /\ Ascii.eqb c "]" = false.
Proof.
  destruct c as [[] [] [] [] [] [] [] []]; vm_compute; intro H;
    try discriminate H; repeat split.
Qed.

Lemma remove_unsafe_plain (s : string) :
  Py.all_chars plain_char s = true -> Urllib.remove_unsafe s = s.
Proof.
  induction s as [|c s IH]; [reflexivity |].
  cbn. intro H. apply andb_prop in H as [Hc Hs].
  destruct (plain_char_facts c Hc) as (-> & _). now rewrite (IH Hs).
Qed.

Lemma partition_absent (sep : ascii) (s : string) :
  Py.mem_char sep s = false -> Py.partition sep s = (s, false, EmptyString).
Proof.
  induction s as [|c s IH]; [reflexivity |].
  intro H. apply mem_char_false_eqb in H as [H1 H2].
  cbn. now rewrite H1, (IH H2).
Qed.

Lemma plain_without (sep : ascii) (s : string) :
  Py.mem_char sep ":?#;[]" = true ->
  Py.all_chars plain_char s = true -> Py.mem_char sep s = false.
Proof.
  intro Hsep. induction s as [|c s IH]; [reflexivity |].
  cbn. intro H. apply andb_prop in H as [Hc Hs]. rewrite (IH Hs), orb_false_r.
  destruct (Ascii.eqb sep c) eqn:E; [| reflexivity].
  apply Ascii.eqb_eq in E. subst c.
  unfold plain_char in Hc. now rewrite Hsep in Hc.
Qed.

Lemma host_char_plain (s : string) :
  Py.all_chars host_char s = true -> Py.all_chars plain_char s = true.
Proof.
  induction s as [|c s IH]; [reflexivity |].
  cbn. intro H. apply andb_prop in H as [Hc Hs].
  unfold host_char in Hc. apply andb_prop in Hc as [Hc _].
  now rewrite Hc, (IH Hs).
Qed.

Lemma all_chars_append (p : ascii -> bool) (a b : string) :
  Py.all_chars p (a ++ b) = Py.all_chars p a && Py.all_chars p b.
Proof.
  induction a as [|c a IH]; [reflexivity |]. cbn. now rewrite IH, andb_assoc.
Qed.

Lemma splitnetloc_host (host path : string) :
  Py.all_chars host_char host = true ->
  path = EmptyString \/ prefix "/" path = true ->
  Urllib.splitnetloc (host ++ path) = (host, path).
Proof.
  intros Hh Hp. induction host as [|c host IH].
  - cbn. destruct Hp as [-> | Hp]; [reflexivity |].
    apply prefix_true_split in Hp as [r ->]. reflexivity.
  - cbn in Hh. apply andb_prop in Hh as [Hc Hh].
    cbn [append Urllib.splitnetloc]. rewrite (IH Hh).
    unfold host_char in Hc. apply andb_prop in Hc as [Hc Hs].
    destruct (plain_char_facts c Hc) as (_ & _ & Hq & Hf & _).
    apply negb_true_iff in Hs.
    cbn [Py.mem_char]. now rewrite Hs, Hq, Hf.
Qed.

Lemma concat_cons (sep x y : string) (l : list string) :
  concat sep (x :: y :: l) = x ++ sep ++ concat sep (y :: l).
Proof. reflexivity. Qed.

Lemma join_split (sep : ascii) (s : string) :
  Py.join (String sep EmptyString) (Py.split sep s) = s.
Proof.
  unfold Py.join. induction s as [|c s IH]; [reflexivity |].
  cbn [Py.split].
  pose proof (split_not_nil sep s) as Hne.
  destruct (Py.split sep s) as [|x l]; [congruence |].
  destruct (Ascii.eqb c sep) eqn:E.
  - apply Ascii.eqb_eq in E. subst c.
    rewrite concat_cons, IH. reflexivity.
  - destruct l as [|y l].
    + cbn [concat] in *. now rewrite IH.
    + rewrite concat_cons in *. rewrite <- IH. reflexivity.
Qed.

Lemma resolve_identity (segments acc : list string) :
  forallb (fun seg => negb (seg =? ".") && negb (seg =? "..")) segments = true ->
  Urllib.resolve segments acc = (rev acc ++ segments)%list.
Proof.
  revert acc; induction segments as [|seg rest IH]; intros acc H.
  - cbn. now rewrite app_nil_r.
  - cbn in H. apply andb_prop in H as [Hseg Hrest].
    apply andb_prop in Hseg as [H1 H2].
    apply negb_true_iff in H1, H2.
    cbn [Urllib.resolve]. rewrite H1, H2, (IH _ Hrest). cbn [rev].
    now rewrite <- app_assoc.
Qed.

Lemma last_not_dot (segments : list string) :
  forallb (fun seg => negb (seg =? ".") && negb (seg =? "..")) segments = true ->
  Py.mem_string (last segments EmptyString) ["."; ".."] = false.
Proof.
  induction segments as [|seg rest IH]; [reflexivity |].
  intro H. cbn in H. apply andb_prop in H as [Hseg Hrest].
  destruct rest as [|x rest]; [| exact (IH Hrest)].
  cbn. apply andb_prop in Hseg as [H1 H2].
  apply negb_true_iff in H1, H2. now rewrite H1, H2.
Qed.

Lemma urlsplit_relative (dflt url : string) :
  Py.all_chars plain_char dflt = true ->
  Py.all_chars plain_char url = true ->
  prefix "//" url = false ->
  Urllib.urlparse url dflt
  = Ok (Urllib.mkparsed dflt EmptyString url EmptyString EmptyString EmptyString).
Proof.
  intros Hd Hu Hp. unfold Urllib.urlparse, Urllib.urlsplit.
  rewrite !remove_unsafe_plain by assumption.
  rewrite (partition_absent ":" url) by (now apply plain_without).
  cbn [andb]. rewrite Hp. cbn [bind].
  rewrite (partition_absent "#" url) by (now apply plain_without).
  rewrite (partition_absent "?" url) by (now apply plain_without).
  cbn [bind Urllib.scheme Urllib.path].
  rewrite (plain_without ";" url eq_refl Hu), andb_false_r. reflexivity.
Qed.

Lemma urlsplit_netloc (dflt host path : string) :
  Py.all_chars plain_char dflt = true ->
  host <> EmptyString ->
  Py.all_chars host_char host = true ->
  Py.all_chars plain_char path = true ->
  path = EmptyString \/ prefix "/" path = true ->
  Urllib.urlparse ("//" ++ host ++ path) dflt
  = Ok (Urllib.mkparsed dflt host path EmptyString EmptyString EmptyString).
Proof.
  intros Hd Hne Hh Hp Hpp. unfold Urllib.urlparse, Urllib.urlsplit.
  assert (Hall : Py.all_chars plain_char ("//" ++ host ++ path) = true).
  { change ("//" ++ host ++ path) with (String "/" (String "/" (host ++ path))).
    cbn [Py.all_chars]. rewrite all_chars_append, (host_char_plain _ Hh), Hp.
    reflexivity. }
  rewrite !remove_unsafe_plain by assumption.
  rewrite (partition_absent ":" _) by (now apply plain_without).
  cbn [andb]. rewrite prefix_append.
  change (Py.drop 2 ("//" ++ host ++ path)) with (host ++ path).
  rewrite splitnetloc_host by assumption.
  rewrite (plain_without "[" host eq_refl (host_char_plain _ Hh)).
  rewrite (plain_without "]" host eq_refl (host_char_plain _ Hh)).
  cbn [xorb bind].
  rewrite (partition_absent "#" path) by (now apply plain_without).
  rewrite (partition_absent "?" path) by (now apply plain_without).
  cbn [bind Urllib.scheme Urllib.path].
  rewrite (plain_without ";" path eq_refl Hp), andb_false_r. reflexivity.
Qed.

Lemma urlparse_base :
  Urllib.urlparse Booking.base_url EmptyString
  = Ok (Urllib.mkparsed "https" "www.booking.com" EmptyString EmptyString
          EmptyString EmptyString).
Proof. vm_compute. reflexivity. Qed.

Lemma urlunparse_netloc (sch host path : string) :
  Py.truthy sch = true -> Py.truthy host = true ->
  path = EmptyString \/ prefix "/" path = true ->
  Urllib.urlunparse sch host path EmptyString EmptyString EmptyString
  = sch ++ "://" ++ host ++ path.
Proof.
  intros Hs Hh Hp. unfold Urllib.urlunparse, Urllib.urlunsplit.
  cbn [Py.truthy]. rewrite Hs, Hh. cbn [orb].
  assert (E : (if Py.truthy path && negb (prefix "/" path)
               then "/" ++ path else path) = path).
  { destruct Hp as [-> | Hp]; [reflexivity |]. rewrite Hp.
    now rewrite andb_false_r. }
  rewrite E. reflexivity.
Qed.

Lemma truthy_prefix (p s : string) :
  Py.truthy p = true -> prefix p s = true -> Py.truthy s = true.
Proof. destruct p; [discriminate |]. destruct s; [discriminate | reflexivity]. Qed.

(** An address that starts at the root of the site is put after the base. *)
Lemma urljoin_root_relative (url : string) :
  prefix "/" url = true -> prefix "//" url = false ->
  Py.all_chars plain_char url = true -> no_dot_segments url = true ->
  Urllib.urljoin Booking.base_url url = Ok (Booking.base_url ++ url).
Proof.
  intros Hroot Hnot Hplain Hdots. unfold Urllib.urljoin.
  assert (Ht : Py.truthy url = true) by (now apply (truthy_prefix "/")).
  change (Py.truthy Booking.base_url) with true. rewrite Ht. cbn [negb].
  rewrite urlparse_base. cbn [bind Urllib.scheme].
  rewrite urlsplit_relative by (assumption || reflexivity).
  cbn [bind Urllib.scheme Urllib.netloc Urllib.path Urllib.params
       Urllib.query Urllib.fragment].
  change ("https" =? "https") with true.
  change (Py.mem_string "https" Urllib.uses_relative) with true.
  change (Py.mem_string "https" Urllib.uses_netloc) with true.
  cbn [negb orb andb Py.truthy]. rewrite Ht. cbn [negb andb].
  rewrite Hroot.
  unfold no_dot_segments in Hdots.
  rewrite (last_not_dot _ Hdots), (resolve_identity _ [] Hdots).
  cbn [rev app]. rewrite (join_split "/" url), Ht.
  rewrite urlunparse_netloc; auto.
Qed.

(** An address without a scheme gets the scheme of the base. *)
Lemma urljoin_scheme_relative (host path : string) :
  host <> EmptyString ->
  Py.all_chars host_char host = true ->
  Py.all_chars plain_char path = true ->
  path = EmptyString \/ prefix "/" path = true ->
  Urllib.urljoin Booking.base_url ("//" ++ host ++ path)
  = Ok ("https:" ++ "//" ++ host ++ path).
Proof.
  intros Hne Hh Hp Hpp. unfold Urllib.urljoin.
  change (Py.truthy Booking.base_url) with true.
  change (Py.truthy ("//" ++ host ++ path)) with true. cbn [negb].
  rewrite urlparse_base. cbn [bind Urllib.scheme].
  rewrite urlsplit_netloc by (assumption || reflexivity).
  cbn [bind Urllib.scheme Urllib.netloc Urllib.path Urllib.params
       Urllib.query Urllib.fragment].
  change ("https" =? "https") with true.
  change (Py.mem_string "https" Urllib.uses_relative) with true.
  change (Py.mem_string "https" Urllib.uses_netloc) with true.
  apply truthy_true_iff in Hne as Ht. rewrite Ht. cbn [negb orb andb].
  rewrite urlunparse_netloc; auto.
Qed.

Lemma urlparse_https (dflt host path : string) :
  host <> EmptyString ->
  Py.all_chars host_char host = true ->
  Py.all_chars plain_char path = true ->
  path = EmptyString \/ prefix "/" path = true ->
  Urllib.urlparse ("https://" ++ host ++ path) dflt
  = Ok (Urllib.mkparsed "https" host path EmptyString EmptyString EmptyString).
Proof.
  intros Hne Hh Hp Hpp. unfold Urllib.urlparse, Urllib.urlsplit.
  assert (Hall : Py.all_chars plain_char (host ++ path) = true)
    by (now rewrite all_chars_append, (host_char_plain _ Hh), Hp).
  change (Urllib.remove_unsafe ("https://" ++ host ++ path))
    with ("https://" ++ Urllib.remove_unsafe (host ++ path)).
  rewrite (remove_unsafe_plain (host ++ path)) by assumption.
  change (Py.partition ":" ("https://" ++ host ++ path))
    with ("https", true, "//" ++ host ++ path).
  cbv beta iota zeta.
  change (Py.truthy "https") with true.
  change (Py.all_chars Urllib.scheme_char "https") with true.
  change (Py.lower "https") with "https".
  cbn [andb]. rewrite prefix_append.
  change (Py.drop 2 ("//" ++ host ++ path)) with (host ++ path).
  rewrite splitnetloc_host by assumption.
  rewrite (plain_without "[" host eq_refl (host_char_plain _ Hh)).
  rewrite (plain_without "]" host eq_refl (host_char_plain _ Hh)).
  cbn [xorb bind].
  rewrite (partition_absent "#" path) by (now apply plain_without).
  rewrite (partition_absent "?" path) by (now apply plain_without).
  cbn [bind Urllib.scheme Urllib.path].
  rewrite (plain_without ";" path eq_refl Hp), andb_false_r. reflexivity.
Qed.

Lemma urlparse_http (dflt host path : string) :
  host <> EmptyString ->
  Py.all_chars host_char host = true ->
  Py.all_chars plain_char path = true ->
  path = EmptyString \/ prefix "/" path = true ->
  Urllib.urlparse ("http://" ++ host ++ path) dflt
  = Ok (Urllib.mkparsed "http" host path EmptyString EmptyString EmptyString).
Proof.
  intros Hne Hh Hp Hpp. unfold Urllib.urlparse, Urllib.urlsplit.
  assert (Hall : Py.all_chars plain_char (host ++ path) = true)
    by (now rewrite all_chars_append, (host_char_plain _ Hh), Hp).
  change (Urllib.remove_unsafe ("http://" ++ host ++ path))
    with ("http://" ++ Urllib.remove_unsafe (host ++ path)).
  rewrite (remove_unsafe_plain (host ++ path)) by assumption.
  change (Py.partition ":" ("http://" ++ host ++ path))
    with ("http", true, "//" ++ host ++ path).
  cbv beta iota zeta.
  change (Py.truthy "http") with true.
  change (Py.all_chars Urllib.scheme_char "http") with true.
  change (Py.lower "http") with "http".
  cbn [andb]. rewrite prefix_append.
  change (Py.drop 2 ("//" ++ host ++ path)) with (host ++ path).
  rewrite splitnetloc_host by assumption.
  rewrite (plain_without "[" host eq_refl (host_char_plain _ Hh)).
  rewrite (plain_without "]" host eq_refl (host_char_plain _ Hh)).
  cbn [xorb bind].
  rewrite (partition_absent "#" path) by (now apply plain_without).
  rewrite (partition_absent "?" path) by (now apply plain_without).
  cbn [bind Urllib.scheme Urllib.path].
  rewrite (plain_without ";" path eq_refl Hp), andb_false_r. reflexivity.
Qed.

(** An address with the scheme [http] or [https] is returned as it is. *)
Lemma urljoin_absolute (host path : string) :
  host <> EmptyString ->
  Py.all_chars host_char host = true ->
  Py.all_chars plain_char path = true ->
  path = EmptyString \/ prefix "/" path = true ->
  Urllib.urljoin Booking.base_url ("https://" ++ host ++ path)
  = Ok ("https://" ++ host ++ path)
  /\ Urllib.urljoin Booking.base_url ("http://" ++ host ++ path)
     = Ok ("http://" ++ host ++ path).
Proof.
  intros Hne Hh Hp Hpp. split; unfold Urllib.urljoin.
  - change (Py.truthy Booking.base_url) with true.
    change (Py.truthy ("https://" ++ host ++ path)) with true. cbn [negb].
    rewrite urlparse_base. cbn [bind Urllib.scheme].
    rewrite urlparse_https by assumption.
    cbn [bind Urllib.scheme Urllib.netloc Urllib.path Urllib.params
         Urllib.query Urllib.fragment].
    change ("https" =? "https") with true.
    change (Py.mem_string "https" Urllib.uses_relative) with true.
    change (Py.mem_string "https" Urllib.uses_netloc) with true.
    apply truthy_true_iff in Hne as Ht. rewrite Ht. cbn [negb orb andb].
    rewrite urlunparse_netloc; auto.
  - change (Py.truthy Booking.base_url) with true.
    change (Py.truthy ("http://" ++ host ++ path)) with true. cbn [negb].
    rewrite urlparse_base. cbn [bind Urllib.scheme].
    rewrite urlparse_http by assumption.
    cbn [bind Urllib.scheme].
    change ("http" =? "https") with false. reflexivity.
Qed.

End AddressFacts.

Lemma process_hotel_url (w : Booking.world) (include_reviews : bool)
    (review_limit : Z) (h : Booking.raw_hotel) (r : Booking.hotel) :
  Booking.process_hotel w include_reviews review_limit h = Ok r ->
  Urllib.urljoin Booking.base_url (Booking.get_or_empty (Booking.raw_url h))
  = Ok (Booking.url r).
Proof.
  unfold Booking.process_hotel. intro H.
  apply bind_ok_inv in H as (c & _ & H).
  apply bind_ok_inv in H as (i & _ & H).
  apply bind_ok_inv in H as (rt & _ & H).
  apply bind_ok_inv in H as (j & Hj & H).
  injection H as <-. exact Hj.
Qed.




(** * Further properties *)

(** ** The polling script on any heights *)

(** A run of the script on a recorded height [L] with counter [r] that
    ends with [true] came through [r] unchanged heights, or through a
    changed height and then five unchanged ones. *)
Lemma poll_some_inv (heights : list Z) :
  forall (L : Z) (r : nat) (tick t : nat),
    ScrollScript.poll heights
      (Some (ScrollScript.mkwindow L (Z.of_nat (S r)))) tick = Some t ->
    (exists post,
        heights = (repeat L (S r) ++ post)%list /\ t = (tick + r)%nat)
    \/ (exists pre h post,
           heights = (pre ++ repeat h 5 ++ post)%list
           /\ pre <> [] /\ last pre 0%Z = h
           /\ t = (tick + List.length pre + 4)%nat).
Proof.
  induction heights as [|x rest IH]; intros L r tick t H; [discriminate |].
  cbn [ScrollScript.poll] in H.
  destruct (Z.eq_dec x L) as [-> | Hne].
  - rewrite scroll_and_wait_unchanged in H by reflexivity.
    cbn [window_of ScrollScript.retries] in H.
    destruct r as [|r].
    + cbn in H. injection H as <-. left. exists rest. split; [reflexivity | lia].
    + replace (Z.of_nat (S (S r)) - 1)%Z with (Z.of_nat (S r)) in H by lia.
      destruct (Z.of_nat (S r) <=? 0)%Z eqn:Hz; [apply Z.leb_le in Hz; lia |].
      apply IH in H as [(post & -> & ->) | (pre & h & post & -> & Hp & Hl & ->)].
      * left. exists post. split; [reflexivity | lia].
      * right. exists (L :: pre), h, post. repeat split.
        -- discriminate.
        -- destruct pre; [congruence | exact Hl].
        -- cbn [List.length]. lia.
  - rewrite scroll_and_wait_changed in H by exact Hne.
    change 5%Z with (Z.of_nat 5) in H.
    apply IH in H as [(post & -> & ->) | (pre & h & post & -> & Hp & Hl & ->)].
    + right. exists [x], x, post. repeat split; [discriminate | cbn; lia].
    + right. exists (x :: pre), h, post. repeat split.
      * discriminate.
      * destruct pre; [congruence | exact Hl].
      * cbn [List.length]. lia.
Qed.

(** X1. The script signals completion only after five consecutive
    measurements of one height, equal to the measurement before them (or
    to 0, the height recorded at the start, when there is none): whatever
    the heights, a run that returns [true] is at least the fifth, and the
    five heights up to it are equal. *)
Theorem detector_never_early (heights : list Z) (t : nat) :
  ScrollScript.poll heights None 1 = Some t ->
  exists pre h post,
    heights = (pre ++ repeat h 5 ++ post)%list
    /\ last pre 0%Z = h
    /\ t = (List.length pre + 5)%nat.
Proof.
  intro H.
  assert (H' : ScrollScript.poll heights
                 (Some (ScrollScript.mkwindow 0 (Z.of_nat 5))) 1 = Some t).
  { destruct heights as [|x rest]; [discriminate |]. exact H. }
  apply poll_some_inv in H'
    as [(post & -> & ->) | (pre & h & post & -> & Hp & Hl & ->)].
  - exists [], 0%Z, post. repeat split.
  - exists pre, h, post. repeat split; [exact Hl | lia].
Qed.

(** A page that shrinks once and then stays put. *)
Lemma detector_never_early_witness :
  ScrollScript.poll [400; 250; 250; 250; 250; 250; 250]%Z None 1 = Some 7%nat
  /\ exists pre h post,
      [400; 250; 250; 250; 250; 250; 250]%Z = (pre ++ repeat h 5 ++ post)%list
      /\ last pre 0%Z = h
      /\ 7%nat = (List.length pre + 5)%nat.
Proof.
  split; [reflexivity |].
  exact (detector_never_early [400; 250; 250; 250; 250; 250; 250]%Z 7 eq_refl).
Defined.

(** ** The selector loops of [extract_hotel_info] *)

(** The test of the price loop that ends it. *)
Definition usable_price (t : string) : bool :=
  Py.truthy t && Agoda.not_na t && Py.truthy (Py.strip t).

(** A selector the price loop goes past: it finds no element, or one whose
    text does not end the loop. *)
Definition passed_for_price (it : Agoda.item) (selector : string) : Prop :=
  match Agoda.query_selector it selector with
  | Some e => usable_price (Agoda.inner_text e) = false
  | None => True
  end.

Lemma price_loop_first_usable (it : Agoda.item) (sel : string)
    (e : Agoda.element) (post : list string) :
  forall (pre : list string) (init : string),
    Forall (passed_for_price it) pre ->
    Agoda.query_selector it sel = Some e ->
    usable_price (Agoda.inner_text e) = true ->
    Agoda.price_loop it (pre ++ sel :: post)%list init = Agoda.inner_text e.
Proof.
  induction pre as [|s pre IH]; intros init Hpre Hsel Hu.
  - cbn [app Agoda.price_loop]. rewrite Hsel.
    unfold usable_price in Hu. now rewrite Hu.
  - inversion Hpre as [|? ? Hs Hrest]; subst.
    cbn [app Agoda.price_loop]. unfold passed_for_price in Hs.
    destruct (Agoda.query_selector it s) as [e'|].
    + unfold usable_price in Hs. rewrite Hs. now apply IH.
    + now apply IH.
Qed.

(** X2. The price of an Agoda card is read from the first selector of the
    list, in its order, whose element has a text that is not empty, not
    [N/A] and not white space only; the selectors after it are not
    consulted. When that text holds no number the card is dropped, and a
    record that is returned has the number of that text as its price. *)
Theorem price_from_first_usable_selector (it : Agoda.item)
    (pre post : list string) (sel : string) (e : Agoda.element) :
  Agoda.price_selectors = (pre ++ sel :: post)%list ->
  Forall (passed_for_price it) pre ->
  Agoda.query_selector it sel = Some e ->
  usable_price (Agoda.inner_text e) = true ->
  (Agoda.price_of_text (Agoda.inner_text e) = Agoda.NA ->
   Agoda.extract_hotel_info it = None)
  /\ (forall d,
         Agoda.extract_hotel_info it = Some d ->
         Agoda.hotel_price d = Agoda.price_of_text (Agoda.inner_text e)).
Proof.
  intros Hl Hpre Hsel Hu.
  assert (Hp : Agoda.price_loop it Agoda.price_selectors "N/A"
               = Agoda.inner_text e).
  { rewrite Hl. now apply price_loop_first_usable. }
  split.
  - intro Hna. apply extract_hotel_info_dropped. now rewrite Hp.
  - intros d Hd. apply extract_hotel_info_price in Hd as (f & Hf & Hpf).
    rewrite Hf, <- Hpf, Hp. reflexivity.
Qed.

(** The sample card of Agoda: its price is found by the ninth selector. *)
Lemma price_from_first_usable_selector_witness :
  exists d,
    Agoda.extract_hotel_info Samples.agoda_card = Some d
    /\ Agoda.hotel_price d = Agoda.price_of_text "$1,234.50".
Proof.
  eexists. split; [vm_compute; reflexivity |].
  refine (proj2 (price_from_first_usable_selector Samples.agoda_card
            (firstn 8 Agoda.price_selectors) (skipn 9 Agoda.price_selectors)
            ".price" (Samples.node "$1,234.50" "class" "price")
            eq_refl _ eq_refl eq_refl) _ _).
  - repeat (constructor; [exact I |]). constructor.
  - vm_compute; reflexivity.
Defined.

Lemma name_loop_inv (it : Agoda.item) (nm : string) :
  forall (selectors : list string) (init : option string),
    Agoda.name_loop it selectors init = Some nm ->
    init = Some nm
    \/ exists sel e t,
        In sel selectors
        /\ Agoda.query_selector it sel = Some e
        /\ Agoda.text_content e = Some t
        /\ ((Py.truthy (Py.strip t) = true /\ nm = Py.strip t)
            \/ (Py.truthy t && Py.truthy (Py.strip t) = false /\ nm = t)).
Proof.
  induction selectors as [|s rest IH]; intros init H; [left; exact H |].
  cbn [Agoda.name_loop] in H.
  destruct (Agoda.query_selector it s) as [e|] eqn:Hq.
  - destruct (Agoda.text_content e) as [t|] eqn:Ht.
    + destruct (Py.truthy t && Py.truthy (Py.strip t)) eqn:Hu.
      * injection H as <-. right. exists s, e, t.
        apply andb_true_iff in Hu as [_ Hu].
        repeat split; [now left | assumption | assumption | now left].
      * apply IH in H as [H | (s' & e' & t' & Hin & H)].
        -- injection H as <-. right. exists s, e, t.
           repeat split; [now left | assumption | assumption | now right].
        -- right. exists s', e', t'. split; [now right | exact H].
    + apply IH in H as [H | (s' & e' & t' & Hin & H)]; [discriminate |].
      right. exists s', e', t'. split; [now right | exact H].
  - apply IH in H as [H | (s' & e' & t' & Hin & H)]; [now left |].
    right. exists s', e', t'. split; [now right | exact H].
Qed.

Lemma extract_hotel_info_name (it : Agoda.item) (d : Agoda.hotel_data) :
  Agoda.extract_hotel_info it = Some d ->
  Agoda.name_loop it Agoda.hotel_name_selectors (Some "N/A")
  = Some (Agoda.hotel_name d)
  /\ Agoda.hotel_name d <> "N/A" /\ Agoda.hotel_name d <> EmptyString.
Proof.
  unfold Agoda.extract_hotel_info, Agoda.extract_hotel_info_body.
  destruct (Agoda.name_loop it Agoda.hotel_name_selectors (Some "N/A"))
    as [nm|]; [| discriminate].
  destruct (negb (Agoda.not_na nm) || negb (Py.truthy nm)) eqn:Hn;
    [discriminate |].
  destruct (Agoda.price_of_text _) as [|f]; [discriminate |].
  destruct (Agoda.booking_url_entry _) as [b|]; [| discriminate].
  destruct (Agoda.image_url_entry _) as [i|]; [| discriminate].
  cbn. intro H; injection H as <-. cbn.
  apply orb_false_iff in Hn as [Hna Ht].
  apply negb_false_iff in Hna, Ht. unfold Agoda.not_na in Hna.
  apply negb_true_iff, String.eqb_neq in Hna.
  repeat split; [exact Hna |]. intros ->. discriminate Ht.
Qed.

(** X3. The name of a returned Agoda record is never empty and never
    [N/A], and it is the text of an element found by one of the name
    selectors: that text stripped, or, when the text is white space only,
    the text as it is, so a card whose name element holds only white space
    is returned under that name. *)
Theorem agoda_name_of_record (it : Agoda.item) (d : Agoda.hotel_data) :
  Agoda.extract_hotel_info it = Some d ->
  Agoda.hotel_name d <> EmptyString
  /\ Agoda.hotel_name d <> "N/A"
  /\ exists sel e t,
      In sel Agoda.hotel_name_selectors
      /\ Agoda.query_selector it sel = Some e
      /\ Agoda.text_content e = Some t
      /\ ((Py.strip t <> EmptyString /\ Agoda.hotel_name d = Py.strip t)
          \/ (Py.strip t = EmptyString /\ Agoda.hotel_name d = t)).
Proof.
  intro H. apply extract_hotel_info_name in H as (Hn & Hna & He).
  split; [exact He |]. split; [exact Hna |].
  apply name_loop_inv in Hn as [Hn | (sel & e & t & Hin & Hq & Ht & Hc)].
  - injection Hn as Hn. now symmetry in Hn.
  - exists sel, e, t. repeat split; try assumption.
    destruct Hc as [[Hs Hd] | [Hs Hd]].
    + left. split; [| exact Hd]. intro E. rewrite E in Hs. discriminate.
    + right. split; [| exact Hd]. rewrite Hd in He.
      destruct t as [|c t]; [now elim He |].
      cbn [Py.truthy andb] in Hs. now apply truthy_false_iff.
Qed.

(** The card whose heading holds two spaces is returned under that name. *)
Lemma agoda_name_of_record_witness :
  exists d,
    Agoda.extract_hotel_info Pages.card_with_blank_name = Some d
    /\ Agoda.hotel_name d = "  "
    /\ Agoda.hotel_name d <> EmptyString
    /\ Agoda.hotel_name d <> "N/A".
Proof.
  eexists. split; [vm_compute; reflexivity |]. split; [reflexivity |].
  split.
  - exact (proj1 (agoda_name_of_record Pages.card_with_blank_name _ eq_refl)).
  - exact (proj1 (proj2 (agoda_name_of_record Pages.card_with_blank_name _ eq_refl))).
Defined.

(** Some selector of the list finds an element. *)
Definition some_found (it : Agoda.item) (selectors : list string) : Prop :=
  exists sel e, In sel selectors /\ Agoda.query_selector it sel = Some e.

(** No element found by the list has the attribute. *)
Definition all_bare (it : Agoda.item) (attribute : string)
    (selectors : list string) : Prop :=
  forall sel e,
    In sel selectors -> Agoda.query_selector it sel = Some e ->
    Agoda.get_attribute e attribute = None.

Lemma attribute_loop_none_found (it : Agoda.item) (attribute : string) :
  forall (selectors : list string) (value : option string),
    (forall sel, In sel selectors -> Agoda.query_selector it sel = None) ->
    Agoda.attribute_loop it attribute selectors value = value.
Proof.
  induction selectors as [|s rest IH]; intros value H; [reflexivity |].
  cbn [Agoda.attribute_loop]. rewrite (H s) by now left.
  apply IH. intros sel Hin. apply H. now right.
Qed.

Lemma attribute_loop_bare (it : Agoda.item) (attribute : string) :
  forall (selectors : list string) (value : option string),
    all_bare it attribute selectors ->
    Agoda.attribute_loop it attribute selectors value = None
    \/ (Agoda.attribute_loop it attribute selectors value = value
        /\ forall sel, In sel selectors -> Agoda.query_selector it sel = None).
Proof.
  induction selectors as [|s rest IH]; intros value H.
  - right. split; [reflexivity | intros sel []].
  - cbn [Agoda.attribute_loop].
    assert (Hrest : all_bare it attribute rest).
    { intros sel e Hin. apply H. now right. }
    destruct (Agoda.query_selector it s) as [e|] eqn:Hq.
    + rewrite (H s e) by (assumption || now left).
      destruct (IH None Hrest) as [E | [E _]]; left; exact E.
    + destruct (IH value Hrest) as [E | [E Hn]]; [now left |].
      right. split; [exact E |]. intros sel [<- | Hin]; [exact Hq | now apply Hn].
Qed.

Lemma extract_hotel_info_attributes (it : Agoda.item) :
  Agoda.attribute_loop it "href" Agoda.booking_url_selectors (Some "N/A") = None
  \/ Agoda.attribute_loop it "src" Agoda.image_selectors (Some "N/A") = None ->
  Agoda.extract_hotel_info it = None.
Proof.
  intro H.
  unfold Agoda.extract_hotel_info, Agoda.extract_hotel_info_body.
  destruct (Agoda.name_loop it Agoda.hotel_name_selectors (Some "N/A"))
    as [nm|]; [| reflexivity].
  destruct (negb (Agoda.not_na nm) || negb (Py.truthy nm)); [reflexivity |].
  destruct (Agoda.price_of_text _) as [|f]; [reflexivity |].
  destruct H as [H | H]; rewrite H; cbn; [reflexivity |].
  now destruct (Agoda.booking_url_entry _).
Qed.

(** X4. An Agoda card on which the link selectors find elements, none
    with an [href], or the image selectors find elements, none with a
    [src], is dropped whatever its name and price: the absent attribute
    is used where a text is expected. A card on which the image selectors
    find no element at all is not dropped for that, and its record has
    [N/A] as image address. *)
Theorem agoda_card_without_attribute (it : Agoda.item) :
  (some_found it Agoda.booking_url_selectors
   /\ all_bare it "href" Agoda.booking_url_selectors
   \/ some_found it Agoda.image_selectors
      /\ all_bare it "src" Agoda.image_selectors ->
   Agoda.extract_hotel_info it = None)
  /\ ((forall sel, In sel Agoda.image_selectors ->
                   Agoda.query_selector it sel = None) ->
      forall d, Agoda.extract_hotel_info it = Some d ->
                Agoda.image_url d = "N/A").
Proof.
  split.
  - intro H. apply extract_hotel_info_attributes.
    destruct H as [[(sel & e & Hin & Hq) Hb] | [(sel & e & Hin & Hq) Hb]];
      [left | right];
      (destruct (attribute_loop_bare it _ _ (Some "N/A") Hb) as [E | [_ Hn]];
       [exact E | rewrite (Hn sel Hin) in Hq; discriminate]).
  - intros Hn d Hd. apply extract_hotel_info_urls in Hd as [_ Hi].
    rewrite attribute_loop_none_found in Hi by exact Hn.
    cbn in Hi. now injection Hi as <-.
Qed.

(** The card whose image element has no [src] is dropped. *)
Lemma agoda_card_without_attribute_witness :
  Agoda.price_of_text
    (Agoda.price_loop Pages.card_with_bare_image Agoda.price_selectors "N/A")
  <> Agoda.NA
  /\ Agoda.extract_hotel_info Pages.card_with_bare_image = None.
Proof.
  split; [vm_compute; discriminate |].
  apply (proj1 (agoda_card_without_attribute Pages.card_with_bare_image)).
  right. split.
  - exists "img", (Samples.node "" "alt" "Grand Hotel").
    split; [cbn; tauto | reflexivity].
  - intros sel e Hin Hq.
    cbn in Hin. decompose [or] Hin; try contradiction; subst sel;
      cbn in Hq; try discriminate; injection Hq as <-; reflexivity.
Defined.

Lemma keep_price_chars_idempotent (t : string) :
  Agoda.keep_price_chars (Agoda.keep_price_chars t) = Agoda.keep_price_chars t.
Proof.
  induction t as [|c t IH]; [reflexivity |]. cbn [Agoda.keep_price_chars].
  destruct (Py.isdigit c || Ascii.eqb c ".") eqn:E; [| exact IH].
  cbn [Agoda.keep_price_chars]. now rewrite E, IH.
Qed.

Lemma price_of_text_kept (t : string) :
  t <> "N/A" ->
  Agoda.price_of_text t
  = if Py.truthy (Agoda.keep_price_chars t)
    then match Py.float (Agoda.keep_price_chars t) with
         | Ok f => Agoda.Price f
         | Raise _ => Agoda.NA
         end
    else Agoda.NA.
Proof.
  intro Hna. unfold Agoda.price_of_text, Agoda.not_na.
  apply String.eqb_neq in Hna. rewrite Hna. cbn [negb andb].
  now destruct t.
Qed.

(** X5. The price of an Agoda card depends only on the digits and full
    stops of its text, in their order: two texts other than [N/A] with
    the same digits and full stops have the same price, currency signs,
    letters, spaces and thousands separators being ignored, and a full
    stop counts wherever it stands, also in an abbreviation before the
    number. *)
Theorem agoda_price_reads_digits_and_dots (t u : string) :
  t <> "N/A" -> u <> "N/A" ->
  Agoda.keep_price_chars t = Agoda.keep_price_chars u ->
  Agoda.price_of_text t = Agoda.price_of_text u.
Proof.
  intros Ht Hu E. rewrite (price_of_text_kept t Ht), (price_of_text_kept u Hu).
  now rewrite E.
Qed.

(** A price after an abbreviated currency is read as a fraction. *)
Lemma agoda_price_reads_digits_and_dots_witness :
  Agoda.price_of_text "Rs. 1,200" = Agoda.price_of_text ".1200"
  /\ Agoda.price_of_text ".1200"
     = Agoda.Price (Py.float_of_decimal false 12 (-2)).
Proof.
  split.
  - apply agoda_price_reads_digits_and_dots;
      [discriminate | discriminate | reflexivity].
  - vm_compute. reflexivity.
Defined.

(** ** The star count *)

Lemma count_from_zero (sub s : string) :
  sub <> EmptyString ->
  (Py.count_from sub 0 s = 0%nat <-> Py.contains s sub = false).
Proof.
  intro Hsub. induction s as [|c s IH].
  - cbn. destruct sub; [congruence | cbn; tauto].
  - cbn [Py.count_from Py.contains].
    destruct (prefix sub (String c s)); cbn [orb]; [split; discriminate |].
    exact IH.
Qed.

(** X6. The star count of a card is absent exactly when its markup holds
    no opening [span] tag; markup with a single such tag has the count 0,
    not an absent one. *)
Theorem star_count_absent_iff (stars_html : string) :
  (Booking.extract_star_count stars_html = None
   <-> Py.contains stars_html "<span" = false)
  /\ (Py.count stars_html "<span" = 1%nat ->
      Booking.extract_star_count stars_html = Some 0%nat).
Proof.
  unfold Booking.extract_star_count, Py.count. split.
  - destruct stars_html as [|c s]; [cbn; tauto |].
    cbn [Py.truthy negb].
    rewrite <- (count_from_zero "<span") by discriminate.
    destruct (Py.count_from "<span" 0 (String c s)) as [|n]; cbn.
    + tauto.
    + split; discriminate.
  - intro H. rewrite H. destruct stars_html; [discriminate H | reflexivity].
Qed.

(** ** The reviews of a hotel *)

(** The reviews read from a reviews page, before the limit. *)
Definition reviews_of_page (w : Booking.world) (html : string)
  : list Booking.review :=
  match Booking.extract_reviews w html with
  | [] => Booking.parse_reviews_from_main_page w html
  | _ :: _ => Booking.extract_reviews w html
  end.

Lemma slice_to_length {A : Type} (limit : Z) (l : list A) :
  (0 <= limit)%Z ->
  (List.length (Booking.slice_to limit l) <= Z.to_nat limit)%nat.
Proof.
  intro H. unfold Booking.slice_to.
  destruct (0 <=? limit)%Z eqn:E; [| apply Z.leb_gt in E; lia].
  apply firstn_le_length.
Qed.

Lemma slice_to_in {A : Type} (limit : Z) (l : list A) (x : A) :
  In x (Booking.slice_to limit l) -> In x l.
Proof.
  unfold Booking.slice_to.
  destruct (0 <=? limit)%Z; intro H;
    match type of H with
    | In _ (firstn ?n _) =>
        rewrite <- (firstn_skipn n l); apply in_or_app; left; exact H
    end.
Qed.

Lemma reviews_of_page_any_value (w : Booking.world) (html : string)
    (r : Booking.review) :
  In r (reviews_of_page w html) -> Booking.any_value r = true.
Proof.
  unfold reviews_of_page.
  destruct (Booking.extract_reviews w html) as [|x l] eqn:E.
  - unfold Booking.parse_reviews_from_main_page. intro H.
    now apply filter_In in H.
  - rewrite <- E. unfold Booking.extract_reviews. intro H.
    now apply filter_In in H.
Qed.

Ltac reviews_step :=
  match goal with
  | |- context [bind ?c _] => destruct c; cbn [bind catch]
  | |- context [if ?b then _ else _] =>
      match type of b with bool => destruct b; cbn [bind catch] end
  | |- context [match ?o with Some _ => _ | None => _ end] =>
      destruct o; cbn [bind catch]
  end.

Lemma get_hotel_reviews_cases (w : Booking.world) (hotel_url : string)
    (limit : Z) :
  Booking.get_hotel_reviews w hotel_url limit = []
  \/ exists html,
      Booking.get_hotel_reviews w hotel_url limit
      = Booking.slice_to limit (reviews_of_page w html).
Proof.
  unfold Booking.get_hotel_reviews, Booking.get_hotel_reviews_body,
    reviews_of_page.
  repeat reviews_step;
    solve [left; reflexivity | right; eexists; reflexivity].
Qed.



(** ** Integers and their decimal text *)

Lemma digit_char_facts (d : N) :
  (d < 10)%N ->
  Py.isdecimal (Py.digit_char d) = true
  /\ Py.digit_value (Py.digit_char d) = d.
Proof.
  intro H.
  assert (E : (d = 0 \/ d = 1 \/ d = 2 \/ d = 3 \/ d = 4 \/ d = 5 \/ d = 6
               \/ d = 7 \/ d = 8 \/ d = 9)%N) by lia.
  decompose [or] E; subst d; split; reflexivity.
Qed.

Lemma decimal_fuel_spec (fuel : nat) :
  forall (n : N) (acc : string),
    (n < 2 ^ N.of_nat fuel)%N ->
    Py.all_chars Py.isdecimal acc = true ->
    Py.all_chars Py.isdecimal (Py.decimal_fuel fuel n acc) = true
    /\ digits_value 0 (Py.decimal_fuel fuel n acc) = digits_value n acc.
Proof.
  induction fuel as [|f IH]; intros n acc Hn Hacc.
  - cbn in Hn. assert (n = 0%N) by lia. subst n. now split.
  - cbn [Py.decimal_fuel].
    assert (Hd : (n mod 10 < 10)%N) by (apply N.mod_lt; lia).
    destruct (digit_char_facts _ Hd) as [Hdec Hval].
    assert (Hacc' : Py.all_chars Py.isdecimal
                      (String (Py.digit_char (n mod 10)) acc) = true).
    { cbn [Py.all_chars]. now rewrite Hdec, Hacc. }
    destruct (n <? 10)%N eqn:E.
    + apply N.ltb_lt in E. split; [exact Hacc' |].
      cbn [digits_value]. rewrite Hval, N.mod_small by exact E.
      reflexivity.
    + apply N.ltb_ge in E.
      assert (Hq : (n / 10 < 2 ^ N.of_nat f)%N).
      { apply N.Div0.div_lt_upper_bound.
        rewrite Nat2N.inj_succ, N.pow_succ_r' in Hn. lia. }
      destruct (IH (n / 10)%N _ Hq Hacc') as [Hall Hv].
      split; [exact Hall |]. rewrite Hv. cbn [digits_value]. rewrite Hval.
      f_equal. rewrite (N.div_mod' n 10) at 3. lia.
Qed.

Lemma decimal_fuel_not_empty (fuel : nat) :
  forall (n : N) (acc : string),
    fuel <> 0%nat \/ acc <> EmptyString ->
    Py.decimal_fuel fuel n acc <> EmptyString.
Proof.
  induction fuel as [|f IH]; intros n acc H.
  - cbn. destruct H as [H | H]; [now elim H | exact H].
  - cbn [Py.decimal_fuel]. destruct (n <? 10)%N; [discriminate |].
    apply IH. right. discriminate.
Qed.

Lemma str_of_N_spec (n : N) :
  exists c s,
    Py.str_of_N n = String c s
    /\ Py.isdecimal c = true
    /\ Py.all_chars Py.isdecimal s = true
    /\ digits_value 0 (String c s) = n.
Proof.
  unfold Py.str_of_N.
  assert (Hn : (n < 2 ^ N.of_nat (S (N.to_nat (N.log2 n))))%N).
  { rewrite Nat2N.inj_succ, N2Nat.id.
    destruct n as [|p]; [reflexivity |].
    apply N.log2_spec. reflexivity. }
  destruct (decimal_fuel_spec _ n EmptyString Hn eq_refl) as [Hall Hv].
  pose proof (decimal_fuel_not_empty (S (N.to_nat (N.log2 n))) n EmptyString)
    as Hne.
  destruct (Py.decimal_fuel _ n EmptyString) as [|c s].
  - elim Hne; [left; discriminate | reflexivity].
  - cbn [Py.all_chars] in Hall. apply andb_prop in Hall as [Hc Hs].
    exists c, s. repeat split; assumption.
Qed.

Lemma int_raises_value_error (s : string) (e : exn) :
  Py.int s = Raise e -> e = ValueError.
Proof.
  unfold Py.int. destruct (Py.sign_of (Py.strip s)) as [neg body].
  destruct (Py.digitpart body) as [[[v k] [|c r]]|]; congruence.
Qed.

Lemma int_of_str (z : Z) : Py.int (Py.str_of_Z z) = Ok z.
Proof.
  destruct z as [|p|p].
  - reflexivity.
  - cbn [Py.str_of_Z].
    destruct (str_of_N_spec (Z.to_N (Zpos p))) as (c & s & E & Hc & Hs & Hv).
    rewrite E, int_of_digits, Hv by assumption. reflexivity.
  - cbn [Py.str_of_Z].
    destruct (str_of_N_spec (Npos p)) as (c & s & E & Hc & Hs & Hv).
    rewrite E. unfold Py.int, Py.strip.
    rewrite rstrip_no_space.
    2: { cbn [Py.all_chars]. change (negb (Py.isspace "-")) with true.
         cbn [andb].
         change (Py.all_chars (fun x => negb (Py.isspace x)) (String c s)
                 = true).
         apply (all_chars_weaken Py.isdecimal).
         - intros x Hx. apply decimal_not_sign in Hx as [Hx _]. now rewrite Hx.
         - cbn. now rewrite Hc. }
    cbn [Py.lstrip]. change (Py.isspace "-") with false. cbv iota.
    cbn [Py.sign_of]. unfold Py.digitpart, Py.digitpart_from. rewrite Hc.
    rewrite digits_tail_all by exact Hs.
    cbn [digits_value] in Hv. rewrite Hv. reflexivity.
Qed.

Lemma str_of_Z_without_equals (z : Z) :
  Py.mem_char "=" (Py.str_of_Z z) = false.
Proof.
  assert (H : forall s, Py.all_chars Py.isdecimal s = true ->
                        Py.mem_char "=" s = false).
  { induction s as [|c s IH]; [reflexivity |]. cbn. intro H.
    apply andb_prop in H as [Hc Hs]. rewrite (IH Hs), orb_false_r.
    destruct c as [[] [] [] [] [] [] [] []]; try reflexivity; discriminate Hc. }
  assert (HN : forall n, Py.mem_char "=" (Py.str_of_N n) = false).
  { intro n. destruct (str_of_N_spec n) as (c & s & E & Hc & Hs & _).
    rewrite E. apply H. cbn. now rewrite Hc. }
  destruct z as [|p|p]; cbn [Py.str_of_Z]; [reflexivity | apply HN |].
  cbn [Py.mem_char]. rewrite HN. reflexivity.
Qed.

(** ** The filters of [build_search_url] *)

Lemma format_filters_idempotent (fs l : list string) :
  Booking.format_filters fs = Ok l -> Booking.format_filters l = Ok l.
Proof.
  revert l. induction fs as [|item fs IH]; intros l H.
  - cbn in H. now injection H as <-.
  - cbn [Booking.format_filters] in H.
    apply bind_ok_inv in H as (x & Hx & H).
    apply bind_ok_inv in H as (l' & Hl & H). injection H as <-.
    cbn [Booking.format_filters]. rewrite (IH l' Hl).
    destruct (Py.startswith item "distance=") eqn:Hd.
    + apply bind_ok_inv in Hx as (z & Hz & Hx).
      assert (Ex : x = "distance=" ++ Py.str_of_Z z) by congruence.
      clear Hx. subst x. unfold Py.startswith. rewrite prefix_append.
      change ("distance=" ++ Py.str_of_Z z)
        with ("distance" ++ String "=" (Py.str_of_Z z)).
      rewrite split_at_first_sep by reflexivity.
      rewrite split_without_sep by apply str_of_Z_without_equals.
      cbn [nth]. rewrite int_of_str. reflexivity.
    + injection Hx as <-. rewrite Hd. reflexivity.
Qed.

Lemma format_filters_bad_item (fs : list string) (item : string) :
  In item fs ->
  Py.startswith item "distance=" = true ->
  Py.int (nth 1 (Py.split "=" item) EmptyString) = Raise ValueError ->
  Booking.format_filters fs = Raise ValueError.
Proof.
  intros Hin Hd Hi. induction fs as [|x fs IH]; [elim Hin |].
  cbn [Booking.format_filters].
  destruct Hin as [-> | Hin].
  - rewrite Hd, Hi. reflexivity.
  - rewrite (IH Hin).
    destruct (Py.startswith x "distance="); [| reflexivity].
    destruct (Py.int (nth 1 (Py.split "=" x) EmptyString)) as [z|e] eqn:Hx;
      [reflexivity |].
    apply int_raises_value_error in Hx. now subst e.
Qed.

(** X8. The distance filters are normalised and the others passed as
    they are, so the search address built from a list of filters is the
    one built from the formatted list: once formatted, a list is left
    unchanged by formatting, the integer of a distance filter being read
    back from its decimal text. *)
Theorem search_url_of_formatted_filters
    (location check_in check_out : string) (adults : Z) (currency : string)
    (fs l : list string) :
  Booking.format_filters fs = Ok l ->
  Booking.format_filters l = Ok l
  /\ Booking.build_search_url location check_in check_out adults (Some l)
       currency
     = Booking.build_search_url location check_in check_out adults (Some fs)
         currency.
Proof.
  intro H. pose proof (format_filters_idempotent _ _ H) as Hl.
  split; [exact Hl |].
  pose proof (format_filters_length _ _ H) as Hlen.
  unfold Booking.build_search_url, Booking.nflt_value.
  destruct fs as [|f fs]; destruct l as [|x l]; try discriminate Hlen;
    [reflexivity |].
  now rewrite H, Hl.
Qed.

(** A distance written with spaces and a sign. *)
Lemma search_url_of_formatted_filters_witness :
  Booking.format_filters ["distance= +3000 "; "class=4"]
  = Ok ["distance=3000"; "class=4"]
  /\ Booking.build_search_url "Kuala Lumpur" "2025-06-01" "2025-06-03" 2
       (Some ["distance=3000"; "class=4"]) "USD"
     = Booking.build_search_url "Kuala Lumpur" "2025-06-01" "2025-06-03" 2
         (Some ["distance= +3000 "; "class=4"]) "USD".
Proof.
  split; [vm_compute; reflexivity |].
  apply (search_url_of_formatted_filters "Kuala Lumpur" "2025-06-01"
           "2025-06-03" 2 "USD" ["distance= +3000 "; "class=4"]
           ["distance=3000"; "class=4"]).
  vm_compute; reflexivity.
Defined.



(** ** The identifier of a hotel *)

Lemma extract_hotel_id_of_path (url sch nl path : string) :
  url <> EmptyString ->
  Urllib.urlparse url EmptyString
  = Ok (Urllib.mkparsed sch nl path EmptyString EmptyString EmptyString) ->
  Booking.extract_hotel_id url
  = match Booking.id_in_path (Py.split "/" path) with
    | Some part => Ok (Some (Urllib.points part))
    | None =>
        match Urllib.hostname
                (Urllib.mkparsed sch nl path EmptyString EmptyString
                   EmptyString) with
        | None => Raise AttributeError
        | Some h =>
            Ok (option_map Urllib.points
                  (Booking.id_in_hostname (Py.split "." h)))
        end
    end.
Proof.
  intros Hne Hp. unfold Booking.extract_hotel_id.
  apply truthy_true_iff in Hne. rewrite Hne, Hp. cbn [negb bind Urllib.path].
  destruct (Booking.id_in_path (Py.split "/" path)); reflexivity.
Qed.



(** ** The distance between two points *)

(** The haversine of the angle between two points, as [calculate_distance]
    computes it. *)
Definition haversine (c1 c2 : Booking.coordinates) : R :=
  let lat1 := Math.radians (Math.SF2R (Booking.latitude c1)) in
  let lon1 := Math.radians (Math.SF2R (Booking.longitude c1)) in
  let lat2 := Math.radians (Math.SF2R (Booking.latitude c2)) in
  let lon2 := Math.radians (Math.SF2R (Booking.longitude c2)) in
  (sin ((lat2 - lat1) / 2) ^ 2
   + cos lat1 * cos lat2 * sin ((lon2 - lon1) / 2) ^ 2)%R.

Section DistanceFacts.

Local Open Scope R_scope.

Lemma sin_half_sq (x : R) : sin (x / 2) ^ 2 = (1 - cos x) / 2.
Proof.
  replace (cos x) with (cos (2 * (x / 2))) by (f_equal; lra).
  rewrite cos_2a_sin. lra.
Qed.

Lemma haversine_term_bounds (p1 p2 dl : R) :
  0 <= sin ((p2 - p1) / 2) ^ 2 + cos p1 * cos p2 * sin (dl / 2) ^ 2 <= 1.
Proof.
  rewrite !sin_half_sq, cos_minus.
  pose proof (COS_bound (p2 - p1)) as Hm. rewrite cos_minus in Hm.
  pose proof (COS_bound (p2 + p1)) as Hp. rewrite cos_plus in Hp.
  pose proof (COS_bound dl) as Hd.
  set (u := cos p2 * cos p1) in *. set (v := sin p2 * sin p1) in *.
  replace (cos p1 * cos p2) with u by (unfold u; ring).
  set (h := (1 - cos dl) / 2).
  assert (Hh : 0 <= h <= 1) by (unfold h; lra).
  assert (H1 : 0 <= (1 - h) * (1 - u - v)) by (apply Rmult_le_pos; lra).
  assert (H2 : 0 <= h * (1 + u - v)) by (apply Rmult_le_pos; lra).
  assert (H3 : 0 <= (1 - h) * (1 + u + v)) by (apply Rmult_le_pos; lra).
  assert (H4 : 0 <= h * (1 - u + v)) by (apply Rmult_le_pos; lra).
  lra.
Qed.

Lemma atan2_asin (a : R) :
  0 <= a <= 1 -> Math.atan2 (sqrt a) (sqrt (1 - a)) = asin (sqrt a).
Proof.
  intros [H0 H1]. unfold Math.atan2.
  destruct (Rle_lt_or_eq_dec a 1 H1) as [Hlt | ->].
  - assert (Hx : 0 < sqrt (1 - a)) by (apply sqrt_lt_R0; lra).
    destruct (Rlt_dec 0 (sqrt (1 - a))) as [_|n]; [| now elim n].
    rewrite asin_atan.
    + now rewrite Rsqr_sqrt.
    + split.
      * pose proof (sqrt_pos a). lra.
      * rewrite <- sqrt_1. apply sqrt_lt_1_alt. lra.
  - rewrite Rminus_diag, sqrt_0, sqrt_1.
    destruct (Rlt_dec 0 0) as [H|_]; [lra |].
    destruct (Rlt_dec 0 1) as [_|n]; [| exfalso; apply n; lra].
    now rewrite asin_1.
Qed.

Lemma round_half_even_near (y : R) :
  y - 1 / 2 <= IZR (Math.round_half_even y) <= y + 1 / 2.
Proof.
  unfold Math.round_half_even.
  destruct (base_Int_part y) as [Hlo Hhi].
  destruct (Rlt_dec (y - IZR (Int_part y)) (1 / 2)) as [H|H]; [lra |].
  destruct (Rlt_dec (1 / 2) (y - IZR (Int_part y))) as [H'|H'];
    [rewrite plus_IZR; lra |].
  destruct (Z.even (Int_part y)); [lra | rewrite plus_IZR; lra].
Qed.

Lemma round2_near (x : R) : x - 1 / 200 <= Math.round2 x <= x + 1 / 200.
Proof.
  unfold Math.round2. pose proof (round_half_even_near (x * 100)). lra.
Qed.

Lemma round2_not_negative (x : R) : 0 <= x -> 0 <= Math.round2 x.
Proof.
  intro Hx. unfold Math.round2.
  pose proof (round_half_even_near (x * 100)) as [Hlo _].
  assert (Hz : (-1 < Math.round_half_even (x * 100))%Z)
    by (apply lt_IZR; lra).
  assert (H0 : (0 <= Math.round_half_even (x * 100))%Z) by lia.
  apply IZR_le in H0. lra.
Qed.

Lemma haversine_symmetric (c1 c2 : Booking.coordinates) :
  haversine c1 c2 = haversine c2 c1.
Proof.
  unfold haversine. cbv zeta.
  set (p1 := Math.radians (Math.SF2R (Booking.latitude c1))).
  set (p2 := Math.radians (Math.SF2R (Booking.latitude c2))).
  set (l1 := Math.radians (Math.SF2R (Booking.longitude c1))).
  set (l2 := Math.radians (Math.SF2R (Booking.longitude c2))).
  replace ((p2 - p1) / 2) with (- ((p1 - p2) / 2)) by lra.
  replace ((l2 - l1) / 2) with (- ((l1 - l2) / 2)) by lra.
  rewrite !sin_neg. ring.
Qed.

Lemma calculate_distance_haversine (c1 c2 : Booking.coordinates) :
  Booking.calculate_distance (Some c1) (Some c2)
  = Some (Math.round2 (6371 * (2 * asin (sqrt (haversine c1 c2))))).
Proof.
  unfold Booking.calculate_distance. cbv zeta. fold (haversine c1 c2).
  rewrite atan2_asin; [reflexivity |]. apply haversine_term_bounds.
Qed.

End DistanceFacts.


(** ** The date texts that are accepted *)

Definition one_digit (n : N) : string := String (Py.digit_char n) EmptyString.

Definition two_digits (n : N) : string :=
  String (Py.digit_char (n / 10)) (one_digit (n mod 10)).

Definition four_digits (y : N) : string :=
  String (Py.digit_char (y / 1000))
    (String (Py.digit_char ((y / 100) mod 10)) (two_digits (y mod 100))).

(** The ways a month can be written: two digits, or a single digit for
    the months before October. *)
Definition month_texts (m : N) : list string :=
  if (m <? 10)%N then [two_digits m; one_digit m] else [two_digits m].

(** The ways a day can be written: two digits, or, for the days before
    the tenth, a single digit, with or without a space before it. *)
Definition day_texts (d : N) : list string :=
  if (d <? 10)%N
  then [two_digits d; one_digit d; String " " (one_digit d)]
  else [two_digits d].

(** The numbers [n], [n + 1], ... *)
Fixpoint upto (count : nat) (n : N) : list N :=
  match count with
  | O => []
  | S k => n :: upto k (N.succ n)
  end.

Definition all_ascii : list ascii := map ascii_of_nat (seq 0 256).

(** What an alternative of the pattern reads is one of the given texts of
    the number it returns. *)
Definition reads (f : string -> option (N * string))
    (texts : N -> list string) : Prop :=
  forall s v rest,
    f s = Some (v, rest) -> exists M, s = M ++ rest /\ In M (texts v).

Section DateFacts.

Lemma in_all_ascii (c : ascii) : In c all_ascii.
Proof.
  rewrite <- (ascii_nat_embedding c). apply in_map. apply in_seq.
  pose proof (nat_ascii_bounded c). lia.
Qed.

Lemma class_members (p : ascii -> bool) (c : ascii) :
  p c = true -> In c (filter p all_ascii).
Proof. intro H. apply filter_In. split; [apply in_all_ascii | exact H]. Qed.

Lemma mem_string_in (x : string) (l : list string) :
  Py.mem_string x l = true -> In x l.
Proof.
  induction l as [|y l IH]; cbn; [discriminate |].
  intro H. apply orb_true_iff in H as [H | H].
  - left. symmetry. now apply String.eqb_eq.
  - right. now apply IH.
Qed.

Lemma in_upto (count : nat) :
  forall n y, (n <= y < n + N.of_nat count)%N -> In y (upto count n).
Proof.
  induction count as [|k IH]; intros n y H; [lia |].
  cbn [upto]. destruct (N.eq_dec n y) as [-> | Hne]; [now left |].
  right. apply IH. lia.
Qed.

Lemma two_reads (p1 p2 : ascii -> bool) (texts : N -> list string) :
  forallb
    (fun c1 =>
       forallb
         (fun c2 =>
            Py.mem_string (String c1 (String c2 EmptyString))
              (texts (Py.digit_value c1 * 10 + Py.digit_value c2)%N))
         (filter p2 all_ascii))
    (filter p1 all_ascii) = true ->
  reads (Datetime.two p1 p2) texts.
Proof.
  intros H s v rest Hs.
  destruct s as [|c1 [|c2 r]]; cbn in Hs; try discriminate.
  destruct (p1 c1 && p2 c2) eqn:Hp; [| discriminate].
  injection Hs as <- <-. apply andb_prop in Hp as [H1 H2].
  rewrite forallb_forall in H. specialize (H c1 (class_members p1 c1 H1)).
  rewrite forallb_forall in H. specialize (H c2 (class_members p2 c2 H2)).
  exists (String c1 (String c2 EmptyString)).
  split; [reflexivity | now apply mem_string_in].
Qed.

Lemma one_reads (p : ascii -> bool) (texts : N -> list string) :
  forallb
    (fun c =>
       Py.mem_string (String c EmptyString) (texts (Py.digit_value c)))
    (filter p all_ascii) = true ->
  reads (Datetime.one p) texts.
Proof.
  intros H s v rest Hs.
  destruct s as [|c r]; cbn in Hs; try discriminate.
  destruct (p c) eqn:Hp; [| discriminate]. injection Hs as <- <-.
  rewrite forallb_forall in H. specialize (H c (class_members p c Hp)).
  exists (String c EmptyString).
  split; [reflexivity | now apply mem_string_in].
Qed.

Lemma padded_reads (p : ascii -> bool) (texts : N -> list string) :
  forallb
    (fun c =>
       Py.mem_string (String " " (String c EmptyString))
         (texts (Py.digit_value c)))
    (filter p all_ascii) = true ->
  reads (Datetime.padded p) texts.
Proof.
  intros H s v rest Hs. unfold Datetime.padded in Hs.
  destruct s as [|c0 [|c r]]; try discriminate;
    destruct (Ascii.eqb c0 " ") eqn:E;
    try (apply Ascii.eqb_eq in E; subst c0; cbn in Hs; try discriminate);
    try (destruct c0 as [[] [] [] [] [] [] [] []]; discriminate).
  destruct (p c) eqn:Hp; [| discriminate]. injection Hs as <- <-.
  rewrite forallb_forall in H. specialize (H c (class_members p c Hp)).
  exists (String " " (String c EmptyString)).
  split; [reflexivity | now apply mem_string_in].
Qed.

Lemma first_alt_reads (alts : list (string -> option (N * string)))
    (texts : N -> list string) :
  Forall (fun f => reads f texts) alts ->
  reads (Datetime.first_alt alts) texts.
Proof.
  intros H s v rest. induction H as [|f alts Hf _ IH]; cbn; [discriminate |].
  destruct (f s) as [[v' r']|] eqn:E; [| exact IH].
  intro Hs; injection Hs as -> ->. exact (Hf _ _ _ E).
Qed.

Lemma month_alts_read :
  Forall (fun f => reads f month_texts) Datetime.month_alts.
Proof.
  repeat constructor;
    (apply two_reads || apply one_reads); vm_compute; reflexivity.
Qed.

Lemma day_alts_read : reads (Datetime.first_alt Datetime.day_alts) day_texts.
Proof.
  apply first_alt_reads.
  repeat constructor;
    (apply two_reads || apply one_reads || apply padded_reads);
    vm_compute; reflexivity.
Qed.

Lemma dash_inv (s rest : string) :
  Datetime.dash s = Some rest -> s = String "-" rest.
Proof.
  destruct s as [|c r]; [discriminate |]. unfold Datetime.dash.
  destruct (Ascii.eqb c "-") eqn:E.
  - apply Ascii.eqb_eq in E. subst c. now intro H; injection H as ->.
  - destruct c as [[] [] [] [] [] [] [] []]; discriminate.
Qed.

Lemma month_then_day_reads (s : string) (m d : N) (rest : string) :
  forall alts,
    Forall (fun f => reads f month_texts) alts ->
    Datetime.month_then_day alts s = Some (m, d, rest) ->
    exists M D,
      s = M ++ String "-" (D ++ rest)
      /\ In M (month_texts m) /\ In D (day_texts d).
Proof.
  intros alts H.
  induction H as [|f alts Hf _ IH]; cbn [Datetime.month_then_day];
    [discriminate |].
  destruct (f s) as [[m' r]|] eqn:Ef; [| exact IH].
  destruct (Datetime.dash r) as [r'|] eqn:Ed; [| exact IH].
  destruct (Datetime.first_alt Datetime.day_alts r') as [[d' r'']|] eqn:Ea;
    [| exact IH].
  intro Hs; injection Hs as -> -> ->.
  destruct (Hf _ _ _ Ef) as (M & -> & HM).
  apply dash_inv in Ed. subst r.
  destruct (day_alts_read _ _ _ Ea) as (D & -> & HD).
  exists M, D. auto.
Qed.

Lemma four_digits_of_chars (a b c d : ascii) :
  Py.isdecimal a = true -> Py.isdecimal b = true ->
  Py.isdecimal c = true -> Py.isdecimal d = true ->
  four_digits
    (((Py.digit_value a * 10 + Py.digit_value b) * 10
      + Py.digit_value c) * 10 + Py.digit_value d)%N
  = String a (String b (String c (String d EmptyString))).
Proof.
  intros Ha Hb Hc Hd.
  assert (T : (let ds := filter Py.isdecimal all_ascii in
               forallb (fun a => forallb (fun b => forallb (fun c =>
                 forallb (fun d =>
                   four_digits
                     (((Py.digit_value a * 10 + Py.digit_value b) * 10
                       + Py.digit_value c) * 10 + Py.digit_value d)%N
                   =? String a (String b (String c (String d EmptyString))))
                 ds) ds) ds) ds) = true) by (vm_compute; reflexivity).
  cbv zeta in T.
  rewrite forallb_forall in T. specialize (T a (class_members _ a Ha)).
  rewrite forallb_forall in T. specialize (T b (class_members _ b Hb)).
  rewrite forallb_forall in T. specialize (T c (class_members _ c Hc)).
  rewrite forallb_forall in T. specialize (T d (class_members _ d Hd)).
  now apply String.eqb_eq in T.
Qed.

Lemma year4_inv (s : string) (y : N) (rest : string) :
  Datetime.year4 s = Some (y, rest) -> s = four_digits y ++ rest.
Proof.
  destruct s as [|a [|b [|c [|d r]]]]; cbn [Datetime.year4];
    try (intro H; discriminate H).
  destruct (Py.isdecimal a) eqn:Ha; [| intro H; discriminate H].
  destruct (Py.isdecimal b) eqn:Hb; [| intro H; discriminate H].
  destruct (Py.isdecimal c) eqn:Hc; [| intro H; discriminate H].
  destruct (Py.isdecimal d) eqn:Hd; [| intro H; discriminate H].
  cbn [andb]. intro H; injection H as <- <-.
  now rewrite four_digits_of_chars.
Qed.

Lemma year4_append (s : string) (y : N) (rest : string) :
  Datetime.year4 s = Some (y, EmptyString) ->
  Datetime.year4 (s ++ rest) = Some (y, rest).
Proof.
  destruct s as [|a [|b [|c [|d [|e r]]]]];
    cbn [Datetime.year4 append]; try (intro H; discriminate H);
    destruct (Py.isdecimal a && Py.isdecimal b && Py.isdecimal c
              && Py.isdecimal d); try (intro H; discriminate H).
  intro H; injection H as <-. reflexivity.
Qed.

Lemma year4_four_digits (y : N) (rest : string) :
  (y <= 9999)%N -> Datetime.year4 (four_digits y ++ rest) = Some (y, rest).
Proof.
  assert (T : forallb
                (fun y =>
                   match Datetime.year4 (four_digits y) with
                   | Some (y', EmptyString) => (y' =? y)%N
                   | _ => false
                   end)
                (upto (N.to_nat 10000) 0) = true) by (vm_compute; reflexivity).
  intro Hy. rewrite forallb_forall in T.
  assert (Hin : In y (upto (N.to_nat 10000) 0))
    by (apply in_upto; rewrite N2Nat.id; lia).
  specialize (T y Hin). apply year4_append.
  destruct (Datetime.year4 (four_digits y)) as [[y' [|c r]]|];
    try discriminate T.
  apply N.eqb_eq in T. now subst y'.
Qed.

Lemma month_then_day_texts (m d : N) (M D : string) :
  (1 <= m <= 12)%N -> (1 <= d <= 31)%N ->
  In M (month_texts m) -> In D (day_texts d) ->
  Datetime.month_then_day Datetime.month_alts (M ++ String "-" D)
  = Some (m, d, EmptyString).
Proof.
  assert (T : forallb (fun m => forallb (fun M => forallb (fun d =>
                forallb (fun D =>
                  match Datetime.month_then_day Datetime.month_alts
                          (M ++ String "-" D) with
                  | Some (m', d', EmptyString) => (m' =? m)%N && (d' =? d)%N
                  | _ => false
                  end)
                (day_texts d)) (upto 31 1)) (month_texts m)) (upto 12 1)
              = true) by (vm_compute; reflexivity).
  intros Hm Hd HM HD. rewrite forallb_forall in T.
  specialize (T m (in_upto 12 1%N m ltac:(lia))).
  rewrite forallb_forall in T. specialize (T M HM).
  rewrite forallb_forall in T.
  specialize (T d (in_upto 31 1%N d ltac:(lia))).
  rewrite forallb_forall in T. specialize (T D HD).
  destruct (Datetime.month_then_day Datetime.month_alts (M ++ String "-" D))
    as [[[m' d'] [|c r]]|]; try discriminate T.
  apply andb_prop in T as [T1 T2].
  apply N.eqb_eq in T1, T2. now subst.
Qed.

Lemma valid_date_bounds (y m d : N) :
  Datetime.valid_date y m d = true ->
  (y <= 9999 /\ 1 <= m <= 12 /\ 1 <= d <= 31)%N.
Proof.
  unfold Datetime.valid_date. intro H.
  repeat (apply andb_prop in H as [H ?]).
  repeat match goal with
         | E : (_ <=? _)%N = true |- _ => apply N.leb_le in E
         end.
  assert (Hdays : (Datetime.days_in_month y m <= 31)%N).
  { assert (E : (m = 1 \/ m = 2 \/ m = 3 \/ m = 4 \/ m = 5 \/ m = 6 \/ m = 7
                 \/ m = 8 \/ m = 9 \/ m = 10 \/ m = 11 \/ m = 12)%N) by lia.
    decompose [or] E; subst m; cbn; try lia.
    destruct (Datetime.is_leap y); lia. }
  lia.
Qed.

Lemma strptime_texts (s : string) (y m d : N) :
  Datetime.strptime s = Ok (Datetime.mkdate y m d)
  <-> Datetime.valid_date y m d = true
      /\ exists M D,
          In M (month_texts m) /\ In D (day_texts d)
          /\ s = four_digits y ++ String "-" (M ++ String "-" D).
Proof.
  unfold Datetime.strptime, Datetime.match_format. split.
  - destruct (Datetime.year4 s) as [[y' r]|] eqn:Ey; [| discriminate].
    destruct (Datetime.dash r) as [r'|] eqn:Ed; [| discriminate].
    destruct (Datetime.month_then_day Datetime.month_alts r')
      as [[[m' d'] r'']|] eqn:Em; [| discriminate].
    destruct r'' as [|c r'']; [| discriminate].
    destruct (Datetime.valid_date y' m' d') eqn:Ev; [| discriminate].
    intro H; injection H as -> -> ->. split; [exact Ev |].
    apply year4_inv in Ey. apply dash_inv in Ed.
    apply (month_then_day_reads _ _ _ _ _ month_alts_read) in Em
      as (M & D & E & HM & HD).
    exists M, D. rewrite append_nil_r in E. subst. auto.
  - intros (Hv & M & D & HM & HD & ->).
    destruct (valid_date_bounds _ _ _ Hv) as (Hy & Hm & Hd).
    rewrite year4_four_digits by exact Hy. cbn [Datetime.dash].
    rewrite (month_then_day_texts m d M D Hm Hd HM HD), Hv. reflexivity.
Qed.

End DateFacts.

(** X12. A date text is accepted exactly when it is a year of four digits,
    a hyphen, a month, a hyphen and a day that form a date of the
    calendar, the month being written with two digits or, before October,
    with one, and the day with two digits or, before the tenth, with one
    digit, with or without a space before it. *)
Theorem accepted_date_texts (date_string : string) :
  Agoda.validate_date_format date_string = true
  <-> exists y m d M D,
      Datetime.valid_date y m d = true
      /\ In M (month_texts m) /\ In D (day_texts d)
      /\ date_string = four_digits y ++ String "-" (M ++ String "-" D).
Proof.
  unfold Agoda.validate_date_format. split.
  - destruct (Datetime.strptime date_string) as [[y m d]|e] eqn:E;
      [| discriminate].
    intros _. apply strptime_texts in E as (Hv & M & D & H).
    exists y, m, d, M, D. tauto.
  - intros (y & m & d & M & D & Hv & HM & HD & E).
    assert (H : Datetime.strptime date_string = Ok (Datetime.mkdate y m d))
      by (apply strptime_texts; split; [exact Hv | exists M, D; auto]).
    now rewrite H.
Qed.

(** ** The two rating normalizers *)

Definition not_digit_or_dot (c : ascii) : bool := negb (Re.digit_or_dot c).

Section NormalizerFacts.

Lemma drop_within (k : nat) :
  forall a y,
    (k <= String.length a)%nat -> Py.drop k (a ++ y) = Py.drop k a ++ y.
Proof.
  induction k as [|k IH]; intros a y H; [reflexivity |].
  destruct a as [|c a]; [cbn in H; lia |].
  cbn. apply IH. cbn in H. lia.
Qed.

Lemma drop_all_chars (cls : ascii -> bool) (k : nat) :
  forall a, Py.all_chars cls a = true -> Py.all_chars cls (Py.drop k a) = true.
Proof.
  induction k as [|k IH]; intros a H; [exact H |].
  destruct a as [|c a]; [reflexivity |].
  cbn in H. apply andb_prop in H as [_ H]. cbn. now apply IH.
Qed.

Lemma drop_length (k : nat) :
  forall a, String.length (Py.drop k a) = (String.length a - k)%nat.
Proof.
  induction k as [|k IH]; intros a; [cbn; lia |].
  destruct a as [|c a]; [reflexivity |]. cbn. apply IH.
Qed.

Lemma take_drop (m : nat) : forall s, s = Re.take m s ++ Py.drop m s.
Proof.
  induction m as [|m IH]; intros s; [now destruct s |].
  destruct s as [|c s]; [reflexivity |]. cbn. now rewrite <- IH.
Qed.

Lemma take_length (m : nat) (cls : ascii -> bool) :
  forall s, (m <= Re.run_length cls s)%nat -> String.length (Re.take m s) = m.
Proof.
  induction m as [|m IH]; intros s H; [now destruct s |].
  destruct s as [|c s]; [cbn in H; lia |].
  cbn in H. destruct (cls c); [| lia]. cbn. f_equal. apply IH. lia.
Qed.

Lemma drop_plus (a k : nat) :
  forall s, Py.drop (a + k) s = Py.drop k (Py.drop a s).
Proof.
  induction a as [|a IH]; intros s; [reflexivity |].
  destruct s as [|c s]; [now destruct k |]. cbn. apply IH.
Qed.

Lemma give_back_inv_min (k : string -> option (string * string)) (g : bool)
    (min : nat) (s : string) (n : nat) (x rest : string) :
  (min <= n)%nat ->
  Re.give_back k g min s n = Some (x, rest) ->
  exists m grp,
    (min <= m <= n)%nat
    /\ k (Py.drop m s) = Some (grp, rest)
    /\ x = Re.grouped g (Re.take m s) ++ grp.
Proof.
  induction n as [|n IH]; cbn [Re.give_back]; intro Hmin.
  - destruct (k (Py.drop 0 s)) as [[grp r]|] eqn:Hk; [| discriminate].
    intro H; injection H as <- <-. exists 0%nat, grp. auto.
  - destruct (k (Py.drop (S n) s)) as [[grp r]|] eqn:Hk.
    + intro H; injection H as <- <-. exists (S n), grp. auto.
    + destruct (min <=? n)%nat eqn:E; [| discriminate].
      apply Nat.leb_le in E. intro H.
      destruct (IH E H) as (m & grp & Hm & Hk' & Hx).
      exists m, grp. repeat split; try assumption; lia.
Qed.

(** A match of the score pattern at the start of a text: the word, white
    space, and a digit or dot. *)
Lemma match_here_scored_inv (t g r : string) :
  Re.match_here Re.scored t = Some (g, r) ->
  exists sp d tl,
    t = "Scored" ++ sp ++ String d tl
    /\ sp <> EmptyString /\ Py.all_chars Py.isspace sp = true
    /\ Re.digit_or_dot d = true.
Proof.
  unfold Re.scored. cbn [Re.match_here].
  destruct (prefix "Scored" t) eqn:Hp; [| discriminate].
  apply prefix_true_split in Hp as [u ->]. rewrite drop_append.
  destruct (1 <=? Re.run_length Py.isspace u)%nat eqn:Hn; [| discriminate].
  apply Nat.leb_le in Hn.
  match goal with
  | |- context [Re.give_back ?k ?gg ?mn ?tt ?n] =>
      destruct (Re.give_back k gg mn tt n) as [[x r0]|] eqn:Hg; [| discriminate]
  end.
  intros _.
  apply give_back_inv_min in Hg as (m & grp & [Hm1 Hm] & Hk & _);
    [| exact Hn].
  cbn [Re.match_here] in Hk.
  destruct (Py.drop m u) as [|d tl] eqn:Hd; [discriminate Hk |].
  cbn [Re.run_length] in Hk.
  destruct (Re.digit_or_dot d) eqn:Hdd; [| discriminate Hk].
  exists (Re.take m u), d, tl. repeat split.
  - rewrite <- Hd, <- take_drop. reflexivity.
  - intro E. pose proof (take_length m Py.isspace u Hm) as Hl.
    rewrite E in Hl. cbn in Hl. lia.
  - now apply take_run_length.
  - exact Hdd.
Qed.

Lemma space_not_digit_or_dot (c : ascii) :
  Py.isspace c = true -> not_digit_or_dot c = true.
Proof.
  destruct c as [[] [] [] [] [] [] [] []]; vm_compute; intro H;
    reflexivity || discriminate H.
Qed.

Lemma run_of_others (a b : string) :
  Py.all_chars not_digit_or_dot a = true ->
  stops not_digit_or_dot b = true ->
  Re.run_length not_digit_or_dot (a ++ b) = String.length a.
Proof. apply run_length_append. Qed.

(** The score pattern does not match inside a text without digits and
    dots that is followed by the word, white space and the number. *)
Lemma no_score_before (b ws num rest : string) :
  b <> EmptyString ->
  Py.all_chars not_digit_or_dot b = true ->
  Py.all_chars Py.isspace ws = true ->
  num <> EmptyString -> Py.all_chars Re.digit_or_dot num = true ->
  Re.match_here Re.scored (b ++ "Scored" ++ ws ++ num ++ rest) = None.
Proof.
  intros Hb Hb' Hws Hnum Hnum'.
  destruct (Re.match_here Re.scored (b ++ "Scored" ++ ws ++ num ++ rest))
    as [[g r]|] eqn:Hm; [exfalso | reflexivity].
  apply match_here_scored_inv in Hm as (sp & d & tl & E & Hsp & Hsp' & Hd).
  assert (Hws' : Py.all_chars not_digit_or_dot ws = true)
    by (apply (all_chars_weaken Py.isspace); [apply space_not_digit_or_dot | exact Hws]).
  assert (Hsp'' : Py.all_chars not_digit_or_dot sp = true)
    by (apply (all_chars_weaken Py.isspace); [apply space_not_digit_or_dot | exact Hsp']).
  assert (L1 : Re.run_length not_digit_or_dot
                 (b ++ "Scored" ++ ws ++ num ++ rest)
               = (String.length b + 6 + String.length ws)%nat).
  { replace (b ++ "Scored" ++ ws ++ num ++ rest)
      with ((b ++ "Scored" ++ ws) ++ (num ++ rest))
      by (now rewrite !append_assoc).
    rewrite run_of_others.
    - rewrite !length_append. cbn. lia.
    - rewrite !all_chars_append, Hb', Hws'. reflexivity.
    - destruct num as [|n0 num]; [congruence |]. cbn in Hnum' |- *.
      apply andb_prop in Hnum' as [Hn0 _].
      unfold not_digit_or_dot. now rewrite Hn0. }
  assert (L2 : Re.run_length not_digit_or_dot ("Scored" ++ sp ++ String d tl)
               = (6 + String.length sp)%nat).
  { replace ("Scored" ++ sp ++ String d tl)
      with (("Scored" ++ sp) ++ String d tl) by (now rewrite !append_assoc).
    rewrite run_of_others.
    - rewrite !length_append. reflexivity.
    - rewrite all_chars_append, Hsp''. reflexivity.
    - cbn. unfold not_digit_or_dot. now rewrite Hd. }
  rewrite E in L1. rewrite L1 in L2.
  assert (Hlen : (1 <= String.length b)%nat) by (now apply length_pos).
  assert (D1 : Py.drop (String.length b + 5)
                 (b ++ "Scored" ++ ws ++ num ++ rest)
               = String "d" (ws ++ num ++ rest)).
  { rewrite drop_plus, drop_append. reflexivity. }
  assert (D2 : Py.drop (String.length b + 5) ("Scored" ++ sp ++ String d tl)
               = Py.drop (String.length b - 1) sp ++ String d tl).
  { replace (String.length b + 5)%nat with (6 + (String.length b - 1))%nat
      by lia.
    rewrite drop_plus.
    change (Py.drop 6 ("Scored" ++ sp ++ String d tl))
      with (sp ++ String d tl).
    apply drop_within. lia. }
  rewrite E in D1. rewrite D1 in D2.
  pose proof (drop_all_chars Py.isspace (String.length b - 1) sp Hsp') as Ha.
  pose proof (drop_length (String.length b - 1) sp) as Hl.
  destruct (Py.drop (String.length b - 1) sp) as [|c0 x]; [cbn in Hl; lia |].
  cbn in D2. injection D2 as <- _. discriminate Ha.
Qed.

Lemma no_score_within (pre ws num rest : string) :
  Py.all_chars not_digit_or_dot pre = true ->
  Py.all_chars Py.isspace ws = true ->
  num <> EmptyString -> Py.all_chars Re.digit_or_dot num = true ->
  no_match_within Re.scored pre ("Scored" ++ ws ++ num ++ rest) = true.
Proof.
  intros Hpre Hws Hnum Hnum'. induction pre as [|c pre IH]; [reflexivity |].
  cbn [no_match_within].
  rewrite no_score_before by (assumption || discriminate).
  apply IH. cbn in Hpre. now apply andb_prop in Hpre as [_ Hpre].
Qed.

Lemma no_number_within (a s : string) :
  Py.all_chars not_digit_or_dot a = true ->
  no_match_within Re.number_run a s = true.
Proof.
  induction a as [|c a IH]; [reflexivity |]. cbn [Py.all_chars]. intro H.
  apply andb_prop in H as [Hc Ha]. cbn [no_match_within].
  change (String c a ++ s) with (String c (a ++ s)).
  unfold Re.number_run at 1. cbn [Re.match_here Re.run_length].
  unfold not_digit_or_dot in Hc. apply negb_true_iff in Hc. rewrite Hc.
  cbn. now apply IH.
Qed.

Lemma match_here_number_run (num rest : string) :
  num <> EmptyString -> Py.all_chars Re.digit_or_dot num = true ->
  stops Re.digit_or_dot rest = true ->
  Re.match_here Re.number_run (num ++ rest) = Some (num, rest).
Proof.
  intros Hnum Hnum' Hrest. unfold Re.number_run. cbn [Re.match_here].
  rewrite run_length_append by assumption.
  apply length_pos in Hnum as Hl. apply Nat.leb_le in Hl. rewrite Hl.
  erewrite give_back_first.
  2: { rewrite drop_append. cbn [Re.match_here]. reflexivity. }
  rewrite take_append. cbn. now rewrite append_nil_r.
Qed.

End NormalizerFacts.

(** X13. The stand-alone script and the scraper normalize a rating text
    alike whenever the first digit or dot of the text belongs to the
    number that follows the word Scored and white space: the score comes
    from the same run, the review count is read in the same way, and both
    raise when [float] does not accept the run. *)
Theorem normalizers_agree_after_scored (pre ws num rest : string) :
  Py.all_chars not_digit_or_dot pre = true ->
  ws <> EmptyString -> Py.all_chars Py.isspace ws = true ->
  num <> EmptyString -> Py.all_chars Re.digit_or_dot num = true ->
  stops Re.digit_or_dot rest = true ->
  Standalone.clean_rating (pre ++ "Scored" ++ ws ++ num ++ rest)
  = Booking.clean_rating (pre ++ "Scored" ++ ws ++ num ++ rest).
Proof.
  intros Hpre Hws Hws' Hnum Hnum' Hrest.
  assert (Hws'' : Py.all_chars not_digit_or_dot ws = true)
    by (apply (all_chars_weaken Py.isspace);
        [apply space_not_digit_or_dot | exact Hws']).
  assert (Hb : Re.search Re.scored (pre ++ "Scored" ++ ws ++ num ++ rest)
               = Some num).
  { rewrite search_after by (now apply no_score_within).
    apply (search_found _ _ _ rest). now apply match_here_scored. }
  assert (Hs : Re.search Re.number_run (pre ++ "Scored" ++ ws ++ num ++ rest)
               = Some num).
  { replace (pre ++ "Scored" ++ ws ++ num ++ rest)
      with ((pre ++ "Scored" ++ ws) ++ (num ++ rest))
      by (now rewrite !append_assoc).
    rewrite search_after.
    - apply (search_found _ _ _ rest). now apply match_here_number_run.
    - apply no_number_within.
      rewrite !all_chars_append, Hpre, Hws''. reflexivity. }
  unfold Standalone.clean_rating, Booking.clean_rating.
  rewrite Hb, Hs.
  assert (Ht : Py.truthy (pre ++ "Scored" ++ ws ++ num ++ rest) = true)
    by (now destruct pre).
  rewrite Ht. reflexivity.
Qed.

(** The rating text of a results card. *)
Lemma normalizers_agree_after_scored_witness :
  Standalone.clean_rating "Scored 8.5 8.5 Very Good 1,234 reviews"
  = Booking.clean_rating "Scored 8.5 8.5 Very Good 1,234 reviews"
  /\ Booking.clean_rating "Scored 8.5 8.5 Very Good 1,234 reviews"
     = Ok (Booking.mkrating (Some (Py.float_of_decimal false 85 (-1)))
             (Some 1234%Z)).
Proof.
  split; [| vm_compute; reflexivity].
  apply (normalizers_agree_after_scored EmptyString " " "8.5"
           " 8.5 Very Good 1,234 reviews");
    reflexivity || discriminate.
Defined.

(** ** The scroll loop of [scrape_first_page_results] *)

(** The number of turns that suffice below a height. *)
Definition turns_below (H current_position : Z) : nat :=
  Z.to_nat ((H - current_position + 199) / 200).

Lemma scroll_ends (H : Z) (turns : list FirstPage.turn) :
  forall last_height current_position,
    Forall (fun t => (FirstPage.new_height t <= H)%Z) turns ->
    (last_height <= H)%Z ->
    (turns_below H current_position <= List.length turns)%nat ->
    exists n l p,
      FirstPage.scroll turns last_height current_position = Some (n, l, p)
      /\ (n <= turns_below H current_position)%nat
      /\ (last_height <= l <= H)%Z /\ (l <= p)%Z.
Proof.
  unfold turns_below.
  induction turns as [|t rest IH]; intros last pos Hall Hlast Hlen.
  - cbn [FirstPage.scroll]. destruct (pos <? last)%Z eqn:E.
    + apply Z.ltb_lt in E. cbn [List.length] in Hlen.
      assert (1 <= (H - pos + 199) / 200)%Z
        by (apply Z.div_le_lower_bound; lia).
      lia.
    + apply Z.ltb_ge in E. exists 0%nat, last, pos. repeat split; lia.
  - cbn [FirstPage.scroll]. destruct (pos <? last)%Z eqn:E.
    2: { apply Z.ltb_ge in E. exists 0%nat, last, pos. repeat split; lia. }
    apply Z.ltb_lt in E. inversion Hall as [|? ? Ht Hrest]; subst.
    set (amount := Z.max (FirstPage.drawn_amount t (last - pos)) 200).
    assert (Ha : (200 <= amount)%Z) by (unfold amount; lia).
    set (last' := if (FirstPage.new_height t >? last)%Z
                  then FirstPage.new_height t else last).
    assert (Hl' : (last <= last' <= H)%Z).
    { unfold last'. destruct (FirstPage.new_height t >? last)%Z eqn:G; [| lia].
      apply Z.gtb_lt in G. lia. }
    assert (Hk : ((H - (pos + amount) + 199) / 200
                  <= (H - pos + 199) / 200 - 1)%Z).
    { replace (H - pos + 199)%Z with ((H - pos - 200 + 199) + 1 * 200)%Z
        by ring.
      rewrite Z.div_add by lia.
      assert ((H - (pos + amount) + 199) / 200
              <= (H - pos - 200 + 199) / 200)%Z
        by (apply Z.div_le_mono; lia).
      lia. }
    assert (H1 : (1 <= (H - pos + 199) / 200)%Z)
      by (apply Z.div_le_lower_bound; lia).
    destruct (IH last' (pos + amount)%Z Hrest (proj2 Hl'))
      as (n & l & p & Hs & Hn & Hb & Hp).
    { cbn [List.length] in Hlen. lia. }
    rewrite Hs. exists (S n), l, p. repeat split; lia.
Qed.

(** X14. The scroll loop ends on every page whose measured heights stay
    below a bound: when the current height and the heights measured after
    each scroll are at most [H], the loop takes at most one turn per 200
    units of the distance from the first position to [H], every scroll
    being of 200 units or more, and it ends with the position at or past
    the last height recorded, whatever amounts are drawn. *)
Theorem scroll_loop_ends (H : Z) (turns : list FirstPage.turn)
    (last_height : Z) :
  Forall (fun t => (FirstPage.new_height t <= H)%Z) turns ->
  (last_height <= H)%Z ->
  (turns_below H 0 <= List.length turns)%nat ->
  exists n l p,
    FirstPage.scroll turns last_height 0 = Some (n, l, p)
    /\ (n <= turns_below H 0)%nat
    /\ (last_height <= l <= H)%Z /\ (l <= p)%Z.
Proof. apply scroll_ends. Qed.

(** A page of height 900 that grows to 1000 after the first scroll. *)
Lemma scroll_loop_ends_witness :
  exists n l p,
    FirstPage.scroll
      (repeat (FirstPage.mkturn (fun remaining => remaining / 5)%Z 1000) 5)
      900 0 = Some (n, l, p)
    /\ (n <= turns_below 1000 0)%nat
    /\ (900 <= l <= 1000)%Z /\ (l <= p)%Z.
Proof.
  apply (scroll_loop_ends 1000
           (repeat (FirstPage.mkturn (fun remaining => remaining / 5)%Z 1000) 5)
           900).
  - cbn [repeat]. repeat (apply Forall_cons; [cbn; lia |]). apply Forall_nil.
  - lia.
  - vm_compute. lia.
Defined.

(** ** The name of the results file of [agoda_scraper] *)

(** The characters of a file name made by [agoda_scraper]. *)
Definition filename_char (c : ascii) : bool :=
  Output.safe_char c || Ascii.eqb c ".".

Definition date_char (c : ascii) : bool :=
  Py.isdecimal c || Ascii.eqb c "-" || Ascii.eqb c " ".

Section FileNameFacts.

Lemma keep_all_chars (p : ascii -> bool) (s : string) :
  Py.all_chars p (Output.keep p s) = true.
Proof.
  induction s as [|c s IH]; [reflexivity |]. cbn [Output.keep].
  destruct (p c) eqn:E; [| exact IH]. cbn. now rewrite E, IH.
Qed.

Lemma rstrip_all_chars (p : ascii -> bool) (s : string) :
  Py.all_chars p s = true -> Py.all_chars p (Py.rstrip s) = true.
Proof.
  induction s as [|c s IH]; [reflexivity |]. cbn [Py.all_chars Py.rstrip].
  intro H. apply andb_prop in H as [Hc Hs]. specialize (IH Hs).
  destruct (Py.rstrip s) as [|d r].
  - destruct (Py.isspace c); [reflexivity | cbn; now rewrite Hc].
  - cbn [Py.all_chars] in IH |- *. now rewrite Hc, IH.
Qed.

Lemma date_char_filename (c : ascii) :
  date_char c = true -> filename_char c = true.
Proof.
  destruct c as [[] [] [] [] [] [] [] []]; vm_compute; intro H;
    reflexivity || discriminate H.
Qed.

Lemma decimal_filename (c : ascii) :
  Py.isdecimal c = true -> filename_char c = true.
Proof.
  destruct c as [[] [] [] [] [] [] [] []]; vm_compute; intro H;
    reflexivity || discriminate H.
Qed.

Lemma safe_filename (c : ascii) :
  Output.safe_char c = true -> filename_char c = true.
Proof. unfold filename_char. now intros ->. Qed.

Lemma all_chars_in (p : ascii -> bool) (l : list string) (x : string) :
  forallb (Py.all_chars p) l = true -> In x l -> Py.all_chars p x = true.
Proof. intros H Hin. rewrite forallb_forall in H. now apply H. Qed.

Lemma strptime_chars (s : string) (dt : Datetime.date) :
  Datetime.strptime s = Ok dt -> Py.all_chars date_char s = true.
Proof.
  assert (T1 : forallb (fun y => Py.all_chars date_char (four_digits y))
                 (upto (N.to_nat 10000) 0) = true) by (vm_compute; reflexivity).
  assert (T2 : forallb (fun m => forallb (Py.all_chars date_char)
                                   (month_texts m)) (upto 12 1) = true)
    by (vm_compute; reflexivity).
  assert (T3 : forallb (fun d => forallb (Py.all_chars date_char)
                                   (day_texts d)) (upto 31 1) = true)
    by (vm_compute; reflexivity).
  destruct dt as [y m d]. intro H.
  apply strptime_texts in H as (Hv & M & D & HM & HD & ->).
  apply valid_date_bounds in Hv as (Hy & Hm & Hd).
  rewrite forallb_forall in T1, T2, T3.
  assert (Hiny : In y (upto (N.to_nat 10000) 0))
    by (apply in_upto; rewrite N2Nat.id; lia).
  specialize (T1 y Hiny).
  specialize (T2 m (in_upto 12 1%N m ltac:(lia))).
  specialize (T3 d (in_upto 31 1%N d ltac:(lia))).
  rewrite all_chars_append, T1.
  change (String "-" (M ++ String "-" D)) with ("-" ++ M ++ "-" ++ D).
  rewrite !all_chars_append, (all_chars_in _ _ _ T2 HM),
    (all_chars_in _ _ _ T3 HD).
  reflexivity.
Qed.

Lemma str_of_Z_filename (z : Z) :
  (0 <= z)%Z -> Py.all_chars filename_char (Py.str_of_Z z) = true.
Proof.
  intro Hz.
  assert (E : Py.str_of_Z z = Py.str_of_N (Z.to_N z))
    by (destruct z; [reflexivity | reflexivity | lia]).
  rewrite E. destruct (str_of_N_spec (Z.to_N z)) as (c & s & -> & Hc & Hs & _).
  apply (all_chars_weaken Py.isdecimal); [apply decimal_filename |].
  cbn. now rewrite Hc, Hs.
Qed.

Lemma all_chars_without (p : ascii -> bool) (c : ascii) (s : string) :
  p c = false -> Py.all_chars p s = true -> Py.mem_char c s = false.
Proof.
  intros Hc. induction s as [|d s IH]; [reflexivity |].
  cbn. intro H. apply andb_prop in H as [Hd Hs]. rewrite (IH Hs), orb_false_r.
  destruct (Ascii.eqb c d) eqn:E; [| reflexivity].
  apply Ascii.eqb_eq in E. subst d. congruence.
Qed.

End FileNameFacts.

(** X15. For inputs that pass the checks of [agoda_scraper], the name of
    the results file is made of letters, digits, spaces, hyphens,
    underscores and full stops only, whatever the location text holds: it
    contains no slash and no backslash, so the file is written inside the
    output folder. *)
Theorem results_file_stays_in_folder
    (location check_in_date check_out_date : string) (adults : Z) :
  Agoda.check_inputs location check_in_date check_out_date adults = Ok tt ->
  Py.all_chars filename_char
    (Output.output_filename location check_in_date check_out_date adults)
  = true
  /\ Py.mem_char "/"
       (Output.output_filename location check_in_date check_out_date adults)
     = false
  /\ Py.mem_char "092"
       (Output.output_filename location check_in_date check_out_date adults)
     = false.
Proof.
  intro H.
  assert (Hall : Py.all_chars filename_char
                   (Output.output_filename location check_in_date
                      check_out_date adults) = true).
  { destruct (check_inputs_spec location check_in_date check_out_date adults)
      as [[Ha _] | [_ E]]; [| congruence].
    destruct Ha as (_ & Hadults & ci & co & Hci & Hco & _).
    unfold Output.output_filename, Output.safe_location.
    rewrite !all_chars_append.
    rewrite (all_chars_weaken Output.safe_char filename_char _ safe_filename
               (rstrip_all_chars _ _ (keep_all_chars _ location))).
    rewrite (all_chars_weaken date_char filename_char _ date_char_filename
               (strptime_chars _ _ Hci)).
    rewrite (all_chars_weaken date_char filename_char _ date_char_filename
               (strptime_chars _ _ Hco)).
    rewrite str_of_Z_filename by lia. reflexivity. }
  split; [exact Hall |].
  split; apply (all_chars_without filename_char); (reflexivity || exact Hall).
Qed.

(** A location text with path separators in it. *)
Lemma results_file_stays_in_folder_witness :
  Output.output_filename "../../etc/Kuala Lumpur " "2025-06-01" "2025-06-03" 2
  = "etcKuala Lumpur_2025-06-01_2025-06-03_2adults.json"
  /\ Py.mem_char "/"
       (Output.output_filename "../../etc/Kuala Lumpur " "2025-06-01"
          "2025-06-03" 2) = false.
Proof.
  split; [vm_compute; reflexivity |].
  exact (proj1 (proj2 (results_file_stays_in_folder "../../etc/Kuala Lumpur "
                         "2025-06-01" "2025-06-03" 2 eq_refl))).
Defined.

(** ** From the star class of the filters to the address of the results *)

Section AddressParameters.

Lemma contains_at_start (sub x : string) :
  Py.contains (sub ++ x) sub = true.
Proof.
  pose proof (prefix_append sub x) as H.
  destruct (sub ++ x); cbn [Py.contains]; now rewrite H.
Qed.

Lemma contains_append_l (a b sub : string) :
  Py.contains a sub = true -> Py.contains (a ++ b) sub = true.
Proof.
  induction a as [|c a IH].
  - destruct sub; [| discriminate]. intros _. now destruct b.
  - intro H. cbn [Py.contains] in H. apply orb_true_iff in H as [H | H].
    + apply prefix_true_split in H as [r E]. rewrite E, append_assoc.
      apply contains_at_start.
    + change (String c a ++ b) with (String c (a ++ b)).
      cbn [Py.contains]. rewrite (IH H). apply orb_true_r.
Qed.

Lemma contains_append_r (a b sub : string) :
  Py.contains b sub = true -> Py.contains (a ++ b) sub = true.
Proof.
  intro H. induction a as [|c a IH]; [exact H |].
  change (String c a ++ b) with (String c (a ++ b)).
  cbn [Py.contains]. rewrite IH. apply orb_true_r.
Qed.

Lemma prefix_across (c : ascii) (b : string) :
  forall sub a,
    Py.mem_char c sub = false ->
    prefix sub (a ++ String c b) = true -> prefix sub a = true.
Proof.
  induction sub as [|s0 sub IH]; intros a Hc H; [now destruct a |].
  apply mem_char_false_eqb in Hc as [Hs0 Hc]. rewrite Ascii.eqb_sym in Hs0.
  destruct a as [|x a].
  - cbn in H. destruct (ascii_dec s0 c) as [-> |]; [| discriminate H].
    now rewrite Ascii.eqb_refl in Hs0.
  - cbn in H |- *. destruct (ascii_dec s0 x); [| discriminate H].
    now apply IH.
Qed.

Lemma contains_append_false (a sub : string) (c : ascii) (b : string) :
  Py.mem_char c sub = false ->
  Py.contains a sub = false -> Py.contains (String c b) sub = false ->
  Py.contains (a ++ String c b) sub = false.
Proof.
  intros Hc Ha Hb. induction a as [|x a IH]; [exact Hb |].
  cbn [Py.contains] in Ha. apply orb_false_elim in Ha as [Hp Ha].
  change (String x a ++ String c b) with (String x (a ++ String c b)).
  cbn [Py.contains]. rewrite (IH Ha), orb_false_r.
  destruct (prefix sub (String x (a ++ String c b))) eqn:E; [| reflexivity].
  change (String x (a ++ String c b)) with (String x a ++ String c b) in E.
  apply prefix_across in E; [congruence | exact Hc].
Qed.

Lemma star_rating_loop_app (a b : list string) (init : option Z) :
  Main.star_rating_loop (a ++ b)%list init
  = Main.star_rating_loop b (Main.star_rating_loop a init).
Proof.
  revert init. induction a as [|f a IH]; intro init; [reflexivity |].
  cbn [app Main.star_rating_loop].
  destruct (Py.startswith f "class="); [| apply IH].
  destruct (Py.int (nth 1 (Py.split "=" f) EmptyString)); apply IH.
Qed.

Lemma star_rating_loop_others (l : list string) (init : option Z) :
  Forall (fun f => Py.startswith f "class=" = false) l ->
  Main.star_rating_loop l init = init.
Proof.
  intro H. induction H as [|f l Hf _ IH]; [reflexivity |].
  cbn [Main.star_rating_loop]. now rewrite Hf.
Qed.

Lemma star_rating_of_class (n : Z) (init : option Z) :
  Main.star_rating_loop ["class=" ++ Py.str_of_Z n] init = Some n.
Proof.
  cbn [Main.star_rating_loop]. unfold Py.startswith. rewrite prefix_append.
  change ("class=" ++ Py.str_of_Z n)
    with ("class" ++ String "=" (Py.str_of_Z n)).
  rewrite split_at_first_sep by reflexivity.
  rewrite split_without_sep by apply str_of_Z_without_equals.
  cbn [nth]. now rewrite int_of_str.
Qed.

End AddressParameters.

(** X16. The star class of the last filter [class=n] of a request, for
    [n] other than 0, arrives in the address of the Agoda results. When
    the address reached by the search holds neither parameter and the
    browser stays on the addresses it is sent to, two navigations are
    made: first to the address with [hotelAccom=34] appended, after a
    question mark when the address has none and after an ampersand
    otherwise, then to that address with [&hotelStarRating=n] appended.
    The class 0 adds no star parameter. *)
Theorem star_class_reaches_results_address
    (before after : list string) (n : Z) (current_url : string) :
  Forall (fun f => Py.startswith f "class=" = false) after ->
  Py.contains current_url "hotelAccom=34" = false ->
  Py.contains current_url "hotelStarRating" = false ->
  let star_rating :=
    Main.star_rating
      (Some (before ++ ("class=" ++ Py.str_of_Z n)%string :: after)%list) in
  let with_accommodation :=
    current_url ++ ResultsAddress.separator current_url ++ "hotelAccom=34" in
  star_rating = Some n
  /\ ResultsAddress.add_parameters (fun u => u) star_rating current_url
     = if (n =? 0)%Z then ([with_accommodation], with_accommodation)
       else ([with_accommodation;
              with_accommodation ++ "&hotelStarRating=" ++ Py.str_of_Z n],
             with_accommodation ++ "&hotelStarRating=" ++ Py.str_of_Z n).
Proof.
  intros Hafter Hacc Hstar. cbv zeta.
  assert (Hs : Main.star_rating
                 (Some (before ++ ("class=" ++ Py.str_of_Z n)%string :: after)%list)
               = Some n).
  { unfold Main.star_rating.
    change (("class=" ++ Py.str_of_Z n) :: after)
      with (["class=" ++ Py.str_of_Z n]%string ++ after)%list.
    rewrite !star_rating_loop_app, star_rating_loop_others by exact Hafter.
    apply star_rating_of_class. }
  split; [exact Hs |]. rewrite Hs.
  unfold ResultsAddress.add_parameters, ResultsAddress.add_accommodation.
  rewrite Hacc. cbn [negb].
  unfold ResultsAddress.add_star_rating.
  destruct (n =? 0)%Z; [reflexivity |].
  set (u := current_url ++ ResultsAddress.separator current_url
            ++ "hotelAccom=34").
  assert (Hq : Py.contains u "?" = true).
  { unfold u, ResultsAddress.separator.
    destruct (Py.contains current_url "?") eqn:E.
    - now apply contains_append_l.
    - apply contains_append_r. reflexivity. }
  assert (Hn : Py.contains u "hotelStarRating" = false).
  { unfold u, ResultsAddress.separator.
    destruct (Py.contains current_url "?");
      apply contains_append_false; (reflexivity || exact Hstar). }
  rewrite Hn. cbn [negb]. unfold ResultsAddress.separator.
  rewrite Hq. reflexivity.
Qed.

(** A request for four stars within three kilometres. *)
Lemma star_class_reaches_results_address_witness :
  Main.star_rating (Some ["class=4"; "distance=3000"]) = Some 4%Z
  /\ ResultsAddress.add_parameters (fun u => u)
       (Main.star_rating (Some ["class=4"; "distance=3000"]))
       "https://www.agoda.com/search?city=14524"
     = (["https://www.agoda.com/search?city=14524&hotelAccom=34";
         "https://www.agoda.com/search?city=14524&hotelAccom=34&hotelStarRating=4"],
        "https://www.agoda.com/search?city=14524&hotelAccom=34&hotelStarRating=4").
Proof.
  exact (star_class_reaches_results_address [] ["distance=3000"] 4
           "https://www.agoda.com/search?city=14524"
           ltac:(repeat constructor) eq_refl eq_refl).
Defined.

(** ** Where the coordinates of a record come from *)

Lemma extract_coordinates_some (raw_coords : string) (c : Booking.coordinates) :
  Booking.extract_coordinates raw_coords = Some c ->
  Booking.in_closed (-90) 90 (Booking.latitude c) = true
  /\ Booking.in_closed (-180) 180 (Booking.longitude c) = true.
Proof.
  unfold Booking.extract_coordinates.
  destruct (negb (Py.truthy raw_coords)); [discriminate |].
  destruct (Py.split "," raw_coords) as [|a [|b [|x l]]]; try discriminate.
  destruct (Py.float a) as [lat|]; [| discriminate].
  destruct (Py.float b) as [lng|]; [| discriminate].
  cbn [bind catch].
  destruct (Booking.in_closed (-90) 90 lat
            && Booking.in_closed (-180) 180 lng) eqn:E; [| discriminate].
  intro H; injection H as <-. now apply andb_prop in E.
Qed.

Lemma process_hotel_coordinates (w : Booking.world) (include_reviews : bool)
    (review_limit : Z) (h : Booking.raw_hotel) (r : Booking.hotel)
    (c : Booking.coordinates) :
  Booking.process_hotel w include_reviews review_limit h = Ok r ->
  Booking.coords r = Some c ->
  exists resp html raw_coords,
    Booking.http_get w (Booking.url r) = Ok resp
    /\ Booking.status resp = 200%Z
    /\ Booking.text resp = Ok html
    /\ Re.search Re.atlas_latlng html = Some raw_coords
    /\ Booking.extract_coordinates raw_coords = Some c.
Proof.
  unfold Booking.process_hotel. intro H.
  apply bind_ok_inv in H as (cs & Hc & H).
  apply bind_ok_inv in H as (i & _ & H).
  apply bind_ok_inv in H as (rt & _ & H).
  apply bind_ok_inv in H as (j & Hj & H).
  injection H as <-. cbn [Booking.coords Booking.url]. intros ->.
  destruct (Py.truthy (Booking.get_or_empty (Booking.raw_url h)));
    [| discriminate Hc].
  rewrite Hj in Hc. cbn [bind] in Hc.
  unfold Booking.get_hotel_coordinates in Hc.
  destruct (Booking.http_get w j) as [resp|e] eqn:Eg; [| discriminate Hc].
  cbn [bind] in Hc.
  destruct (Booking.status resp =? 200)%Z eqn:Es; [| discriminate Hc].
  cbn [negb] in Hc.
  destruct (Booking.text resp) as [html|e] eqn:Et; [| discriminate Hc].
  cbn [bind catch] in Hc.
  destruct (Re.search Re.atlas_latlng html) as [raw_coords|] eqn:Er;
    [| discriminate Hc].
  destruct (Py.truthy raw_coords); [| discriminate Hc].
  injection Hc as Hc.
  exists resp, html, raw_coords. apply Z.eqb_eq in Es.
  repeat split; assumption.
Qed.

(** X17. In the list returned for a batch, the coordinates of a record,
    when present, are those written in the [data-atlas-latlng] attribute
    of its detail page, which answered with the status 200, and they lie
    in the valid ranges, the latitude between -90 and 90 and the longitude
    between -180 and 180; a record has a distance only if it has
    coordinates. *)
Theorem record_coordinates_are_valid (w : Booking.world)
    (include_reviews : bool) (review_limit : Z)
    (raw_data : list Booking.raw_hotel) (r : Booking.hotel) :
  In r (Booking.enrich w include_reviews review_limit raw_data) ->
  (forall c,
      Booking.coords r = Some c ->
      Booking.in_closed (-90) 90 (Booking.latitude c) = true
      /\ Booking.in_closed (-180) 180 (Booking.longitude c) = true
      /\ exists resp html raw_coords,
          Booking.http_get w (Booking.url r) = Ok resp
          /\ Booking.status resp = 200%Z
          /\ Booking.text resp = Ok html
          /\ Re.search Re.atlas_latlng html = Some raw_coords
          /\ Booking.extract_coordinates raw_coords = Some c)
  /\ (Booking.distance_from_center r <> None -> Booking.coords r <> None).
Proof.
  intro Hin. unfold Booking.enrich in Hin.
  apply add_distances_in in Hin as (r0 & Hin & Hown & Hdist).
  apply without_exceptions_in in Hin as (h & _ & Hp).
  unfold own_fields in Hown. injection Hown as _ _ _ _ _ _ Hu _ Hc _.
  split.
  - intros c Hco. rewrite Hc in Hco. rewrite Hu.
    destruct (process_hotel_coordinates _ _ _ _ _ _ Hp Hco)
      as (resp & html & raw_coords & H1 & H2 & H3 & H4 & H5).
    destruct (extract_coordinates_some _ _ H5) as [Hlat Hlng].
    split; [exact Hlat |]. split; [exact Hlng |].
    exists resp, html, raw_coords. auto.
  - intros Hd Hnone. rewrite Hc in Hnone. apply Hd.
    rewrite (Hdist Hnone).
    now apply process_hotel_fetch_failure in Hp as [Hp _].
Qed.

(** The second card of the batch with two detail pages. *)
Lemma record_coordinates_are_valid_witness :
  exists r,
    In r (Booking.enrich Samples.two_detail_pages false 5
            [Samples.card_with_link; Samples.card_indah])
    /\ Booking.coords r
       = Some (Booking.mkcoords (Py.float_of_decimal false 316 (-2))
                 (Py.float_of_decimal false 10171 (-2)))
    /\ Booking.in_closed (-90) 90 (Py.float_of_decimal false 316 (-2)) = true.
Proof.
  assert (Hl : exists r1 r2,
             Booking.without_exceptions
               (Booking.gather Samples.two_detail_pages false 5
                  [Samples.card_with_link; Samples.card_indah]) = [r1; r2]
             /\ Booking.coords r1
                = Some (Booking.mkcoords (Py.float_of_decimal false 315 (-2))
                          (Py.float_of_decimal false 1017 (-1)))
             /\ Booking.coords r2
                = Some (Booking.mkcoords (Py.float_of_decimal false 316 (-2))
                          (Py.float_of_decimal false 10171 (-2)))).
  { eexists. eexists. split; [vm_compute; reflexivity |].
    split; vm_compute; reflexivity. }
  destruct Hl as (r1 & r2 & Hl & H1 & H2).
  set (c := Booking.mkcoords (Py.float_of_decimal false 315 (-2))
              (Py.float_of_decimal false 1017 (-1))) in *.
  assert (Hin : In (Booking.with_distance c r2)
                  (Booking.enrich Samples.two_detail_pages false 5
                     [Samples.card_with_link; Samples.card_indah])).
  { unfold Booking.enrich, Booking.add_distances. rewrite Hl.
    cbn [Booking.center_of]. rewrite H1. cbn [map]. right. left. reflexivity. }
  assert (Hc : Booking.coords (Booking.with_distance c r2)
               = Some (Booking.mkcoords (Py.float_of_decimal false 316 (-2))
                         (Py.float_of_decimal false 10171 (-2)))).
  { unfold Booking.with_distance. rewrite H2. reflexivity. }
  exists (Booking.with_distance c r2).
  split; [exact Hin |]. split; [exact Hc |].
  exact (proj1 (proj1 (record_coordinates_are_valid Samples.two_detail_pages
                         false 5 [Samples.card_with_link; Samples.card_indah]
                         _ Hin) _ Hc)).
Defined.

(** ** The star rating of an Agoda card *)

(** The test of the rating loop on one [span]. *)
Definition tells_stars (e : Agoda.element) : bool :=
  match Agoda.text_content e with
  | Some t => Py.truthy t && Py.contains t "stars out of 5"
  | None => false
  end.

Lemma rating_loop_first (e : Agoda.element) (after : list Agoda.element) :
  forall (before : list Agoda.element) (init : string),
    Forall (fun x => tells_stars x = false) before ->
    tells_stars e = true ->
    Agoda.rating_loop (before ++ e :: after)%list init = Agoda.inner_text e.
Proof.
  unfold tells_stars.
  induction before as [|x before IH]; intros init Hb He.
  - cbn [app Agoda.rating_loop].
    destruct (Agoda.text_content e) as [t|]; [| discriminate He].
    now rewrite He.
  - inversion Hb as [|? ? Hx Hrest]; subst.
    cbn [app Agoda.rating_loop].
    destruct (Agoda.text_content x) as [t|]; [rewrite Hx |]; now apply IH.
Qed.

Lemma rating_loop_none (l : list Agoda.element) (init : string) :
  Forall (fun x => tells_stars x = false) l ->
  Agoda.rating_loop l init = init.
Proof.
  unfold tells_stars. intro H. induction H as [|x l Hx _ IH]; [reflexivity |].
  cbn [Agoda.rating_loop].
  destruct (Agoda.text_content x) as [t|]; [rewrite Hx |]; exact IH.
Qed.

Lemma extract_hotel_info_rating (it : Agoda.item) (d : Agoda.hotel_data) :
  Agoda.extract_hotel_info it = Some d ->
  Agoda.hotel_rating d
  = let rating_text :=
      Agoda.rating_loop (Agoda.query_selector_all it "span") "N/A" in
    if Agoda.not_na rating_text
    then nth 0 (Py.split " " rating_text) EmptyString else "N/A".
Proof.
  unfold Agoda.extract_hotel_info, Agoda.extract_hotel_info_body.
  destruct (Agoda.name_loop it Agoda.hotel_name_selectors (Some "N/A"))
    as [nm|]; [| discriminate].
  destruct (negb (Agoda.not_na nm) || negb (Py.truthy nm)); [discriminate |].
  destruct (Agoda.price_of_text _) as [|f]; [discriminate |].
  destruct (Agoda.booking_url_entry _) as [b|]; [| discriminate].
  destruct (Agoda.image_url_entry _) as [i|]; [| discriminate].
  cbn. intro H; injection H as <-. reflexivity.
Qed.

(** X18. The star rating of a returned Agoda record is the text before
    the first space of the first [span] of the card whose text content
    holds the words [stars out of 5], the spans after it not being
    consulted, and it is [N/A] when no span holds these words. *)
Theorem agoda_rating_from_first_star_span (it : Agoda.item)
    (d : Agoda.hotel_data) :
  Agoda.extract_hotel_info it = Some d ->
  (forall before e after,
      Agoda.query_selector_all it "span" = (before ++ e :: after)%list ->
      Forall (fun x => tells_stars x = false) before ->
      tells_stars e = true ->
      Agoda.hotel_rating d
      = if Agoda.inner_text e =? "N/A" then "N/A"
        else nth 0 (Py.split " " (Agoda.inner_text e)) EmptyString)
  /\ (Forall (fun x => tells_stars x = false)
        (Agoda.query_selector_all it "span") ->
      Agoda.hotel_rating d = "N/A").
Proof.
  intro H. apply extract_hotel_info_rating in H. cbv zeta in H. split.
  - intros before e after E Hb He.
    rewrite H, E, rating_loop_first by assumption.
    unfold Agoda.not_na. now destruct (Agoda.inner_text e =? "N/A").
  - intro Hn. rewrite H, rating_loop_none by exact Hn. reflexivity.
Qed.

(** The card with two star spans: the first of them gives the rating. *)
Lemma agoda_rating_from_first_star_span_witness :
  exists d,
    Agoda.extract_hotel_info Pages.card_with_stars = Some d
    /\ Agoda.hotel_rating d = "4.5".
Proof.
  eexists. split; [vm_compute; reflexivity |].
  exact (proj1 (agoda_rating_from_first_star_span Pages.card_with_stars _ eq_refl)
           [Samples.node "Breakfast included" "class" "perk"]
           (Samples.node "4.5 stars out of 5" "class" "stars")
           [Samples.node "3 stars out of 5" "class" "stars"]
           eq_refl ltac:(repeat constructor) eq_refl).
Defined.
